(** * Judicial monitor: ingestion, classification and summary services

    A shallow embedding of [app/services/db_service.py],
    [app/services/ai_service.py], [app/api/judicial_api.py] and the
    request handlers of [app/main.py], and the properties of the ingestion
    pipeline proved over it.

    Conventions of the embedding.
    - A Python [str] is a [string] whose characters are the code points
      U+0000..U+00FF (Latin-1, which covers the Spanish text of the
      program); a literal with an accented letter is built from its code
      point, see [PyStr.o_acute] and friends.
    - A raised exception is a value of [outcome]; [try]/[except] is a match
      on it.
    - A dict read from JSON is a record with one [field] per key the code
      reads, typed as [app/models/schemas.py] declares it; a [field] tells a
      missing key from a key bound to [None], which [dict.get] with a
      default and the [in] operator tell apart.
    - The relational store is a record of tables, each a list of rows in
      insertion order; the session is created with [autoflush=False], so a
      query sees committed rows only.
    - What the program takes from outside is an argument: the reading of
      [datetime.now], the reply of the chat model, the answer of the
      registry. Library functions whose behaviour depends on the
      interpreter ([datetime.fromisoformat], [json.loads]) are section
      variables; [datetime.strptime], [json.dumps], [str.lower] and
      [str.strip] are modelled.
    - Calls to [logger] have no effect on any value and are left out. *)

From Stdlib Require Import List String Ascii ZArith Bool Lia DecimalString.
Import ListNotations.
Local Open Scope string_scope.
Local Open Scope Z_scope.

(** ** Python values *)

Module Py.

Inductive exn : Type :=
| ValueError
| TypeError
| AttributeError
| IntegrityError
| OverflowError
| Exception (msg : string).

Inductive outcome (A : Type) : Type :=
| Returned (a : A)
| Raised (e : exn).
Arguments Returned {A} a.
Arguments Raised {A} e.

(** A key of a dict: absent, bound to [None], or bound to a value. *)
Inductive field (A : Type) : Type :=
| Missing
| Null
| Val (a : A).
Arguments Missing {A}.
Arguments Null {A}.
Arguments Val {A} a.

(** [d.get(k)]: [None] stands for Python's [None]. *)
Definition get {A} (f : field A) : option A :=
  match f with
  | Val a => Some a
  | Missing | Null => None
  end.

(** [d.get(k, default)]. *)
Definition get_default {A} (f : field A) (default : A) : option A :=
  match f with
  | Missing => Some default
  | Null => None
  | Val a => Some a
  end.

(** [k in d]. *)
Definition has_key {A} (f : field A) : bool :=
  match f with
  | Missing => false
  | Null | Val _ => true
  end.

(** [str(x)] as an f-string renders a value that may be [None]. *)
Definition format_str (x : option string) : string :=
  match x with
  | Some s => s
  | None => "None"
  end.

(** Truth value of an optional string: [None] and [''] are false. *)
Definition truthy_str (x : option string) : bool :=
  match x with
  | None | Some "" => false
  | Some _ => true
  end.

End Py.
Import Py.

(** ** Strings *)

Module PyStr.

Definition code (c : ascii) : nat := nat_of_ascii c.

Definition chr (n : nat) : string := String (ascii_of_nat n) "".

Definition a_acute : string := chr 225.
Definition e_acute : string := chr 233.
Definition i_acute : string := chr 237.
Definition o_acute : string := chr 243.
Definition u_acute : string := chr 250.

Definition between (lo hi n : nat) : bool :=
  (Nat.leb lo n && Nat.leb n hi)%bool.

(** [str.lower] on one Latin-1 code point: A-Z, and the capitals
    U+00C0..U+00DE except the multiplication sign U+00D7. *)
Definition lower_char (c : ascii) : ascii :=
  let n := code c in
  if between 65 90 n then ascii_of_nat (n + 32)
  else if (between 192 214 n || between 216 222 n)%bool then ascii_of_nat (n + 32)
  else c.

Fixpoint lower (s : string) : string :=
  match s with
  | "" => ""
  | String c s' => String (lower_char c) (lower s')
  end.

Fixpoint startswith (p s : string) : bool :=
  match p, s with
  | "", _ => true
  | String a p', String b s' => (Ascii.eqb a b && startswith p' s')%bool
  | String _ _, "" => false
  end.

(** [needle in hay]. *)
Fixpoint contains (needle hay : string) : bool :=
  (startswith needle hay ||
   match hay with
   | "" => false
   | String _ hay' => contains needle hay'
   end)%bool.

(** [s.split(sep)[0]] for a one-character separator. *)
Fixpoint split_head (sep : ascii) (s : string) : string :=
  match s with
  | "" => ""
  | String c s' => if Ascii.eqb c sep then "" else String c (split_head sep s')
  end.

(** [sep.join(l)]. *)
Fixpoint join (sep : string) (l : list string) : string :=
  match l with
  | [] => ""
  | [x] => x
  | x :: l' => x ++ sep ++ join sep l'
  end.

(** [str.isspace] on one Latin-1 code point. *)
Definition is_space (c : ascii) : bool :=
  let n := code c in
  (between 9 13 n || between 28 32 n || Nat.eqb n 133 || Nat.eqb n 160)%bool.

Fixpoint lstrip (s : string) : string :=
  match s with
  | "" => ""
  | String c s' => if is_space c then lstrip s' else s
  end.

Fixpoint rev (s : string) : string :=
  match s with
  | "" => ""
  | String c s' => rev s' ++ String c ""
  end.

Definition rstrip (s : string) : string := rev (lstrip (rev s)).

Definition strip (s : string) : string := rstrip (lstrip s).

(** [str(n)] for a non-negative integer. *)
Definition str_nat (n : nat) : string := NilEmpty.string_of_uint (Nat.to_uint n).

End PyStr.

(** ** Dates *)

Module Dates.

(** A naive [datetime]; the UTC offset an ISO timestamp may carry is not
    part of the model. *)
Record datetime : Type := mkDatetime {
  year : Z; month : Z; day : Z;
  hour : Z; minute : Z; second : Z; microsecond : Z
}.

Definition midnight (y m d : Z) : datetime := mkDatetime y m d 0 0 0 0.

Definition is_digit (c : ascii) : bool := PyStr.between 48 57 (PyStr.code c).

Definition digit (c : ascii) : Z := Z.of_nat (PyStr.code c) - 48.

Definition in_range (lo hi : ascii) (c : ascii) : bool :=
  PyStr.between (PyStr.code lo) (PyStr.code hi) (PyStr.code c).

(** One alternative of a regex group: the value it reads and the rest of
    the input. *)
Definition alt : Type := string -> option (Z * string).

Definition two (ok1 ok2 : ascii -> bool) : alt := fun s =>
  match s with
  | String a (String b rest) =>
      if (ok1 a && ok2 b)%bool then Some (10 * digit a + digit b, rest) else None
  | _ => None
  end.

Definition one (ok : ascii -> bool) : alt := fun s =>
  match s with
  | String a rest => if ok a then Some (digit a, rest) else None
  | _ => None
  end.

Definition space_one (ok : ascii -> bool) : alt := fun s =>
  match s with
  | String " " (String b rest) => if ok b then Some (digit b, rest) else None
  | _ => None
  end.

Definition is_char (x : ascii) : ascii -> bool := Ascii.eqb x.

(** [%Y]: [\d\d\d\d]. *)
Definition re_Y : list alt :=
  [fun s =>
     match s with
     | String a (String b (String c (String d rest))) =>
         if (is_digit a && is_digit b && is_digit c && is_digit d)%bool
         then Some (1000 * digit a + 100 * digit b + 10 * digit c + digit d, rest)
         else None
     | _ => None
     end].

(** [%m]: [1[0-2]|0[1-9]|[1-9]]. *)
Definition re_m : list alt :=
  [two (is_char "1") (in_range "0" "2");
   two (is_char "0") (in_range "1" "9");
   one (in_range "1" "9")].

(** [%d]: [3[01]|[12]\d|0[1-9]|[1-9]| [1-9]]. *)
Definition re_d : list alt :=
  [two (is_char "3") (in_range "0" "1");
   two (in_range "1" "2") is_digit;
   two (is_char "0") (in_range "1" "9");
   one (in_range "1" "9");
   space_one (in_range "1" "9")].

(** A group followed by the rest of the pattern [k]: the alternatives are
    tried in order, and the next one is tried when the rest fails. *)
Fixpoint group {A} (alts : list alt) (k : Z -> string -> option A) (s : string)
  : option A :=
  match alts with
  | [] => None
  | a :: alts' =>
      match a s with
      | Some (v, rest) =>
          match k v rest with
          | Some r => Some r
          | None => group alts' k s
          end
      | None => group alts' k s
      end
  end.

Definition lit {A} (c : ascii) (k : string -> option A) (s : string) : option A :=
  match s with
  | String a rest => if Ascii.eqb a c then k rest else None
  | "" => None
  end.

(** [format_regex.match(data_string)] for the format ['%Y-%m-%d']: the
    three fields and what the match leaves unread. *)
Definition match_ymd (s : string) : option (Z * Z * Z * string) :=
  group re_Y (fun y => lit "-" (
  group re_m (fun m => lit "-" (
  group re_d (fun d rest => Some (y, m, d, rest))))) ) s.

Definition is_leap (y : Z) : bool :=
  ((y mod 4 =? 0) && (negb (y mod 100 =? 0) || (y mod 400 =? 0)))%bool.

Definition days_in_month (y m : Z) : Z :=
  if m =? 2 then (if is_leap y then 29 else 28)
  else if ((m =? 4) || (m =? 6) || (m =? 9) || (m =? 11))%bool then 30
  else 31.

(** The check of [date(year, month, day)]. *)
Definition valid_date (y m d : Z) : bool :=
  ((1 <=? y) && (y <=? 9999) && (1 <=? m) && (m <=? 12)
   && (1 <=? d) && (d <=? days_in_month y m))%bool.

(** [datetime.strptime(s, '%Y-%m-%d')]: [ValueError] when the text does
    not match, when text remains after the match, or when the day does
    not exist. *)
Definition strptime_ymd (s : string) : outcome datetime :=
  match match_ymd s with
  | None => Raised ValueError
  | Some (y, m, d, rest) =>
      match rest with
      | "" => if valid_date y m d then Returned (midnight y m d) else Raised ValueError
      | String _ _ => Raised ValueError
      end
  end.

(** The text [YYYY-MM-DD] of a date, each field zero padded
    ([date.isoformat]): the form the properties below are stated on. *)
Definition digit_char (n : Z) : ascii := ascii_of_nat (48 + Z.to_nat n).

Definition pad2 (n : Z) : string :=
  String (digit_char (n / 10)) (String (digit_char (n mod 10)) "").

Definition pad4 (n : Z) : string :=
  String (digit_char (n / 1000)) (String (digit_char (n / 100 mod 10))
    (String (digit_char (n / 10 mod 10)) (String (digit_char (n mod 10)) ""))).

Definition isoformat_date (y m d : Z) : string :=
  pad4 y ++ "-" ++ pad2 m ++ "-" ++ pad2 d.

Section ParseDate.

(** [datetime.fromisoformat] of the interpreter the program runs on:
    the forms it accepts differ between Python versions, so it is a
    parameter; on a [str] it returns a datetime or raises
    [ValueError] ([None] here). *)
Variable fromisoformat : string -> option datetime.

Definition fromisoformat_call (s : string) : outcome datetime :=
  match fromisoformat s with
  | Some d => Returned d
  | None => Raised ValueError
  end.

(** [DatabaseService.parse_date]. Each [except] clause names
    [ValueError] (the second one [IndexError] too, which [split] never
    causes); any other exception would propagate. *)
Definition parse_date (date_str : option string) : outcome (option datetime) :=
  if negb (truthy_str date_str) then Returned None
  else
    let s := format_str date_str in
    match strptime_ymd s with
    | Returned d => Returned (Some d)
    | Raised ValueError =>
        match strptime_ymd (PyStr.split_head "T" s) with
        | Returned d => Returned (Some d)
        | Raised ValueError =>
            match fromisoformat_call s with
            | Returned d => Returned (Some d)
            | Raised ValueError => Returned None
            | Raised e => Raised e
            end
        | Raised e => Raised e
        end
    | Raised e => Raised e
    end.

End ParseDate.

End Dates.
Import Dates.

(** ** The relational store ([app/models/database.py]) *)

Module Empresa.
Record t : Type := mk {
  id : option Z;
  nombre : option string;
  tipo_persona : option string;
  nit : option string;
  fecha_creacion : option datetime
}.

Definition set_nit (v : option string) (e : t) : t :=
  mk (id e) (nombre e) (tipo_persona e) v (fecha_creacion e).
End Empresa.

Module Proceso.
Record t : Type := mk {
  id : option Z;
  id_proceso_api : option string;
  llave_proceso : option string;
  fecha_proceso : option datetime;
  fecha_ultima_actuacion : option datetime;
  despacho : option string;
  departamento : option string;
  sujetos_procesales : option string;
  clase_proceso : option string;
  tipo_proceso : option string;
  subtipo_proceso : option string;
  ubicacion_expediente : option string;
  es_privado : option bool;
  demandantes : option string;
  demandados : option string;
  resumen_generado : option string;
  fecha_consulta : option datetime;
  empresa_id : option Z
}.

Definition set_fecha_ultima_actuacion (v : option datetime) (p : t) : t :=
  mk (id p) (id_proceso_api p) (llave_proceso p) (fecha_proceso p)
     v (despacho p) (departamento p)
     (sujetos_procesales p) (clase_proceso p) (tipo_proceso p)
     (subtipo_proceso p) (ubicacion_expediente p) (es_privado p)
     (demandantes p) (demandados p) (resumen_generado p)
     (fecha_consulta p) (empresa_id p).
Definition set_fecha_consulta (v : option datetime) (p : t) : t :=
  mk (id p) (id_proceso_api p) (llave_proceso p) (fecha_proceso p)
     (fecha_ultima_actuacion p) (despacho p) (departamento p)
     (sujetos_procesales p) (clase_proceso p) (tipo_proceso p)
     (subtipo_proceso p) (ubicacion_expediente p) (es_privado p)
     (demandantes p) (demandados p) (resumen_generado p)
     v (empresa_id p).
(** The five scalar assignments of [guardar_detalle_proceso]. *)
Definition set_detalle (clase tipo subtipo ubicacion : option string)
    (privado : option bool) (p : t) : t :=
  mk (id p) (id_proceso_api p) (llave_proceso p) (fecha_proceso p)
     (fecha_ultima_actuacion p) (despacho p) (departamento p)
     (sujetos_procesales p) clase tipo subtipo ubicacion privado
     (demandantes p) (demandados p) (resumen_generado p)
     (fecha_consulta p) (empresa_id p).
Definition set_demandantes (v : option string) (p : t) : t :=
  mk (id p) (id_proceso_api p) (llave_proceso p) (fecha_proceso p)
     (fecha_ultima_actuacion p) (despacho p) (departamento p)
     (sujetos_procesales p) (clase_proceso p) (tipo_proceso p)
     (subtipo_proceso p) (ubicacion_expediente p) (es_privado p)
     v (demandados p) (resumen_generado p)
     (fecha_consulta p) (empresa_id p).
Definition set_demandados (v : option string) (p : t) : t :=
  mk (id p) (id_proceso_api p) (llave_proceso p) (fecha_proceso p)
     (fecha_ultima_actuacion p) (despacho p) (departamento p)
     (sujetos_procesales p) (clase_proceso p) (tipo_proceso p)
     (subtipo_proceso p) (ubicacion_expediente p) (es_privado p)
     (demandantes p) v (resumen_generado p)
     (fecha_consulta p) (empresa_id p).
(** The assignment of [guardar_resumen_proceso]. *)
Definition set_resumen_generado (v : option string) (p : t) : t :=
  mk (id p) (id_proceso_api p) (llave_proceso p) (fecha_proceso p)
     (fecha_ultima_actuacion p) (despacho p) (departamento p)
     (sujetos_procesales p) (clase_proceso p) (tipo_proceso p)
     (subtipo_proceso p) (ubicacion_expediente p) (es_privado p)
     (demandantes p) (demandados p) v
     (fecha_consulta p) (empresa_id p).
End Proceso.

Module Actuacion.
Record t : Type := mk {
  id : option Z;
  id_reg_actuacion : option string;
  cons_actuacion : option Z;
  fecha_actuacion : option datetime;
  actuacion : option string;
  anotacion : option string;
  fecha_inicial : option datetime;
  fecha_final : option datetime;
  fecha_registro : option datetime;
  con_documentos : option bool;
  proceso_id : option Z;
  nivel_urgencia : option string;
  tipo_actuacion : option string;
  requiere_accion : option bool;
  justificacion : option string
}.

(** The four assignments of [guardar_clasificacion_actuacion]. *)
Definition set_clasificacion (nivel tipo : option string)
    (requiere : option bool) (justif : option string) (a : t) : t :=
  mk (id a) (id_reg_actuacion a) (cons_actuacion a) (fecha_actuacion a)
     (actuacion a) (anotacion a) (fecha_inicial a) (fecha_final a)
     (fecha_registro a) (con_documentos a) (proceso_id a)
     nivel tipo requiere justif.
End Actuacion.

Module Documento.
Record t : Type := mk {
  id : option Z;
  id_reg_documento : option string;
  nombre_documento : option string;
  fecha_documento : option datetime;
  fecha_publicacion : option datetime;
  url_documento : option string;
  ruta_local : option string;
  actuacion_id : option Z
}.
End Documento.

(** ** The dicts the services read *)

Module Datos.

(** [datos_proceso], one entry of a search reply. *)
Record Proceso : Type := mkProceso {
  idProceso : field string;
  llaveProceso : field string;
  fechaProceso : field string;
  fechaUltimaActuacion : field string;
  despacho : field string;
  departamento : field string;
  sujetosProcesales : field string
}.

(** [datos_empresa], the party hint. *)
Record Empresa : Type := mkEmpresa {
  nombre : field string;
  tipo_persona : field string;
  nit : field string
}.

(** [detalle] / [detalle_proceso], the reply of [Proceso/Detalle]; the
    keys [llaveProceso] and [despacho] carry a prefix here, the names being
    taken by the record above. *)
Record Detalle : Type := mkDetalle {
  d_llaveProceso : field string;
  d_despacho : field string;
  claseProceso : field string;
  tipoProceso : field string;
  subTipoProceso : field string;
  ubicacionExpediente : field string;
  esPrivado : field bool;
  demandantes : field (list string);
  demandados : field (list string)
}.

(** [act_data] / [actuacion], one entry of [Proceso/Actuaciones]. *)
Record Actuacion : Type := mkActuacion {
  idRegActuacion : field string;
  consActuacion : field Z;
  fechaActuacion : field string;
  actuacion : field string;
  anotacion : field string;
  fechaInicial : field string;
  fechaFinal : field string;
  fechaRegistro : field string;
  conDocumentos : field bool
}.

(** [clasificacion], the dict the classifier returns. *)
Record Clasificacion : Type := mkClasificacion {
  nivel_urgencia : field string;
  tipo_actuacion : field string;
  requiere_accion : field bool;
  justificacion : field string
}.

(** Truth value of the hint: a dict is false when it has no key. *)
Definition empresa_truthy (e : Empresa) : bool :=
  (has_key (nombre e) || has_key (tipo_persona e) || has_key (nit e))%bool.

(** [doc_data], one entry of [Proceso/DocumentosActuacion]. *)
Record Documento : Type := mkDocumento {
  idRegDocumento : field string;
  nombreDocumento : field string;
  fechaDocumento : field string;
  fechaPublicacion : field string;
  urlDocumento : field string
}.

(** [documentos], the reply of [Proceso/DocumentosActuacion]. *)
Record Documentos : Type := mkDocumentos {
  documentos : field (list Documento)
}.

(** [resultados], the reply of a search. *)
Record Resultados : Type := mkResultados {
  procesos : field (list Proceso)
}.

(** [actuaciones], the reply of [Proceso/Actuaciones]. *)
Record Actuaciones : Type := mkActuaciones {
  actuaciones : field (list Actuacion)
}.

End Datos.

(** ** [json.dumps] on the party-name lists *)

Module Json.

Definition hex_digit (n : nat) : ascii :=
  if Nat.ltb n 10 then ascii_of_nat (48 + n) else ascii_of_nat (87 + n).

(** One character of a string under [ensure_ascii=True]. *)
Definition escape_char (c : ascii) : string :=
  let n := PyStr.code c in
  if Nat.eqb n 34 then "\" ++ PyStr.chr 34
  else if Nat.eqb n 92 then "\\"
  else if Nat.eqb n 10 then "\n"
  else if Nat.eqb n 13 then "\r"
  else if Nat.eqb n 9 then "\t"
  else if Nat.eqb n 8 then "\b"
  else if Nat.eqb n 12 then "\f"
  else if PyStr.between 32 126 n then String c ""
  else "\u00" ++ String (hex_digit (Nat.div n 16)) (String (hex_digit (Nat.modulo n 16)) "").

Fixpoint escape (s : string) : string :=
  match s with
  | "" => ""
  | String c s' => escape_char c ++ escape s'
  end.

Definition dumps_str (s : string) : string :=
  PyStr.chr 34 ++ escape s ++ PyStr.chr 34.

(** [json.dumps(v)] for [v] a list of strings or [None]. *)
Definition dumps (v : option (list string)) : string :=
  match v with
  | None => "null"
  | Some l => "[" ++ PyStr.join ", " (map dumps_str l) ++ "]"
  end.

End Json.

(** ** [DatabaseService] ([app/services/db_service.py]) *)

Module DatabaseService.

Record Store : Type := mkStore {
  empresas : list Empresa.t;
  procesos : list Proceso.t;
  actuaciones : list Actuacion.t;
  documentos : list Documento.t
}.

Definition set_empresas (v : list Empresa.t) (s : Store) : Store :=
  mkStore v (procesos s) (actuaciones s) (documentos s).
Definition set_procesos (v : list Proceso.t) (s : Store) : Store :=
  mkStore (empresas s) v (actuaciones s) (documentos s).
Definition set_actuaciones (v : list Actuacion.t) (s : Store) : Store :=
  mkStore (empresas s) (procesos s) v (documentos s).

(** A call on the session: the store it leaves, and what it returns or
    raises. *)
Definition M (A : Type) : Type := Store -> Store * outcome A.

Definition ret {A} (a : A) : M A := fun s => (s, Returned a).
Definition raise {A} (e : exn) : M A := fun s => (s, Raised e).
Definition bind {A B} (m : M A) (k : A -> M B) : M B := fun s =>
  match m s with
  | (s', Returned a) => k a s'
  | (s', Raised e) => (s', Raised e)
  end.
Definition lift {A} (o : outcome A) : M A := fun s => (s, o).
Definition query {A} (q : Store -> A) : M A := fun s => (s, Returned (q s)).

Notation "x <- m ;; k" := (bind m (fun x => k))
  (at level 61, m at next level, right associativity).

(** Comparison of a column with a Python value: [col == None] is
    rendered [col IS NULL]. *)
Definition eq_str (a b : option string) : bool :=
  match a, b with
  | None, None => true
  | Some x, Some y => String.eqb x y
  | _, _ => false
  end.

Definition eq_id (a b : option Z) : bool :=
  match a, b with
  | None, None => true
  | Some x, Some y => Z.eqb x y
  | _, _ => false
  end.

(** [db.query(T).filter(T.col == v).first()]. *)
Definition first_by {T} (col : T -> option string) (v : option string)
    (tbl : list T) : option T :=
  find (fun r => eq_str (col r) v) tbl.

(** The key a new row receives: one more than the largest in the table. *)
Definition max_id {T} (id : T -> option Z) (tbl : list T) : Z :=
  fold_right (fun r m => match id r with Some i => Z.max i m | None => m end) 0 tbl.

Definition next_id {T} (id : T -> option Z) (tbl : list T) : Z :=
  max_id id tbl + 1.

(** A [unique=True] column accepts a value no row holds yet, and any
    number of NULLs. *)
Definition unique_ok {T} (col : T -> option string) (v : option string)
    (tbl : list T) : bool :=
  match v with
  | None => true
  | Some _ => negb (existsb (fun r => eq_str (col r) v) tbl)
  end.

(** [UPDATE ... WHERE id = ...]. *)
Definition update_row {T} (id : T -> option Z) (row : T) (tbl : list T) : list T :=
  map (fun r => if eq_id (id r) (id row) then row else r) tbl.

(** A column declared with [default=...] takes the default on INSERT when
    the attribute is [None]. *)
Definition insert_default {A} (v : option A) (default : A) : option A :=
  match v with
  | None => Some default
  | Some a => Some a
  end.

(** [guardar_empresa], the update of a party found by name: the
    statement is refused when another row already holds the nit. *)
Definition update_nit (e : Empresa.t) (nit : option string) : M Empresa.t := fun s =>
  if unique_ok Empresa.nit nit
       (filter (fun r => negb (eq_id (Empresa.id r) (Empresa.id e))) (empresas s))
  then
    let e' := Empresa.set_nit nit e in
    (set_empresas (update_row Empresa.id e' (empresas s)) s, Returned e')
  else (s, Raised IntegrityError).

(** [db.add(e); db.commit(); db.refresh(e)] for a new party: the INSERT
    fills the columns that have a default, and is refused when the nit
    is taken; [now] is the clock, for [fecha_creacion]. *)
Definition insert_empresa (e : Empresa.t) (now : datetime) : M Empresa.t := fun s =>
  if unique_ok Empresa.nit (Empresa.nit e) (empresas s) then
    let e' := Empresa.mk (Some (next_id Empresa.id (empresas s)))
                (Empresa.nombre e)
                (insert_default (Empresa.tipo_persona e) "jur")
                (Empresa.nit e)
                (insert_default (Empresa.fecha_creacion e) now) in
    (set_empresas (empresas s ++ [e']) s, Returned e')
  else (s, Raised IntegrityError).

(** [guardar_empresa(db, datos_empresa)]; [now] is the clock at the
    INSERT, for the default of [fecha_creacion]. *)
Definition guardar_empresa (datos_empresa : Datos.Empresa) (now : datetime)
  : M Empresa.t :=
  let nombre := get (Datos.nombre datos_empresa) in
  let nit := get (Datos.nit datos_empresa) in
  by_nit <- query (fun s =>
    if truthy_str nit then first_by Empresa.nit nit (empresas s) else None) ;;
  match by_nit with
  | Some empresa => ret empresa
  | None =>
      by_nombre <- query (fun s => first_by Empresa.nombre nombre (empresas s)) ;;
      match by_nombre with
      | Some empresa =>
          if (truthy_str nit && negb (truthy_str (Empresa.nit empresa)))%bool
          then update_nit empresa nit
          else ret empresa
      | None =>
          insert_empresa
            (Empresa.mk None nombre
               (get_default (Datos.tipo_persona datos_empresa) "jur")
               nit None)
            now
      end
  end.

(** [db.add(p); db.commit(); db.refresh(p)] for a new process. *)
Definition insert_proceso (p : Proceso.t) : M Proceso.t := fun s =>
  if unique_ok Proceso.id_proceso_api (Proceso.id_proceso_api p) (procesos s) then
    let p' := Proceso.mk (Some (next_id Proceso.id (procesos s)))
                (Proceso.id_proceso_api p) (Proceso.llave_proceso p)
                (Proceso.fecha_proceso p) (Proceso.fecha_ultima_actuacion p)
                (Proceso.despacho p) (Proceso.departamento p)
                (Proceso.sujetos_procesales p) (Proceso.clase_proceso p)
                (Proceso.tipo_proceso p) (Proceso.subtipo_proceso p)
                (Proceso.ubicacion_expediente p)
                (insert_default (Proceso.es_privado p) false)
                (Proceso.demandantes p) (Proceso.demandados p)
                (Proceso.resumen_generado p) (Proceso.fecha_consulta p)
                (Proceso.empresa_id p) in
    (set_procesos (procesos s ++ [p']) s, Returned p')
  else (s, Raised IntegrityError).

(** [db.commit(); db.refresh(p)] after assignments to a loaded process. *)
Definition update_proceso (p : Proceso.t) : M Proceso.t := fun s =>
  (set_procesos (update_row Proceso.id p (procesos s)) s, Returned p).

(** [guardar_detalle_proceso(db, id_proceso_api, detalle)]. *)
Definition guardar_detalle_proceso (id_proceso_api : option string)
    (detalle : Datos.Detalle) : M (option Proceso.t) :=
  proceso <- query (fun s =>
    first_by Proceso.id_proceso_api id_proceso_api (procesos s)) ;;
  match proceso with
  | None => ret None
  | Some proceso =>
      let p1 := Proceso.set_detalle
                  (get (Datos.claseProceso detalle))
                  (get (Datos.tipoProceso detalle))
                  (get (Datos.subTipoProceso detalle))
                  (get (Datos.ubicacionExpediente detalle))
                  (get_default (Datos.esPrivado detalle) false)
                  proceso in
      let p2 := if has_key (Datos.demandantes detalle)
                then Proceso.set_demandantes
                       (Some (Json.dumps (get (Datos.demandantes detalle)))) p1
                else p1 in
      let p3 := if has_key (Datos.demandados detalle)
                then Proceso.set_demandados
                       (Some (Json.dumps (get (Datos.demandados detalle)))) p2
                else p2 in
      p <- update_proceso p3 ;;
      ret (Some p)
  end.

Section WithInterpreter.

Variable fromisoformat : string -> option datetime.

(** [guardar_proceso(db, datos_proceso, datos_empresa)]; [now_empresa]
    and [now] are the readings of [datetime.now] at the party's INSERT
    and in the body. *)
Definition guardar_proceso (datos_proceso : Datos.Proceso)
    (datos_empresa : option Datos.Empresa) (now_empresa now : datetime)
  : M Proceso.t :=
  let id_proceso_api := get (Datos.idProceso datos_proceso) in
  proceso_existente <- query (fun s =>
    first_by Proceso.id_proceso_api id_proceso_api (procesos s)) ;;
  match proceso_existente with
  | Some proceso_existente =>
      fecha_ultima_actuacion <-
        lift (parse_date fromisoformat (get (Datos.fechaUltimaActuacion datos_proceso))) ;;
      let p1 :=
        match fecha_ultima_actuacion with
        | Some d => Proceso.set_fecha_ultima_actuacion (Some d) proceso_existente
        | None => proceso_existente
        end in
      update_proceso (Proceso.set_fecha_consulta (Some now) p1)
  | None =>
      empresa_id <-
        match datos_empresa with
        | Some de =>
            if Datos.empresa_truthy de then
              empresa <- guardar_empresa de now_empresa ;;
              ret (Empresa.id empresa)
            else ret None
        | None => ret None
        end ;;
      fecha_proceso <-
        lift (parse_date fromisoformat (get (Datos.fechaProceso datos_proceso))) ;;
      fecha_ultima_actuacion <-
        lift (parse_date fromisoformat (get (Datos.fechaUltimaActuacion datos_proceso))) ;;
      insert_proceso
        (Proceso.mk None id_proceso_api
           (get (Datos.llaveProceso datos_proceso))
           fecha_proceso fecha_ultima_actuacion
           (get (Datos.despacho datos_proceso))
           (get (Datos.departamento datos_proceso))
           (get (Datos.sujetosProcesales datos_proceso))
           None None None None None None None None
           (Some now) empresa_id)
  end.

(** The [Actuacion(...)] the loop of [guardar_actuaciones] builds. *)
Definition nueva_actuacion (act_data : Datos.Actuacion) (proceso : Proceso.t)
  : outcome Actuacion.t :=
  match parse_date fromisoformat (get (Datos.fechaActuacion act_data)) with
  | Raised e => Raised e
  | Returned fecha_actuacion =>
  match parse_date fromisoformat (get (Datos.fechaInicial act_data)) with
  | Raised e => Raised e
  | Returned fecha_inicial =>
  match parse_date fromisoformat (get (Datos.fechaFinal act_data)) with
  | Raised e => Raised e
  | Returned fecha_final =>
  match parse_date fromisoformat (get (Datos.fechaRegistro act_data)) with
  | Raised e => Raised e
  | Returned fecha_registro =>
      Returned
        (Actuacion.mk None
           (get (Datos.idRegActuacion act_data))
           (get (Datos.consActuacion act_data))
           fecha_actuacion
           (get (Datos.actuacion act_data))
           (get (Datos.anotacion act_data))
           fecha_inicial fecha_final fecha_registro
           (get_default (Datos.conDocumentos act_data) false)
           (Proceso.id proceso)
           None None None None)
  end end end end.

(** An element of [actuaciones_guardadas] before the commit: a row read
    from the store, or an object added to the session. *)
Inductive guardada : Type :=
| Existente (a : Actuacion.t)
| Pendiente (a : Actuacion.t).

(** The [for] loop of [guardar_actuaciones]. The session does not
    flush before a query, so every lookup reads the table [tbl] as it
    was when the call began. *)
Fixpoint recorrer (tbl : list Actuacion.t) (proceso : Proceso.t)
    (actuaciones : list Datos.Actuacion) : outcome (list guardada) :=
  match actuaciones with
  | [] => Returned []
  | act_data :: resto =>
      let id_reg_actuacion := get (Datos.idRegActuacion act_data) in
      match first_by Actuacion.id_reg_actuacion id_reg_actuacion tbl with
      | Some actuacion_existente =>
          match recorrer tbl proceso resto with
          | Returned l => Returned (Existente actuacion_existente :: l)
          | Raised e => Raised e
          end
      | None =>
          match nueva_actuacion act_data proceso with
          | Raised e => Raised e
          | Returned nueva =>
              match recorrer tbl proceso resto with
              | Returned l => Returned (Pendiente nueva :: l)
              | Raised e => Raised e
              end
          end
      end
  end.

(** An [Integer] column of SQLite holds a signed integer of 64 bits:
    the driver refuses to bind a Python [int] outside that range, with
    [OverflowError]. *)
Definition sqlite_integer_ok (v : option Z) : bool :=
  match v with
  | None => true
  | Some z => ((- 2 ^ 63 <=? z) && (z <=? 2 ^ 63 - 1))%bool
  end.

(** [db.commit()] followed by the [db.refresh] loop: the pending
    objects are inserted one statement each, in the order they were
    added. A statement fails with [OverflowError] when [cons_actuacion],
    the one integer column filled from the record, does not fit the
    column, and with [IntegrityError] when [UNIQUE(id_reg_actuacion)]
    refuses the row; the first statement that fails ends the commit.
    A session that sends the pending rows in one statement binds every
    parameter before the constraint is checked, and differs from this
    only in which of the two exceptions it raises when both a sequence
    number that does not fit and a repeated identifier are pending.
    The result is the table and [actuaciones_guardadas] with every
    object as the store holds it. *)
Fixpoint confirmar (tbl : list Actuacion.t) (l : list guardada)
  : outcome (list Actuacion.t * list Actuacion.t) :=
  match l with
  | [] => Returned (tbl, [])
  | Existente a :: l' =>
      match confirmar tbl l' with
      | Returned (tbl', rows) => Returned (tbl', a :: rows)
      | Raised e => Raised e
      end
  | Pendiente a :: l' =>
      if negb (sqlite_integer_ok (Actuacion.cons_actuacion a)) then Raised OverflowError
      else
      if unique_ok Actuacion.id_reg_actuacion (Actuacion.id_reg_actuacion a) tbl then
        let a' := Actuacion.mk (Some (next_id Actuacion.id tbl))
                    (Actuacion.id_reg_actuacion a) (Actuacion.cons_actuacion a)
                    (Actuacion.fecha_actuacion a) (Actuacion.actuacion a)
                    (Actuacion.anotacion a) (Actuacion.fecha_inicial a)
                    (Actuacion.fecha_final a) (Actuacion.fecha_registro a)
                    (insert_default (Actuacion.con_documentos a) false)
                    (Actuacion.proceso_id a)
                    (Actuacion.nivel_urgencia a) (Actuacion.tipo_actuacion a)
                    (insert_default (Actuacion.requiere_accion a) false)
                    (Actuacion.justificacion a) in
        match confirmar (tbl ++ [a']) l' with
        | Returned (tbl', rows) => Returned (tbl', a' :: rows)
        | Raised e => Raised e
        end
      else Raised IntegrityError
  end.

(** [guardar_actuaciones(db, id_proceso_api, actuaciones)]. A commit
    that fails leaves the store as it was. *)
Definition guardar_actuaciones (id_proceso_api : option string)
    (actuaciones_in : list Datos.Actuacion) : M (list Actuacion.t) :=
  proceso <- query (fun s =>
    first_by Proceso.id_proceso_api id_proceso_api (procesos s)) ;;
  match proceso with
  | None => ret []
  | Some proceso =>
      tbl <- query actuaciones ;;
      actuaciones_guardadas <- lift (recorrer tbl proceso actuaciones_in) ;;
      match confirmar tbl actuaciones_guardadas with
      | Raised e => raise e
      | Returned (tbl', rows) => fun s => (set_actuaciones tbl' s, Returned rows)
      end
  end.

End WithInterpreter.

Definition update_actuacion (a : Actuacion.t) : M Actuacion.t := fun s =>
  (set_actuaciones (update_row Actuacion.id a (actuaciones s)) s, Returned a).

(** [guardar_clasificacion_actuacion(db, id_reg_actuacion, clasificacion)]. *)
Definition guardar_clasificacion_actuacion (id_reg_actuacion : option string)
    (clasificacion : Datos.Clasificacion) : M (option Actuacion.t) :=
  actuacion <- query (fun s =>
    first_by Actuacion.id_reg_actuacion id_reg_actuacion (actuaciones s)) ;;
  match actuacion with
  | None => ret None
  | Some actuacion =>
      a <- update_actuacion
             (Actuacion.set_clasificacion
                (get (Datos.nivel_urgencia clasificacion))
                (get (Datos.tipo_actuacion clasificacion))
                (get_default (Datos.requiere_accion clasificacion) false)
                (get (Datos.justificacion clasificacion))
                actuacion) ;;
      ret (Some a)
  end.

Definition set_documentos (v : list Documento.t) (s : Store) : Store :=
  mkStore (empresas s) (procesos s) (actuaciones s) v.

(** [guardar_resumen_proceso(db, id_proceso_api, resumen)]. *)
Definition guardar_resumen_proceso (id_proceso_api : option string) (resumen : string)
  : M (option Proceso.t) :=
  proceso <- query (fun s =>
    first_by Proceso.id_proceso_api id_proceso_api (procesos s)) ;;
  match proceso with
  | None => ret None
  | Some proceso =>
      p <- update_proceso (Proceso.set_resumen_generado (Some resumen) proceso) ;;
      ret (Some p)
  end.

(** [url_documento] of a new document: the f-string of
    [guardar_documentos]. *)
Definition url_descarga (id_reg_documento : option string) : string :=
  "https://consultaprocesos.ramajudicial.gov.co:448/api/v2/Descarga/Documento/"
  ++ format_str id_reg_documento.

Section Documentos.

Variable fromisoformat : string -> option datetime.

(** The [Documento(...)] the loop of [guardar_documentos] builds. *)
Definition nuevo_documento (doc_data : Datos.Documento) (actuacion : Actuacion.t)
  : outcome Documento.t :=
  let id_reg_documento := get (Datos.idRegDocumento doc_data) in
  match parse_date fromisoformat (get (Datos.fechaDocumento doc_data)) with
  | Raised e => Raised e
  | Returned fecha_documento =>
  match parse_date fromisoformat (get (Datos.fechaPublicacion doc_data)) with
  | Raised e => Raised e
  | Returned fecha_publicacion =>
      Returned
        (Documento.mk None id_reg_documento
           (get (Datos.nombreDocumento doc_data))
           fecha_documento fecha_publicacion
           (Some (url_descarga id_reg_documento))
           None
           (Actuacion.id actuacion))
  end end.

(** An element of [documentos_guardados] before the commit. *)
Inductive guardado : Type :=
| DocExistente (d : Documento.t)
| DocPendiente (d : Documento.t).

(** The [for] loop of [guardar_documentos]; as in [guardar_actuaciones]
    every lookup reads the table as it was when the call began. *)
Fixpoint recorrer_documentos (tbl : list Documento.t) (actuacion : Actuacion.t)
    (documentos : list Datos.Documento) : outcome (list guardado) :=
  match documentos with
  | [] => Returned []
  | doc_data :: resto =>
      let id_reg_documento := get (Datos.idRegDocumento doc_data) in
      match first_by Documento.id_reg_documento id_reg_documento tbl with
      | Some documento_existente =>
          match recorrer_documentos tbl actuacion resto with
          | Returned l => Returned (DocExistente documento_existente :: l)
          | Raised e => Raised e
          end
      | None =>
          match nuevo_documento doc_data actuacion with
          | Raised e => Raised e
          | Returned nuevo =>
              match recorrer_documentos tbl actuacion resto with
              | Returned l => Returned (DocPendiente nuevo :: l)
              | Raised e => Raised e
              end
          end
      end
  end.

(** [db.commit()] and the [db.refresh] loop of [guardar_documentos]:
    the inserts in the order of [db.add], each checked against
    [UNIQUE(id_reg_documento)]; [None] is the [IntegrityError]. *)
Fixpoint confirmar_documentos (tbl : list Documento.t) (l : list guardado)
  : option (list Documento.t * list Documento.t) :=
  match l with
  | [] => Some (tbl, [])
  | DocExistente d :: l' =>
      match confirmar_documentos tbl l' with
      | Some (tbl', rows) => Some (tbl', d :: rows)
      | None => None
      end
  | DocPendiente d :: l' =>
      if unique_ok Documento.id_reg_documento (Documento.id_reg_documento d) tbl then
        let d' := Documento.mk (Some (next_id Documento.id tbl))
                    (Documento.id_reg_documento d) (Documento.nombre_documento d)
                    (Documento.fecha_documento d) (Documento.fecha_publicacion d)
                    (Documento.url_documento d) (Documento.ruta_local d)
                    (Documento.actuacion_id d) in
        match confirmar_documentos (tbl ++ [d']) l' with
        | Some (tbl', rows) => Some (tbl', d' :: rows)
        | None => None
        end
      else None
  end.

(** [guardar_documentos(db, id_reg_actuacion, documentos)]. *)
Definition guardar_documentos (id_reg_actuacion : option string)
    (documentos_in : list Datos.Documento) : M (list Documento.t) :=
  actuacion <- query (fun s =>
    first_by Actuacion.id_reg_actuacion id_reg_actuacion (actuaciones s)) ;;
  match actuacion with
  | None => ret []
  | Some actuacion =>
      tbl <- query documentos ;;
      documentos_guardados <- lift (recorrer_documentos tbl actuacion documentos_in) ;;
      match confirmar_documentos tbl documentos_guardados with
      | None => raise IntegrityError
      | Some (tbl', rows) => fun s => (set_documentos tbl' s, Returned rows)
      end
  end.

End Documentos.

(** [obtener_procesos_empresa(db, empresa_id)]. *)
Definition obtener_procesos_empresa (empresa_id : option Z) : M (list Proceso.t) :=
  query (fun s => filter (fun p => eq_id (Proceso.empresa_id p) empresa_id) (procesos s)).

(** [obtener_actuaciones_proceso(db, proceso_id)]. *)
Definition obtener_actuaciones_proceso (proceso_id : option Z) : M (list Actuacion.t) :=
  query (fun s => filter (fun a => eq_id (Actuacion.proceso_id a) proceso_id) (actuaciones s)).

(** [obtener_documentos_actuacion(db, actuacion_id)]. *)
Definition obtener_documentos_actuacion (actuacion_id : option Z) : M (list Documento.t) :=
  query (fun s => filter (fun d => eq_id (Documento.actuacion_id d) actuacion_id) (documentos s)).

End DatabaseService.

(** ** [AIGenerativeService] ([app/services/ai_service.py]) *)

Module AIGenerativeService.
Import PyStr.

Record t : Type := mk {
  model_name : string;
  use_simulation : bool
}.

(** [__init__]: the simulation flag is set unconditionally. *)
Definition init (model_name : string) : t := mk model_name true.

(** [app/services/__init__.py]: the instance every request uses. *)
Definition ai_service : t := init "gpt-3.5-turbo".

Definition clasificacion (nivel tipo : string) (requiere : bool) (justif : string)
  : Datos.Clasificacion :=
  Datos.mkClasificacion (Val nivel) (Val tipo) (Val requiere) (Val justif).

Definition palabras_audiencia : list string :=
  ["audiencia"; "citaci" ++ o_acute ++ "n"; "comparecencia"].
Definition palabras_requerimiento : list string :=
  ["requerimiento"; "solicitud"; "plazo"].
Definition palabras_notificacion : list string :=
  ["notificaci" ++ o_acute ++ "n"; "aviso"; "comunicaci" ++ o_acute ++ "n"].

Definition es_audiencia : Datos.Clasificacion :=
  clasificacion "Urgente" "Audiencia" true
    ("Las audiencias requieren preparaci" ++ o_acute ++ "n y asistencia obligatoria.").
Definition es_requerimiento : Datos.Clasificacion :=
  clasificacion "Alta" "Requerimiento" true
    "Existe un plazo definido para responder al requerimiento.".
Definition es_notificacion : Datos.Clasificacion :=
  clasificacion "Normal" ("Notificaci" ++ o_acute ++ "n") false
    ("Es una notificaci" ++ o_acute ++ "n informativa que no requiere acci"
       ++ o_acute ++ "n inmediata.").
Definition es_tramite : Datos.Clasificacion :=
  clasificacion "Baja" ("Tr" ++ a_acute ++ "mite") false
    ("Actuaci" ++ o_acute ++ "n de tr" ++ a_acute
       ++ "mite regular sin plazos cr" ++ i_acute ++ "ticos asociados.").
Definition no_clasificada : Datos.Clasificacion :=
  clasificacion "Normal" "No clasificada" false
    ("No se pudo determinar autom" ++ a_acute ++ "ticamente.").

(** [any(palabra in texto for palabra in palabras)]. *)
Definition any_in (palabras : list string) (texto : string) : bool :=
  existsb (fun palabra => contains palabra texto) palabras.

(** [_clasificar_actuacion_simulada(actuacion)]; [.lower()] on [None]
    raises [AttributeError]. *)
Definition _clasificar_actuacion_simulada (actuacion : Datos.Actuacion)
  : outcome Datos.Clasificacion :=
  match get_default (Datos.actuacion actuacion) "" with
  | None => Raised AttributeError
  | Some texto =>
      let texto_actuacion := lower texto in
      if any_in palabras_audiencia texto_actuacion then Returned es_audiencia
      else if any_in palabras_requerimiento texto_actuacion then Returned es_requerimiento
      else if any_in palabras_notificacion texto_actuacion then Returned es_notificacion
      else Returned es_tramite
  end.

(** [s.find(c)] and [s.rfind(c)]; [None] is the result -1. *)
Fixpoint find_char (c : ascii) (s : string) : option nat :=
  match s with
  | "" => None
  | String a s' =>
      if Ascii.eqb a c then Some O
      else match find_char c s' with
           | Some i => Some (S i)
           | None => None
           end
  end.

Fixpoint rfind_char (c : ascii) (s : string) : option nat :=
  match s with
  | "" => None
  | String a s' =>
      match rfind_char c s' with
      | Some i => Some (S i)
      | None => if Ascii.eqb a c then Some O else None
      end
  end.

Section WithModel.

(** [json.loads] on the text cut out of the reply: the dict it
    decodes, or [None] when it raises. *)
Variable json_loads : string -> option Datos.Clasificacion.

(** The inner [try] of [clasificar_actuacion]: [JSONDecodeError] is
    handled here, the [ValueError] of a reply without braces goes to
    the outer handler. *)
Definition extraer_json (clasificacion_texto : string)
  : outcome Datos.Clasificacion :=
  match find_char "{" clasificacion_texto with
  | None => Raised ValueError
  | Some json_start =>
      let json_end := match rfind_char "}" clasificacion_texto with
                      | Some i => S i
                      | None => O
                      end in
      if Nat.ltb json_start json_end then
        match json_loads (substring json_start (json_end - json_start)
                            clasificacion_texto) with
        | Some clasificacion_json => Returned clasificacion_json
        | None => Returned no_clasificada
        end
      else Raised ValueError
  end.

(** [clasificar_actuacion(self, actuacion)]; [respuesta] is what
    [self.chat_model.invoke(messages)] yields for the prompt built from
    the action: the text of the reply, or an exception. *)
Definition clasificar_actuacion (self : t) (respuesta : outcome string)
    (actuacion : Datos.Actuacion) : outcome Datos.Clasificacion :=
  if use_simulation self then _clasificar_actuacion_simulada actuacion
  else
    match respuesta with
    | Raised _ => Returned no_clasificada
    | Returned clasificacion_texto =>
        match extraer_json clasificacion_texto with
        | Returned c => Returned c
        | Raised _ => Returned no_clasificada
        end
    end.

End WithModel.

Definition nl : string := chr 10.
Definition sangria : string := "        ".

Definition parrafo_1 (radicado despacho demandantes demandados : string) : string :=
  "El proceso judicial con radicado " ++ radicado ++ " se encuentra actualmente en curso en el despacho " ++ despacho ++ ". Este proceso involucra a " ++ demandantes ++ " como parte demandante y a " ++ demandados ++ " como parte demandada.".

Definition parrafo_2 : string :=
  "Seg" ++ u_acute ++ "n las actuaciones recientes, el proceso ha tenido avances significativos en los " ++ u_acute ++ "ltimos meses. Se han registrado notificaciones importantes y se han cumplido los t" ++ e_acute ++ "rminos procesales establecidos. Las actuaciones m" ++ a_acute ++ "s recientes sugieren que el proceso est" ++ a_acute ++ " siguiendo su curso normal dentro de los tiempos esperados para este tipo de casos.".

Definition parrafo_3 : string :=
  "Es importante prestar atenci" ++ o_acute ++ "n a las pr" ++ o_acute ++ "ximas fechas de audiencia y a los requerimientos pendientes, ya que podr" ++ i_acute ++ "an ser determinantes para el desarrollo del proceso. Se recomienda mantener un seguimiento constante de las actuaciones futuras para asegurar el cumplimiento de todos los t" ++ e_acute ++ "rminos legales y evitar contratiempos procesales.".

(** The f-string of [_generar_resumen_simulado], before [.strip()]. *)
Definition plantilla (radicado despacho demandantes demandados : string) : string :=
  nl ++ sangria ++ parrafo_1 radicado despacho demandantes demandados ++ nl
  ++ nl ++ sangria ++ parrafo_2 ++ nl
  ++ nl ++ sangria ++ parrafo_3 ++ nl
  ++ sangria.

(** [", ".join(detalle_proceso.get(k, ["No especificado"]))]; joining
    [None] raises [TypeError]. *)
Definition unir_nombres (f : field (list string)) : outcome string :=
  match get_default f ["No especificado"] with
  | None => Raised TypeError
  | Some nombres => Returned (join ", " nombres)
  end.

(** [_generar_resumen_simulado(detalle_proceso, actuaciones)]. *)
Definition _generar_resumen_simulado (detalle_proceso : Datos.Detalle)
    (actuaciones : list Datos.Actuacion) : outcome string :=
  let radicado := get_default (Datos.d_llaveProceso detalle_proceso) "No especificado" in
  let despacho := get_default (Datos.d_despacho detalle_proceso) "No especificado" in
  match unir_nombres (Datos.demandantes detalle_proceso) with
  | Raised e => Raised e
  | Returned demandantes =>
      match unir_nombres (Datos.demandados detalle_proceso) with
      | Raised e => Raised e
      | Returned demandados =>
          Returned (strip (plantilla (format_str radicado) (format_str despacho)
                             demandantes demandados))
      end
  end.

(** [system_prompt] of [generar_resumen_proceso]. *)
Definition system_prompt_resumen : string :=
  nl ++ "        Eres un asistente legal especializado en procesos judiciales colombianos. "
  ++ nl
  ++ "        Tu tarea es generar un resumen conciso pero informativo de un proceso judicial "
  ++ nl ++ "        basado en sus detalles y actuaciones recientes." ++ nl ++ "        " ++ nl
  ++ "        El resumen debe:" ++ nl
  ++ "        1. Ser claro y directo, utilizando lenguaje profesional pero comprensible" ++ nl
  ++ "        2. Identificar los aspectos m" ++ a_acute ++ "s relevantes del proceso" ++ nl
  ++ "        3. Destacar las actuaciones m" ++ a_acute
  ++ "s importantes y su impacto en el proceso" ++ nl ++ "        4. Tener una extensi"
  ++ o_acute ++ "n de 3-5 p" ++ a_acute ++ "rrafos" ++ nl
  ++ "        5. Evitar tecnicismos excesivos o jerga legal innecesaria" ++ nl ++ "        ".

(** [human_prompt] of [generar_resumen_proceso], as a function of the
    values the f-string interpolates. *)
Definition human_prompt_resumen (radicado fecha_radicacion despacho clase_proceso
    tipo_proceso demandantes demandados texto : string) : string :=
  nl ++ "        Detalles del proceso:" ++ nl ++ "        - Radicado: " ++ radicado ++ nl
  ++ "        - Fecha de radicaci" ++ o_acute ++ "n: " ++ fecha_radicacion ++ nl
  ++ "        - Despacho: " ++ despacho ++ nl ++ "        - Clase de proceso: "
  ++ clase_proceso ++ nl ++ "        - Tipo de proceso: " ++ tipo_proceso ++ nl
  ++ "        - Demandantes: " ++ demandantes ++ nl ++ "        - Demandados: " ++ demandados
  ++ nl ++ "        " ++ nl ++ "        Actuaciones recientes:" ++ nl ++ "        " ++ texto
  ++ nl ++ "        " ++ nl
  ++ "        Por favor, genera un resumen conciso pero informativo del proceso judicial."
  ++ nl ++ "        ".

(** What one turn of the [enumerate] loop appends to
    [texto_actuaciones]; [i] counts from 0. *)
Definition texto_actuacion (i : nat) (act : Datos.Actuacion) : string :=
  str_nat (i + 1) ++ ". Fecha: "
  ++ format_str (get_default (Datos.fechaActuacion act) "No especificada") ++ nl
  ++ "   Actuaci" ++ o_acute ++ "n: "
  ++ format_str (get_default (Datos.actuacion act) "No especificada") ++ nl
  ++ "   Anotaci" ++ o_acute ++ "n: "
  ++ format_str (get_default (Datos.anotacion act) "No especificada") ++ nl ++ nl.

(** The loop, from index [i] on. *)
Fixpoint texto_actuaciones (i : nat) (actuaciones_recientes : list Datos.Actuacion)
  : string :=
  match actuaciones_recientes with
  | [] => ""
  | act :: resto => texto_actuacion i act ++ texto_actuaciones (S i) resto
  end.

Definition resumen_no_disponible : string :=
  "No se pudo generar un resumen autom" ++ a_acute ++ "tico para este proceso.".

Section WithChat.

(** [self.chat_model.invoke(messages)] on a system and a human message:
    the [content] of the reply, or an exception. *)
Variable chat_invoke : string -> string -> outcome string.

(** [generar_resumen_proceso(self, detalle_proceso, actuaciones)].
    [fechaRadicacion] is that key of [detalle_proceso], which the prompt
    alone reads; [actuaciones] is [None] when the caller passes [None],
    on which [len] raises [TypeError]. *)
Definition generar_resumen_proceso (self : t) (detalle_proceso : Datos.Detalle)
    (fechaRadicacion : field string) (actuaciones : option (list Datos.Actuacion))
  : outcome string :=
  if use_simulation self then
    _generar_resumen_simulado detalle_proceso
      match actuaciones with Some l => l | None => [] end
  else
    match unir_nombres (Datos.demandantes detalle_proceso) with
    | Raised e => Raised e
    | Returned demandantes =>
    match unir_nombres (Datos.demandados detalle_proceso) with
    | Raised e => Raised e
    | Returned demandados =>
    match actuaciones with
    | None => Raised TypeError
    | Some actuaciones =>
        let actuaciones_recientes :=
          if Nat.ltb 5 (List.length actuaciones) then firstn 5 actuaciones
          else actuaciones in
        let texto := texto_actuaciones 0 actuaciones_recientes in
        let human_prompt :=
          human_prompt_resumen
            (format_str (get_default (Datos.d_llaveProceso detalle_proceso) "No especificado"))
            (format_str (get_default fechaRadicacion "No especificada"))
            (format_str (get_default (Datos.d_despacho detalle_proceso) "No especificado"))
            (format_str (get_default (Datos.claseProceso detalle_proceso) "No especificada"))
            (format_str (get_default (Datos.tipoProceso detalle_proceso) "No especificado"))
            demandantes demandados texto in
        match chat_invoke system_prompt_resumen human_prompt with
        | Returned resumen => Returned resumen
        | Raised _ => Returned resumen_no_disponible
        end
    end end end.

End WithChat.

End AIGenerativeService.

(** ** [JudicialAPIClient] ([app/api/judicial_api.py]) *)

Module JudicialAPIClient.
Import PyStr.

(** What [session.get], [raise_for_status] and [response.json] produce
    for a request. [HTTPError text message]: a status outside 2xx, with
    [text] the [str] of the error and [message] the [Message] entry of
    the body when the body is a JSON object that has one.
    [RequestException text]: any other failure of the transport. *)
Inductive upstream (J : Type) : Type :=
| Reply (body : J)
| HTTPError (text : string) (message : option string)
| RequestException (text : string).
Arguments Reply {J} body.
Arguments HTTPError {J} text message.
Arguments RequestException {J} text.

(** [_make_request(endpoint, params)]. *)
Definition _make_request {J} (respuesta : upstream J) : outcome J :=
  match respuesta with
  | Reply body => Returned body
  | HTTPError text message =>
      let error_msg := match message with
                       | Some m => text ++ " - " ++ m
                       | None => text
                       end in
      Raised (Exception ("Error en la consulta a la API: " ++ error_msg))
  | RequestException text =>
      Raised (Exception ("Error en la consulta a la API: " ++ text))
  end.

(** [str(e)]. *)
Definition str_exn (e : exn) : string :=
  match e with
  | Exception msg => msg
  | _ => ""
  end.

Definition demasiados_registros : string :=
  "Hay m" ++ a_acute ++ "s de mil registros con los criterios especificados".

Definition consulta_demasiado_general : exn :=
  Exception ("La consulta es demasiado general. Por favor, especifique un c" ++ o_acute ++ "digo de despacho o un nombre m" ++ a_acute ++ "s espec" ++ i_acute ++ "fico.").

(** [consultar_por_razon_social(nombre, tipo_persona, solo_activos,
    codificacion_despacho, pagina)], as a function of what the registry
    answers to the request. *)
Definition consultar_por_razon_social {J} (respuesta : upstream J) : outcome J :=
  match _make_request respuesta with
  | Returned r => Returned r
  | Raised e =>
      if contains demasiados_registros (str_exn e)
      then Raised consulta_demasiado_general
      else Raised e
  end.

(** The other queries hand the answer of [_make_request] on. *)
Definition consultar_por_radicado {J} (respuesta : upstream J) : outcome J :=
  _make_request respuesta.

Definition obtener_detalle_proceso {J} (respuesta : upstream J) : outcome J :=
  _make_request respuesta.

Definition obtener_actuaciones_proceso {J} (respuesta : upstream J) : outcome J :=
  _make_request respuesta.

Definition obtener_documentos_actuacion {J} (respuesta : upstream J) : outcome J :=
  _make_request respuesta.

Definition BASE_URL : string :=
  "https://consultaprocesos.ramajudicial.gov.co:448/api/v2".

(** [url] in [obtener_documento(id_reg_documento)]. *)
Definition url_de_documento (id_reg_documento : string) : string :=
  let endpoint := "Descarga/Documento/" ++ id_reg_documento in
  BASE_URL ++ "/" ++ endpoint.

(** [obtener_documento(id_reg_documento)], as a function of what the
    registry answers at [url_de_documento]: [Reply] carries
    [response.content]. One handler takes every [RequestException],
    [HTTPError] included, and the body of the failed answer is not
    read. *)
Definition obtener_documento {B} (respuesta : upstream B) : outcome B :=
  match respuesta with
  | Reply content => Returned content
  | HTTPError text _ | RequestException text =>
      Raised (Exception ("Error en la descarga del documento: " ++ text))
  end.

End JudicialAPIClient.

(** ** The request handlers ([app/main.py]) *)

(** A handler is a function of the registry's answers and of the store
    the session is bound to. Its response is the template it renders with
    the entries of the context computed from the request ([request] and
    [parametros], which repeat the arguments, are left out), or
    [error.html] with the exception its [try] block met. Rendering is not
    modelled. *)
Module Main.
Import DatabaseService AIGenerativeService JudicialAPIClient.

(** What the [try] block of a handler meets: an exception of a service, or
    the [KeyError] of a subscript. *)
Inductive fallo : Type :=
| Lanzada (e : exn)
| KeyError (clave : string).

Inductive resultado (A : Type) : Type :=
| Hecho (a : A)
| Fallo (f : fallo).
Arguments Hecho {A} a.
Arguments Fallo {A} f.

(** The body of a [try] block. *)
Definition Handler (A : Type) : Type := Store -> Store * resultado A.

Definition hecho {A} (a : A) : Handler A := fun s => (s, Hecho a).
Definition falla {A} (f : fallo) : Handler A := fun s => (s, Fallo f).
Definition luego {A B} (m : Handler A) (k : A -> Handler B) : Handler B := fun s =>
  match m s with
  | (s', Hecho a) => k a s'
  | (s', Fallo f) => (s', Fallo f)
  end.

(** A call on the session. *)
Definition servicio {A} (m : M A) : Handler A := fun s =>
  match m s with
  | (s', Returned a) => (s', Hecho a)
  | (s', Raised e) => (s', Fallo (Lanzada e))
  end.

(** A call that does not touch the session. *)
Definition llamada {A} (o : outcome A) : Handler A := fun s =>
  match o with
  | Returned a => (s, Hecho a)
  | Raised e => (s, Fallo (Lanzada e))
  end.

Notation "x <~ m ;; k" := (luego m (fun x => k))
  (at level 61, m at next level, right associativity).

Inductive respuesta (C : Type) : Type :=
| Plantilla (contexto : C)
| PaginaError (title : string) (error : fallo).
Arguments Plantilla {C} contexto.
Arguments PaginaError {C} title error.

(** [try: ... except Exception as e: ...]. *)
Definition intentar {C} (cuerpo : Handler C) (title : string) (s : Store)
  : Store * respuesta C :=
  match cuerpo s with
  | (s', Hecho c) => (s', Plantilla c)
  | (s', Fallo f) => (s', PaginaError title f)
  end.

(** Truth value of [d.get(k)] for a list entry. *)
Definition truthy_list {A} (f : field (list A)) : bool :=
  match f with
  | Val (_ :: _) => true
  | _ => false
  end.

(** [d[k]] once [d.get(k)] was true. *)
Definition subscript_list {A} (f : field (list A)) : list A :=
  match f with
  | Val l => l
  | _ => []
  end.

Record ContextoResultados : Type := mkContextoResultados {
  r_title : string;
  resultados : Datos.Resultados;
  tipo_busqueda : string
}.

Record ContextoProceso : Type := mkContextoProceso {
  p_title : string;
  detalle : Datos.Detalle;
  resumen_ia : string;
  actuaciones_clasificadas : list (Datos.Actuacion * Datos.Clasificacion)
}.

Record ContextoActuacion : Type := mkContextoActuacion {
  a_title : string;
  a_documentos : Datos.Documentos
}.

Definition error_busqueda : string := "Error en la b" ++ PyStr.u_acute ++ "squeda".

Section Handlers.

Variable fromisoformat : string -> option datetime.

(** [datetime.now()] in the [i]-th call of [guardar_proceso] of a
    request: at the INSERT of the party, and in the body. *)
Variable relojes : nat -> datetime * datetime.

(** [for proceso in resultados['procesos']:
       DatabaseService.guardar_proceso(db, proceso, datos_empresa)],
    from the [i]-th turn on. *)
Fixpoint guardar_procesos (datos_empresa : option Datos.Empresa) (i : nat)
    (procesos : list Datos.Proceso) : M unit :=
  match procesos with
  | [] => ret tt
  | proceso :: resto =>
      _ <- guardar_proceso fromisoformat proceso datos_empresa
             (fst (relojes i)) (snd (relojes i)) ;;
      guardar_procesos datos_empresa (S i) resto
  end.

(** [buscar_razon_social(request, nombre, tipo_persona, solo_activos,
    codificacion_despacho, db)]; [registro] is what the registry answers
    to the query. *)
Definition buscar_razon_social (nombre tipo_persona : string)
    (registro : upstream Datos.Resultados)
  : Store -> Store * respuesta ContextoResultados :=
  intentar
    (resultados <~ llamada (consultar_por_razon_social registro) ;;
     _ <~ servicio
            (if truthy_list (Datos.procesos resultados) then
               let datos_empresa :=
                 Datos.mkEmpresa (Val nombre) (Val tipo_persona) Missing in
               guardar_procesos (Some datos_empresa) 0
                 (subscript_list (Datos.procesos resultados))
             else ret tt) ;;
     hecho (mkContextoResultados ("Resultados para " ++ nombre) resultados
              "razon_social"))
    error_busqueda.

(** [buscar_radicado(request, numero, solo_activos, db)]. *)
Definition buscar_radicado (numero : string) (registro : upstream Datos.Resultados)
  : Store -> Store * respuesta ContextoResultados :=
  intentar
    (resultados <~ llamada (consultar_por_radicado registro) ;;
     _ <~ servicio
            (if truthy_list (Datos.procesos resultados) then
               guardar_procesos None 0 (subscript_list (Datos.procesos resultados))
             else ret tt) ;;
     hecho (mkContextoResultados ("Resultados para radicado " ++ numero) resultados
              "radicado"))
    error_busqueda.

(** [self.chat_model.invoke] for the summary, and for the classification
    of an action; [json.loads]. The instance of [get_ai_service] reaches
    none of them. *)
Variable chat_invoke : string -> string -> outcome string.
Variable respuesta_modelo : Datos.Actuacion -> outcome string.
Variable json_loads : string -> option Datos.Clasificacion.

(** The loop [for actuacion in actuaciones['actuaciones']] of
    [detalle_proceso]: the value is [actuaciones_clasificadas], each
    record with the entry [clasificacion] the loop adds to it. *)
Fixpoint clasificar_actuaciones (actuaciones : list Datos.Actuacion)
  : Handler (list (Datos.Actuacion * Datos.Clasificacion)) :=
  match actuaciones with
  | [] => hecho []
  | actuacion :: resto =>
      clasificacion <~
        llamada (clasificar_actuacion json_loads ai_service
                   (respuesta_modelo actuacion) actuacion) ;;
      id_reg_actuacion <~
        match Datos.idRegActuacion actuacion with
        | Missing => falla (KeyError "idRegActuacion")
        | Null => hecho None
        | Val k => hecho (Some k)
        end ;;
      _ <~ servicio (guardar_clasificacion_actuacion id_reg_actuacion clasificacion) ;;
      clasificadas <~ clasificar_actuaciones resto ;;
      hecho ((actuacion, clasificacion) :: clasificadas)
  end.

(** [detalle_proceso(request, id_proceso, db)]; [registro_detalle] and
    [registro_actuaciones] are the registry's answers to the two
    queries, [fechaRadicacion] that key of the first. The entry
    [actuaciones] of the context holds the records of
    [actuaciones_clasificadas]. *)
Definition detalle_proceso (id_proceso : string)
    (registro_detalle : upstream Datos.Detalle) (fechaRadicacion : field string)
    (registro_actuaciones : upstream Datos.Actuaciones)
  : Store -> Store * respuesta ContextoProceso :=
  intentar
    (detalle <~ llamada (obtener_detalle_proceso registro_detalle) ;;
     actuaciones <~
       llamada (JudicialAPIClient.obtener_actuaciones_proceso registro_actuaciones) ;;
     _ <~ servicio (guardar_detalle_proceso (Some id_proceso) detalle) ;;
     _ <~ servicio
            (if truthy_list (Datos.actuaciones actuaciones) then
               guardar_actuaciones fromisoformat (Some id_proceso)
                 (subscript_list (Datos.actuaciones actuaciones))
             else ret []) ;;
     resumen <~
       llamada (generar_resumen_proceso chat_invoke ai_service detalle fechaRadicacion
                  (get_default (Datos.actuaciones actuaciones) [])) ;;
     _ <~ servicio (guardar_resumen_proceso (Some id_proceso) resumen) ;;
     clasificadas <~
       (if truthy_list (Datos.actuaciones actuaciones) then
          clasificar_actuaciones (subscript_list (Datos.actuaciones actuaciones))
        else hecho []) ;;
     hecho (mkContextoProceso
              ("Proceso "
               ++ format_str (get_default (Datos.d_llaveProceso detalle) id_proceso))
              detalle resumen clasificadas))
    "Error al obtener detalles".

(** [detalle_actuacion(request, id_actuacion, db)]. *)
Definition detalle_actuacion (id_actuacion : string)
    (registro : upstream Datos.Documentos)
  : Store -> Store * respuesta ContextoActuacion :=
  intentar
    (documentos <~ llamada (JudicialAPIClient.obtener_documentos_actuacion registro) ;;
     _ <~ servicio
            (if truthy_list (Datos.documentos documentos) then
               guardar_documentos fromisoformat (Some id_actuacion)
                 (subscript_list (Datos.documentos documentos))
             else ret []) ;;
     hecho (mkContextoActuacion ("Actuaci" ++ PyStr.o_acute ++ "n " ++ id_actuacion)
              documentos))
    "Error al obtener documentos".

End Handlers.

End Main.

(** * The vocabulary of the statements *)

Import DatabaseService AIGenerativeService JudicialAPIClient.

(** The [n] integers from [lo] on. *)
Definition desde (lo : Z) (n : nat) : list Z := map (fun k => lo + Z.of_nat k) (seq 0 n).

(** For closed examples: an interpreter whose [fromisoformat] refuses its
    argument. No example below reaches that call with a date it could
    read, so the choice does not show in them. *)
Definition sin_isoformat : string -> option datetime := fun _ => None.

(** [w] occurs in [t]. *)
Definition occurs (w t : string) : Prop := exists pre post, t = pre ++ w ++ post.

(** The action identifiers a table holds (NULLs apart). *)
Definition ids_presentes (tbl : list Actuacion.t) : list string :=
  flat_map (fun r => match Actuacion.id_reg_actuacion r with
                     | Some k => [k]
                     | None => []
                     end) tbl.

Section Filas.

Variable fromisoformat : string -> option datetime.
Variable proceso : Proceso.t.

(** The identifier a record carries. *)
Definition id_de (act_data : Datos.Actuacion) : option string :=
  get (Datos.idRegActuacion act_data).

(** The date [parse_date] reads in a field. *)
Definition fecha (x : field string) : option datetime :=
  match parse_date fromisoformat (get x) with
  | Returned v => v
  | Raised _ => None
  end.

(** [row] is a stored action that carries every fetched field of
    [act_data] and the reference to the process. *)
Definition fetched (act_data : Datos.Actuacion) (row : Actuacion.t) : Prop :=
  Actuacion.id_reg_actuacion row = get (Datos.idRegActuacion act_data)
  /\ Actuacion.cons_actuacion row = get (Datos.consActuacion act_data)
  /\ parse_date fromisoformat (get (Datos.fechaActuacion act_data))
     = Returned (Actuacion.fecha_actuacion row)
  /\ Actuacion.actuacion row = get (Datos.actuacion act_data)
  /\ Actuacion.anotacion row = get (Datos.anotacion act_data)
  /\ parse_date fromisoformat (get (Datos.fechaInicial act_data))
     = Returned (Actuacion.fecha_inicial row)
  /\ parse_date fromisoformat (get (Datos.fechaFinal act_data))
     = Returned (Actuacion.fecha_final row)
  /\ parse_date fromisoformat (get (Datos.fechaRegistro act_data))
     = Returned (Actuacion.fecha_registro row)
  /\ Actuacion.con_documentos row
     = Some match Datos.conDocumentos act_data with
            | Val b => b
            | Missing | Null => false
            end
  /\ Actuacion.proceso_id row = Proceso.id proceso
  /\ (Actuacion.nivel_urgencia row = None /\ Actuacion.tipo_actuacion row = None
      /\ Actuacion.requiere_accion row = Some false
      /\ Actuacion.justificacion row = None)
  /\ exists k, Actuacion.id row = Some k.

(** The object the loop adds to the session for a record. *)
Definition pendiente_de (act_data : Datos.Actuacion) : Actuacion.t :=
  Actuacion.mk None (get (Datos.idRegActuacion act_data))
    (get (Datos.consActuacion act_data)) (fecha (Datos.fechaActuacion act_data))
    (get (Datos.actuacion act_data)) (get (Datos.anotacion act_data))
    (fecha (Datos.fechaInicial act_data)) (fecha (Datos.fechaFinal act_data))
    (fecha (Datos.fechaRegistro act_data))
    (get_default (Datos.conDocumentos act_data) false)
    (Proceso.id proceso) None None None None.

(** What the loop appends to [actuaciones_guardadas] for a record, the
    lookups reading [tbl]. *)
Definition guardada_de (tbl : list Actuacion.t) (act_data : Datos.Actuacion) : guardada :=
  match first_by Actuacion.id_reg_actuacion (id_de act_data) tbl with
  | Some r => Existente r
  | None => Pendiente (pendiente_de act_data)
  end.

End Filas.

(** ** A small store for the closed examples *)

Module Ejemplo.

Definition acme : Empresa.t :=
  Empresa.mk (Some 1) (Some "ACME") (Some "jur") None (Some (midnight 2024 1 10)).

Definition proceso_P1 : Proceso.t :=
  Proceso.mk (Some 1) (Some "P1") (Some "11001400300320230051800")
    (Some (midnight 2023 5 2)) (Some (midnight 2024 1 9))
    (Some "JUZGADO 003 CIVIL MUNICIPAL") (Some "BOGOTA") (Some "ACME | BETA")
    None None None None (Some false) (Some (Json.dumps (Some ["ACME"]))) None None
    (Some (midnight 2024 1 10)) (Some 1).

Definition actuacion_A1 : Actuacion.t :=
  Actuacion.mk (Some 1) (Some "A1") (Some 1) (Some (midnight 2024 1 9))
    (Some "Auto admite demanda") None None None (Some (midnight 2024 1 9))
    (Some false) (Some 1) None None (Some false) None.

Definition almacen : Store := mkStore [acme] [proceso_P1] [actuacion_A1] [].

Definition urgente : Datos.Clasificacion :=
  Datos.mkClasificacion (Val "Urgente") (Val "Audiencia") (Val true) Missing.

(** A detail record that carries neither party list. *)
Definition detalle_sin_listas : Datos.Detalle :=
  Datos.mkDetalle (Val "11001400300320230051800") Missing
    (Val "EJECUTIVO") (Val "De menor cuantia") Missing Missing (Val false)
    Missing Missing.

Definition datos_P2 : Datos.Proceso :=
  Datos.mkProceso (Val "P2") (Val "05001310301020220022900") (Val "2022-03-01")
    (Val "2024-02-01T00:00:00") (Val "JUZGADO 010 CIVIL") (Val "ANTIOQUIA") (Val "ACME").

(** The same process as the registry reports it later: other values, and
    a date of last action that cannot be read. *)
Definition datos_P2_despues : Datos.Proceso :=
  Datos.mkProceso (Val "P2") (Val "otra llave") (Val "2022-03-09")
    (Val "pendiente") (Val "OTRO DESPACHO") Null Missing.

Definition pista_acme : Datos.Empresa := Datos.mkEmpresa (Val "ACME") (Val "jur") Missing.

Definition pista_beta : Datos.Empresa := Datos.mkEmpresa (Val "BETA") (Val "jur") (Val "900123").

Definition acta (id_reg texto : string) : Datos.Actuacion :=
  Datos.mkActuacion (Val id_reg) (Val 2) (Val "2024-02-01") (Val texto) Null
    Missing Missing (Val "2024-02-02") Missing.


(** A record with the given label entry. *)
Definition acta_con_texto (actuacion : field string) : Datos.Actuacion :=
  Datos.mkActuacion (Val "A7") (Val 7) (Val "2024-02-05") actuacion Null
    Missing Missing Missing (Val false).

(** A record not stored whose sequence number is the first that a signed
    integer of 64 bits cannot hold. *)
Definition acta_sin_cabida : Datos.Actuacion :=
  Datos.mkActuacion (Val "A8") (Val (2 ^ 63)) (Val "2024-02-06") (Val "Traslado") Null
    Missing Missing Missing Missing.

(** A registry message with the first words of the sentence the client
    looks for. *)
Definition mensaje_corto : string := "Hay m" ++ PyStr.a_acute ++ "s de mil registros.".

(** A detail record without office and respondents. *)
Definition detalle_ejemplo : Datos.Detalle :=
  Datos.mkDetalle (Val "11001400300320230051800") Missing
    (Val "EJECUTIVO") Missing Missing Missing (Val false)
    (Val ["ACME"; "BETA"]) Missing.

(** A hint that names the stored party and brings a nit. *)
Definition pista_acme_nit : Datos.Empresa :=
  Datos.mkEmpresa (Val "ACME") Missing (Val "900555").

(** Two documents of an action as the registry lists them, the first
    with a link of its own. *)
Definition documento_D (id_reg : string) (url : field string) : Datos.Documento :=
  Datos.mkDocumento (Val id_reg) (Val "Auto.pdf") (Val "2024-01-09") Null url.

(** A clock that stands still. *)
Definition reloj_fijo : nat -> datetime * datetime :=
  fun _ => (midnight 2024 3 1, midnight 2024 3 1).

(** The two answers of the registry for P1: the detail, and the stored
    action A1 with a new one. *)
Definition actuaciones_P1 : Datos.Actuaciones :=
  Datos.mkActuaciones
    (Val [acta "A1" "Auto admite demanda"; acta "A2" "Fija fecha de audiencia"]).

(** The same answer with a third action whose label is null. *)
Definition actuaciones_P1_nula : Datos.Actuaciones :=
  Datos.mkActuaciones
    (Val [acta "A1" "Auto admite demanda"; acta "A2" "Fija fecha de audiencia";
          acta_con_texto Null]).

End Ejemplo.

(** The text [_generar_resumen_simulado] returns: three paragraphs, a blank
    line between them, the lines after the first indented as in the
    source. *)
Definition resumen (radicado despacho demandantes demandados : string) : string :=
  parrafo_1 radicado despacho demandantes demandados
  ++ nl ++ nl ++ sangria ++ parrafo_2
  ++ nl ++ nl ++ sangria ++ parrafo_3.


(** The row [guardar_detalle_proceso] writes for the stored process [p]. *)
Definition con_detalle (detalle : Datos.Detalle) (p : Proceso.t) : Proceso.t :=
  let p1 := Proceso.set_detalle
              (get (Datos.claseProceso detalle)) (get (Datos.tipoProceso detalle))
              (get (Datos.subTipoProceso detalle))
              (get (Datos.ubicacionExpediente detalle))
              (get_default (Datos.esPrivado detalle) false) p in
  let p2 := if has_key (Datos.demandantes detalle)
            then Proceso.set_demandantes
                   (Some (Json.dumps (get (Datos.demandantes detalle)))) p1
            else p1 in
  if has_key (Datos.demandados detalle)
  then Proceso.set_demandados (Some (Json.dumps (get (Datos.demandados detalle)))) p2
  else p2.

(** The row [guardar_clasificacion_actuacion] writes for the stored
    action [a]. *)
Definition con_clasificacion (clasificacion : Datos.Clasificacion) (a : Actuacion.t)
  : Actuacion.t :=
  Actuacion.set_clasificacion
    (get (Datos.nivel_urgencia clasificacion))
    (get (Datos.tipo_actuacion clasificacion))
    (get_default (Datos.requiere_accion clasificacion) false)
    (get (Datos.justificacion clasificacion)) a.

(** [s] with the row of a process replaced. *)
Definition con_proceso (p : Proceso.t) (s : Store) : Store :=
  set_procesos (update_row Proceso.id p (procesos s)) s.

(** [s] with the row of an action replaced. *)
Definition con_actuacion (a : Actuacion.t) (s : Store) : Store :=
  set_actuaciones (update_row Actuacion.id a (actuaciones s)) s.

(** [c in s] for a character. *)
Fixpoint has_char (c : ascii) (s : string) : bool :=
  match s with
  | "" => false
  | String a s' => (Ascii.eqb a c || has_char c s')%bool
  end.

(** A service that was given a model: [use_simulation] is off. *)
Definition con_modelo : AIGenerativeService.t := AIGenerativeService.mk "gpt-3.5-turbo" false.

(** A model that cannot be reached, and a decoder that accepts nothing. *)
Definition sin_modelo : string -> string -> outcome string :=
  fun _ _ => Raised (Exception "Connection error.").
Definition sin_json : string -> option Datos.Clasificacion := fun _ => None.
Definition sin_respuesta : Datos.Actuacion -> outcome string :=
  fun _ => Raised (Exception "Connection error.").

(** The title of the page of a process. *)
Definition titulo_proceso (id_proceso : string) (detalle : Datos.Detalle) : string :=
  "Proceso " ++ format_str (get_default (Datos.d_llaveProceso detalle) id_proceso).

(** A process row as the searches leave it: its identifier and the party
    it is linked to. *)
Definition vinculo (p : Proceso.t) : option string * option Z :=
  (Proceso.id_proceso_api p, Proceso.empresa_id p).

(** The identifiers of the records [l] that a table holding the
    identifiers [vistos] does not hold, each once, in the order of their
    first record. *)
Fixpoint ids_nuevos (vistos : list (option string)) (l : list Datos.Proceso)
  : list (option string) :=
  match l with
  | [] => []
  | datos_proceso :: l' =>
      let k := get (Datos.idProceso datos_proceso) in
      if existsb (eq_str k) vistos then ids_nuevos vistos l'
      else k :: ids_nuevos (vistos ++ [k]) l'
  end.

(** The party the search by name links new processes to: the first
    stored party of that name, and otherwise the one the request
    creates. *)
Definition empresa_de (nombre : string) (tbl : list Empresa.t) : option Z :=
  match first_by Empresa.nombre (Some nombre) tbl with
  | Some e => Empresa.id e
  | None => Some (next_id Empresa.id tbl)
  end.

(** The answer of the keyword classifier for a record, when it gives
    one. *)
Definition clasificacion_de (actuacion : Datos.Actuacion) : Datos.Clasificacion :=
  match _clasificar_actuacion_simulada actuacion with
  | Returned clasificacion => clasificacion
  | Raised _ => es_tramite
  end.

(** The summary of the template for a detail record, when it gives one. *)
Definition resumen_de (detalle : Datos.Detalle) : string :=
  match _generar_resumen_simulado detalle [] with
  | Returned texto => texto
  | Raised _ => ""
  end.

(** The records of an answer with their classifications, as the page of a
    process lists them. *)
Definition clasificadas (l : list Datos.Actuacion)
  : list (Datos.Actuacion * Datos.Clasificacion) :=
  map (fun a => (a, clasificacion_de a)) l.

(** The identifiers [guardar_actuaciones] inserts a row for: those of the
    records [acts], in their order, that are not null and that the table
    [tbl] does not hold. *)
Definition ids_pendientes (tbl : list Actuacion.t) (acts : list Datos.Actuacion)
  : list string :=
  flat_map (fun a =>
    match id_de a, first_by Actuacion.id_reg_actuacion (id_de a) tbl with
    | Some k, None => [k]
    | _, _ => []
    end) acts.

(** The records [guardar_actuaciones] adds a row for: those whose
    identifier, null or not, the table [tbl] does not hold. *)
Definition pendientes (tbl : list Actuacion.t) (acts : list Datos.Actuacion)
  : list Datos.Actuacion :=
  filter (fun a => match first_by Actuacion.id_reg_actuacion (id_de a) tbl with
                   | Some _ => false
                   | None => true
                   end) acts.

(** The sequence number of a record fits the column [cons_actuacion]. *)
Definition cabe (act_data : Datos.Actuacion) : bool :=
  sqlite_integer_ok (get (Datos.consActuacion act_data)).

(** The values of a list that are not null. *)
Definition presentes (l : list (option string)) : list string :=
  flat_map (fun o => match o with
                     | Some k => [k]
                     | None => []
                     end) l.

(** During a commit: [cur] is the table [tbl0] with rows added for the
    identifiers [vistos]. *)
Definition al_dia (tbl0 cur : list Actuacion.t) (vistos : list string) : Prop :=
  forall k,
    first_by Actuacion.id_reg_actuacion (Some k) cur = None
    <-> first_by Actuacion.id_reg_actuacion (Some k) tbl0 = None /\ ~ In k vistos.

(** The title of the page of an action. *)
Definition titulo_actuacion (id_actuacion : string) : string :=
  "Actuaci" ++ PyStr.o_acute ++ "n " ++ id_actuacion.

(** The values a column holds, NULLs apart. *)
Definition valores {T : Type} (col : T -> option string) (tbl : list T) : list string :=
  flat_map (fun r => match col r with
                     | Some k => [k]
                     | None => []
                     end) tbl.

(** The key constraints of [app/models/database.py]: in every table the
    primary keys are distinct, and the column declared [unique=True]
    holds no value twice. *)
Definition integro (s : Store) : Prop :=
  (NoDup (map Empresa.id (empresas s)) /\ NoDup (valores Empresa.nit (empresas s)))
  /\ (NoDup (map Proceso.id (procesos s))
      /\ NoDup (valores Proceso.id_proceso_api (procesos s)))
  /\ (NoDup (map Actuacion.id (actuaciones s))
      /\ NoDup (valores Actuacion.id_reg_actuacion (actuaciones s)))
  /\ (NoDup (map Documento.id (documentos s))
      /\ NoDup (valores Documento.id_reg_documento (documentos s))).

(** The store of a new database. *)
Definition vacio : Store := mkStore [] [] [] [].

(** The identifier a document record carries. *)
Definition id_doc (doc_data : Datos.Documento) : option string :=
  get (Datos.idRegDocumento doc_data).

(** The rows of a process, and the documents of an action, as the two
    listings select them. *)
Definition del_proceso (proceso_id : option Z) (tbl : list Actuacion.t)
  : list Actuacion.t :=
  filter (fun a => eq_id (Actuacion.proceso_id a) proceso_id) tbl.

Definition de_la_actuacion (actuacion_id : option Z) (tbl : list Documento.t)
  : list Documento.t :=
  filter (fun d => eq_id (Documento.actuacion_id d) actuacion_id) tbl.

(** * Properties *)

(** ** Characters and strings *)

Lemma append_assoc (a b c : string) : (a ++ b) ++ c = a ++ (b ++ c).
Proof. induction a as [|x a IH]; simpl; [reflexivity | now rewrite IH]. Qed.

Lemma append_empty_r (a : string) : a ++ "" = a.
Proof. induction a as [|x a IH]; simpl; [reflexivity | now rewrite IH]. Qed.

(** ** Dates: [strptime] reads back what [isoformat] writes *)

Lemma in_desde (lo hi : Z) (x : Z) :
  lo <= x <= hi -> In x (desde lo (Z.to_nat (hi - lo + 1))).
Proof.
  intro H. unfold desde. apply in_map_iff. exists (Z.to_nat (x - lo)).
  split; [lia|]. apply in_seq. lia.
Qed.

Ltac each_value H lo hi :=
  apply (in_desde lo hi) in H; vm_compute in H;
  repeat (destruct H as [H | H]); try contradiction; subst.

Ltac each_digit H := each_value H 0 9.

Lemma is_digit_digit_char (n : Z) : 0 <= n <= 9 -> is_digit (digit_char n) = true.
Proof. intro H. each_digit H; reflexivity. Qed.

Lemma digit_digit_char (n : Z) : 0 <= n <= 9 -> digit (digit_char n) = n.
Proof. intro H. each_digit H; reflexivity. Qed.

Lemma digit_char_not_T (n : Z) : 0 <= n <= 9 -> Ascii.eqb (digit_char n) "T" = false.
Proof. intro H. each_digit H; reflexivity. Qed.

Lemma group_Y (A : Type) (k : Z -> string -> option A) (y : Z) (rest : string) (r : A) :
  0 <= y <= 9999 ->
  k y rest = Some r ->
  group re_Y k (pad4 y ++ rest) = Some r.
Proof.
  intros Hy Hk. unfold re_Y, pad4. cbn [group append].
  rewrite !is_digit_digit_char, !digit_digit_char
    by (Z.div_mod_to_equations; lia).
  cbn [andb].
  replace (1000 * (y / 1000) + 100 * (y / 100 mod 10) + 10 * (y / 10 mod 10) + y mod 10)
    with y by (Z.div_mod_to_equations; lia).
  now rewrite Hk.
Qed.

Lemma group_m (A : Type) (k : Z -> string -> option A) (m : Z) (rest : string) (r : A) :
  1 <= m <= 12 ->
  k m rest = Some r ->
  group re_m k (pad2 m ++ rest) = Some r.
Proof.
  intros Hm Hk. each_value Hm 1 12; vm_compute; vm_compute in Hk; now rewrite Hk.
Qed.

Lemma group_d (A : Type) (k : Z -> string -> option A) (d : Z) (rest : string) (r : A) :
  1 <= d <= 31 ->
  k d rest = Some r ->
  group re_d k (pad2 d ++ rest) = Some r.
Proof.
  intros Hd Hk.
  each_value Hd 1 31; vm_compute; vm_compute in Hk; now rewrite Hk.
Qed.

Lemma valid_date_bounds (y m d : Z) :
  valid_date y m d = true -> 1 <= y <= 9999 /\ 1 <= m <= 12 /\ 1 <= d <= 31.
Proof.
  unfold valid_date, days_in_month. intro H.
  repeat (apply andb_prop in H; destruct H as [H ?]).
  assert (d <= 31).
  { destruct (m =? 2); [destruct (is_leap y); lia|].
    destruct ((m =? 4) || (m =? 6) || (m =? 9) || (m =? 11))%bool; lia. }
  lia.
Qed.

Lemma match_ymd_isoformat (y m d : Z) (rest : string) :
  valid_date y m d = true ->
  match_ymd (isoformat_date y m d ++ rest) = Some (y, m, d, rest).
Proof.
  intro Hv. destruct (valid_date_bounds _ _ _ Hv) as (Hy & Hm & Hd).
  unfold match_ymd, isoformat_date. rewrite !append_assoc.
  apply group_Y; [lia|]. cbn [append lit Ascii.eqb Bool.eqb].
  apply group_m; [lia|]. cbn [append lit Ascii.eqb Bool.eqb].
  apply group_d; [lia|]. reflexivity.
Qed.

Lemma strptime_isoformat (y m d : Z) :
  valid_date y m d = true ->
  strptime_ymd (isoformat_date y m d) = Returned (midnight y m d).
Proof.
  intro Hv. unfold strptime_ymd.
  rewrite <- (append_empty_r (isoformat_date y m d)).
  rewrite match_ymd_isoformat by assumption. now rewrite Hv.
Qed.

Lemma strptime_isoformat_rest (y m d : Z) (c : ascii) (rest : string) :
  valid_date y m d = true ->
  strptime_ymd (isoformat_date y m d ++ String c rest) = Raised ValueError.
Proof.
  intro Hv. unfold strptime_ymd. now rewrite match_ymd_isoformat.
Qed.

Lemma split_head_app (sep : ascii) (pre post : string) :
  PyStr.split_head sep pre = pre ->
  PyStr.split_head sep (pre ++ String sep post) = pre.
Proof.
  induction pre as [|c pre IH]; cbn [PyStr.split_head append]; intro H.
  - now rewrite Ascii.eqb_refl.
  - destruct (Ascii.eqb c sep); [discriminate|].
    injection H as H. now rewrite IH.
Qed.

Lemma split_head_isoformat (y m d : Z) (rest : string) :
  valid_date y m d = true ->
  PyStr.split_head "T" (isoformat_date y m d ++ String "T" rest) = isoformat_date y m d.
Proof.
  intro Hv. destruct (valid_date_bounds _ _ _ Hv) as (Hy & Hm & Hd).
  apply split_head_app.
  unfold isoformat_date, pad4, pad2. cbn [append PyStr.split_head].
  rewrite !digit_char_not_T by (Z.div_mod_to_equations; lia).
  reflexivity.
Qed.

(** ** [parse_date] *)

Lemma strptime_raises_ValueError (s : string) (e : exn) :
  strptime_ymd s = Raised e -> e = ValueError.
Proof.
  unfold strptime_ymd.
  destruct (match_ymd s) as [[[[y m] d] rest]|]; [|congruence].
  destruct rest; [destruct (valid_date y m d)|]; congruence.
Qed.

Lemma parse_date_returns (fromisoformat : string -> option datetime)
    (date_str : option string) :
  exists v, parse_date fromisoformat date_str = Returned v.
Proof.
  unfold parse_date, fromisoformat_call.
  destruct (negb (truthy_str date_str)); [eauto|].
  destruct (strptime_ymd (format_str date_str)) as [d|e] eqn:E1; [eauto|].
  apply strptime_raises_ValueError in E1; subst e.
  destruct (strptime_ymd (PyStr.split_head "T" (format_str date_str))) as [d|e] eqn:E2;
    [eauto|].
  apply strptime_raises_ValueError in E2; subst e.
  destruct (fromisoformat (format_str date_str)); eauto.
Qed.

Lemma parse_date_empty (fromisoformat : string -> option datetime)
    (date_str : option string) :
  truthy_str date_str = false -> parse_date fromisoformat date_str = Returned None.
Proof. intro H. unfold parse_date. now rewrite H. Qed.

(** C4. [parse_date] reads ["2024-03-15"], ["2024-03-15T00:00:00"] and
    ["2024-03-15T00:00:00Z"] as the same date, 15 March 2024, and answers
    [None] on [""] and on [None]. In general it accepts the text
    [YYYY-MM-DD] of any calendar date; failing that, it cuts the string at
    its first ['T'] and reads the date before it; failing that, it hands
    the whole string to [fromisoformat]; and whatever the input, it
    returns (a date or [None]) and never raises. *)
Theorem parse_date_policy (fromisoformat : string -> option datetime) :
  (parse_date fromisoformat (Some "2024-03-15") = Returned (Some (midnight 2024 3 15))
   /\ parse_date fromisoformat (Some "2024-03-15T00:00:00")
      = Returned (Some (midnight 2024 3 15))
   /\ parse_date fromisoformat (Some "2024-03-15T00:00:00Z")
      = Returned (Some (midnight 2024 3 15)))
  /\ (parse_date fromisoformat (Some "") = Returned None
      /\ parse_date fromisoformat None = Returned None)
  /\ (forall y m d, valid_date y m d = true ->
        parse_date fromisoformat (Some (isoformat_date y m d))
        = Returned (Some (midnight y m d)))
  /\ (forall y m d resto, valid_date y m d = true ->
        parse_date fromisoformat (Some (isoformat_date y m d ++ String "T" resto))
        = Returned (Some (midnight y m d)))
  /\ (forall s, s <> "" ->
        strptime_ymd s = Raised ValueError ->
        strptime_ymd (PyStr.split_head "T" s) = Raised ValueError ->
        parse_date fromisoformat (Some s) = Returned (fromisoformat s))
  /\ (forall date_str, exists v, parse_date fromisoformat date_str = Returned v).
Proof.
  repeat split; try reflexivity.
  - intros y m d Hv. unfold parse_date.
    replace (truthy_str (Some (isoformat_date y m d))) with true by reflexivity.
    cbn [negb format_str]. now rewrite strptime_isoformat.
  - intros y m d resto Hv. unfold parse_date.
    replace (truthy_str (Some (isoformat_date y m d ++ String "T" resto)))
      with true by reflexivity.
    cbn [negb format_str].
    rewrite strptime_isoformat_rest by assumption.
    rewrite split_head_isoformat by assumption.
    now rewrite strptime_isoformat.
  - intros s Hs E1 E2. unfold parse_date, fromisoformat_call.
    destruct s as [|c s]; [congruence|].
    cbn [truthy_str negb format_str]. rewrite E1, E2.
    now destruct (fromisoformat (String c s)).
  - apply parse_date_returns.
Qed.

(** C4 at 15 March 2024, and at a string neither attempt of [strptime]
    reads. *)
Lemma parse_date_policy_witness :
  valid_date 2024 3 15 = true
  /\ parse_date sin_isoformat (Some (isoformat_date 2024 3 15 ++ "T00:00:00"))
     = Returned (Some (midnight 2024 3 15))
  /\ parse_date sin_isoformat (Some "15/03/2024") = Returned (sin_isoformat "15/03/2024").
Proof.
  split; [reflexivity|]. split.
  - apply (proj1 (proj2 (proj2 (proj2 (parse_date_policy sin_isoformat))))). reflexivity.
  - apply (proj1 (proj2 (proj2 (proj2 (proj2 (parse_date_policy sin_isoformat)))))).
    + discriminate.
    + reflexivity.
    + reflexivity.
Defined.

(** ** Substrings and case *)

Lemma startswith_iff (p s : string) :
  PyStr.startswith p s = true <-> exists post, s = p ++ post.
Proof.
  revert s. induction p as [|a p IH]; intro s; cbn [PyStr.startswith].
  - split; [exists s; reflexivity | reflexivity].
  - destruct s as [|b s].
    + split; [discriminate | intros [post H]; discriminate].
    + rewrite andb_true_iff, Ascii.eqb_eq, IH. split.
      * intros [-> [post ->]]. now exists post.
      * intros [post H]. cbn in H. injection H as -> ->. split; eauto.
Qed.

Lemma contains_iff (w t : string) : PyStr.contains w t = true <-> occurs w t.
Proof.
  unfold occurs. induction t as [|c t IH].
  - cbn [PyStr.contains]. rewrite orb_false_r, startswith_iff. split.
    + intros [post H]. exists "", post. exact H.
    + intros [pre [post H]]. destruct pre; [now exists post | discriminate].
  - cbn [PyStr.contains]. rewrite orb_true_iff, startswith_iff, IH. split.
    + intros [[post H] | [pre [post H]]].
      * exists "", post. exact H.
      * exists (String c pre), post. cbn. now rewrite H.
    + intros [pre [post H]]. destruct pre as [|c' pre].
      * left. now exists post.
      * right. cbn in H. injection H as _ H. now exists pre, post.
Qed.

Lemma occurs_app (w t pre post : string) : occurs w t -> occurs w (pre ++ t ++ post).
Proof.
  intros [a [b ->]]. exists (pre ++ a), (b ++ post).
  now rewrite !append_assoc.
Qed.

Lemma occurs_after (w t pre : string) : occurs w t -> occurs w (pre ++ t).
Proof.
  intro H. rewrite <- (append_empty_r t). now apply occurs_app.
Qed.

Lemma lower_app (a b : string) : PyStr.lower (a ++ b) = PyStr.lower a ++ PyStr.lower b.
Proof. induction a as [|c a IH]; cbn; [reflexivity | now rewrite IH]. Qed.

(** ** Queries on a table *)

Lemma eq_str_iff (a b : option string) : eq_str a b = true <-> a = b.
Proof.
  destruct a as [x|], b as [y|]; cbn; try (split; congruence).
  rewrite String.eqb_eq. split; congruence.
Qed.

Lemma eq_str_refl (a : option string) : eq_str a a = true.
Proof. now apply eq_str_iff. Qed.

Lemma eq_id_iff (a b : option Z) : eq_id a b = true <-> a = b.
Proof.
  destruct a as [x|], b as [y|]; cbn; try (split; congruence).
  rewrite Z.eqb_eq. split; congruence.
Qed.

Section Tables.

Context {T : Type}.
Variable col : T -> option string.

Lemma first_by_Some (v : option string) (tbl : list T) (r : T) :
  first_by col v tbl = Some r -> In r tbl /\ col r = v.
Proof.
  unfold first_by. intro H. apply find_some in H. now rewrite eq_str_iff in H.
Qed.

Lemma first_by_None (v : option string) (tbl : list T) :
  first_by col v tbl = None <-> (forall r, In r tbl -> col r <> v).
Proof.
  unfold first_by. split.
  - intros H r Hr E. apply (find_none _ _ H) in Hr.
    apply eq_str_iff in E. congruence.
  - intro H. induction tbl as [|x tbl IH]; [reflexivity|]. cbn [find].
    destruct (eq_str (col x) v) eqn:E.
    + apply eq_str_iff in E. exfalso. apply (H x); [now left | assumption].
    + apply IH. intros r Hr. apply H. now right.
Qed.

Lemma first_by_app (v : option string) (t1 t2 : list T) :
  first_by col v (t1 ++ t2) =
  match first_by col v t1 with
  | Some r => Some r
  | None => first_by col v t2
  end.
Proof.
  unfold first_by. induction t1 as [|x t1 IH]; [reflexivity|]. cbn [app find].
  now destruct (eq_str (col x) v).
Qed.

Lemma unique_ok_absent (v : option string) (tbl : list T) :
  (forall r, In r tbl -> col r <> v) -> unique_ok col v tbl = true.
Proof.
  intro H. unfold unique_ok. destruct v as [k|]; [|reflexivity].
  apply negb_true_iff. apply not_true_is_false. intro E.
  apply existsb_exists in E. destruct E as [r [Hr E]].
  apply eq_str_iff in E. now apply (H r).
Qed.

Lemma filter_absent (v : option string) (tbl : list T) :
  (forall r, In r tbl -> col r <> v) ->
  filter (fun r => eq_str (col r) v) tbl = [].
Proof.
  intro H. induction tbl as [|x tbl IH]; [reflexivity|]. cbn [filter].
  destruct (eq_str (col x) v) eqn:E.
  - apply eq_str_iff in E. exfalso. apply (H x); [now left | assumption].
  - apply IH. intros r Hr. apply H. now right.
Qed.

Variable id : T -> option Z.

Lemma max_id_bound (tbl : list T) (r : T) (i : Z) :
  In r tbl -> id r = Some i -> i <= max_id id tbl.
Proof.
  induction tbl as [|x tbl IH]; [contradiction|]. cbn [max_id fold_right].
  fold (max_id id tbl). intros [->|Hr] Hi.
  - rewrite Hi. lia.
  - specialize (IH Hr Hi). destruct (id x); lia.
Qed.

Lemma next_id_fresh (tbl : list T) (r : T) :
  In r tbl -> eq_id (id r) (Some (next_id id tbl)) = false.
Proof.
  intro Hr. apply not_true_is_false. intro E. apply eq_id_iff in E.
  pose proof (max_id_bound tbl r _ Hr E). unfold next_id in *. lia.
Qed.

Lemma update_row_length (row : T) (tbl : list T) :
  List.length (update_row id row tbl) = List.length tbl.
Proof. unfold update_row. apply List.length_map. Qed.

Lemma update_row_In (row r : T) (tbl : list T) :
  In r (update_row id row tbl) -> r = row \/ In r tbl.
Proof.
  unfold update_row. intro H. apply in_map_iff in H. destruct H as [x [E Hx]].
  destruct (eq_id (id x) (id row)); subst; auto.
Qed.

Lemma update_row_hit (row r : T) (tbl : list T) :
  In r tbl -> id r = id row -> In row (update_row id row tbl).
Proof.
  intros Hr E. unfold update_row. apply in_map_iff. exists r. split; [|assumption].
  rewrite E. now rewrite (proj2 (eq_id_iff _ _) eq_refl).
Qed.

Lemma update_row_fresh (row : T) (tbl : list T) :
  (forall r, In r tbl -> eq_id (id r) (id row) = false) ->
  update_row id row tbl = tbl.
Proof.
  intro H. unfold update_row. induction tbl as [|x tbl IH]; [reflexivity|].
  cbn [map]. rewrite H by now left. f_equal. apply IH. intros r Hr. apply H. now right.
Qed.

End Tables.

(** ** [guardar_clasificacion_actuacion] *)

(** C6. Attaching a classification to an action identifier no stored action
    carries returns [None], raises nothing, and leaves the store exactly
    as it was. *)
Theorem guardar_clasificacion_sin_actuacion (s : Store) (id_reg_actuacion : option string)
    (clasificacion : Datos.Clasificacion) :
  (forall a, In a (actuaciones s) -> Actuacion.id_reg_actuacion a <> id_reg_actuacion) ->
  guardar_clasificacion_actuacion id_reg_actuacion clasificacion s = (s, Returned None).
Proof.
  intro H. unfold guardar_clasificacion_actuacion, bind, query, ret.
  now rewrite (proj2 (first_by_None Actuacion.id_reg_actuacion _ _) H).
Qed.

(** C6 on the example store, for an identifier it does not hold. *)
Lemma guardar_clasificacion_sin_actuacion_witness :
  guardar_clasificacion_actuacion (Some "A2") Ejemplo.urgente Ejemplo.almacen
  = (Ejemplo.almacen, Returned None).
Proof.
  apply guardar_clasificacion_sin_actuacion.
  intros a [<-|[]]. discriminate.
Defined.

(** ** [guardar_detalle_proceso] *)

(** C7, amended. On a stored process, [guardar_detalle_proceso] overwrites
    class, type, subtype and file location with the detail record's values
    ([None] when the key is missing) and the privacy flag with the
    record's value ([False] when the key is missing), whatever was stored;
    the claimant and respondent lists are overwritten, with their JSON
    text, only when the record has the key, and keep the stored value
    otherwise; no other field of the row changes. On an identifier no
    process carries it returns [None] and leaves the store as it was. *)
Theorem guardar_detalle_proceso_overwrites (s : Store) (id_proceso_api : option string)
    (detalle : Datos.Detalle) :
  (forall p, first_by Proceso.id_proceso_api id_proceso_api (procesos s) = Some p ->
     exists s' p',
       guardar_detalle_proceso id_proceso_api detalle s = (s', Returned (Some p'))
       /\ In p' (procesos s')
       /\ (Proceso.clase_proceso p' = get (Datos.claseProceso detalle)
           /\ Proceso.tipo_proceso p' = get (Datos.tipoProceso detalle)
           /\ Proceso.subtipo_proceso p' = get (Datos.subTipoProceso detalle)
           /\ Proceso.ubicacion_expediente p' = get (Datos.ubicacionExpediente detalle)
           /\ Proceso.es_privado p' = get_default (Datos.esPrivado detalle) false)
       /\ Proceso.demandantes p' =
            (if has_key (Datos.demandantes detalle)
             then Some (Json.dumps (get (Datos.demandantes detalle)))
             else Proceso.demandantes p)
       /\ Proceso.demandados p' =
            (if has_key (Datos.demandados detalle)
             then Some (Json.dumps (get (Datos.demandados detalle)))
             else Proceso.demandados p)
       /\ (Proceso.id p' = Proceso.id p
           /\ Proceso.id_proceso_api p' = Proceso.id_proceso_api p
           /\ Proceso.llave_proceso p' = Proceso.llave_proceso p
           /\ Proceso.fecha_proceso p' = Proceso.fecha_proceso p
           /\ Proceso.fecha_ultima_actuacion p' = Proceso.fecha_ultima_actuacion p
           /\ Proceso.despacho p' = Proceso.despacho p
           /\ Proceso.departamento p' = Proceso.departamento p
           /\ Proceso.sujetos_procesales p' = Proceso.sujetos_procesales p
           /\ Proceso.resumen_generado p' = Proceso.resumen_generado p
           /\ Proceso.fecha_consulta p' = Proceso.fecha_consulta p
           /\ Proceso.empresa_id p' = Proceso.empresa_id p)
       /\ (List.length (procesos s') = List.length (procesos s)
           /\ empresas s' = empresas s
           /\ actuaciones s' = actuaciones s
           /\ documentos s' = documentos s))
  /\ ((forall r, In r (procesos s) -> Proceso.id_proceso_api r <> id_proceso_api) ->
      guardar_detalle_proceso id_proceso_api detalle s = (s, Returned None)).
Proof.
  split.
  - intros p Hp. unfold guardar_detalle_proceso, bind, query, ret, update_proceso.
    rewrite Hp. destruct (first_by_Some _ _ _ _ Hp) as [Hin _].
    eexists _, _. split; [reflexivity|].
    split.
    { cbn [procesos set_procesos]. apply (update_row_hit Proceso.id _ p); [assumption|].
      destruct (has_key (Datos.demandantes detalle)), (has_key (Datos.demandados detalle));
        reflexivity. }
    destruct (has_key (Datos.demandantes detalle)), (has_key (Datos.demandados detalle));
      cbn; rewrite update_row_length; repeat split; reflexivity.
  - intro H. unfold guardar_detalle_proceso, bind, query, ret.
    now rewrite (proj2 (first_by_None Proceso.id_proceso_api _ _) H).
Qed.

(** C7 on the example store: process P1 is there, P9 is not. *)
Lemma guardar_detalle_proceso_overwrites_witness :
  (exists s' p',
     guardar_detalle_proceso (Some "P1") Ejemplo.detalle_sin_listas Ejemplo.almacen
     = (s', Returned (Some p'))
     /\ Proceso.clase_proceso p' = Some "EJECUTIVO"
     /\ Proceso.demandantes p' = Proceso.demandantes Ejemplo.proceso_P1)
  /\ guardar_detalle_proceso (Some "P9") Ejemplo.detalle_sin_listas Ejemplo.almacen
     = (Ejemplo.almacen, Returned None).
Proof.
  pose proof (guardar_detalle_proceso_overwrites Ejemplo.almacen) as T.
  split.
  - destruct (proj1 (T (Some "P1") Ejemplo.detalle_sin_listas) Ejemplo.proceso_P1 eq_refl)
      as (s' & p' & E & _ & (Hc & _) & Hd & _).
    exists s', p'. repeat split; assumption.
  - apply (proj2 (T (Some "P9") Ejemplo.detalle_sin_listas)).
    intros r [<-|[]]. discriminate.
Defined.

(** C7 as stated fails: the detail record below has no [demandantes] key,
    and the stored claimant list of P1 is still there after the call, not
    overwritten by the record's (absent) value. *)
Lemma guardar_detalle_proceso_keeps_party_list :
  Datos.demandantes Ejemplo.detalle_sin_listas = Missing
  /\ exists s' p',
       guardar_detalle_proceso (Some "P1") Ejemplo.detalle_sin_listas Ejemplo.almacen
       = (s', Returned (Some p'))
       /\ Proceso.demandantes p' = Some (Json.dumps (Some ["ACME"]))
       /\ Proceso.demandantes p' <> None
       /\ Proceso.demandantes p'
          <> Some (Json.dumps (get (Datos.demandantes Ejemplo.detalle_sin_listas))).
Proof.
  split; [reflexivity|]. eexists _, _. split; [lazy; reflexivity|].
  repeat split; lazy; discriminate.
Qed.

(** ** [guardar_empresa] and [guardar_proceso] *)

Lemma guardar_empresa_frame (datos_empresa : Datos.Empresa) (now : datetime)
    (s s' : Store) (o : outcome Empresa.t) :
  guardar_empresa datos_empresa now s = (s', o) ->
  procesos s' = procesos s /\ actuaciones s' = actuaciones s
  /\ documentos s' = documentos s.
Proof.
  unfold guardar_empresa, bind, query, ret, update_nit, insert_empresa.
  repeat match goal with
         | |- context [match ?x with _ => _ end] => destruct x
         end;
    intro H; injection H as <- _; auto.
Qed.

(** A hint whose nit is not the empty string never meets the uniqueness
    constraint: the party is found, completed or created. *)
Lemma guardar_empresa_returns (datos_empresa : Datos.Empresa) (now : datetime)
    (s : Store) :
  get (Datos.nit datos_empresa) <> Some "" ->
  exists s' e, guardar_empresa datos_empresa now s = (s', Returned e).
Proof.
  intro Hnit. unfold guardar_empresa, bind, query, ret.
  destruct (truthy_str (get (Datos.nit datos_empresa))) eqn:Ht.
  - destruct (first_by Empresa.nit _ (empresas s)) as [e|] eqn:E1; [eauto|].
    pose proof (proj1 (first_by_None Empresa.nit _ _) E1) as Hfree.
    destruct (first_by Empresa.nombre _ (empresas s)) as [e|] eqn:E2.
    + cbn [andb]. destruct (negb (truthy_str (Empresa.nit e))); [|eauto].
      unfold update_nit. rewrite unique_ok_absent; [eauto|].
      intros r Hr. apply filter_In in Hr. now apply Hfree.
    + unfold insert_empresa. cbn [Empresa.nit]. rewrite unique_ok_absent; eauto.
  - destruct (first_by Empresa.nombre _ (empresas s)) as [e|] eqn:E2.
    + cbn [andb]. eauto.
    + unfold insert_empresa. cbn [Empresa.nit].
      destruct (get (Datos.nit datos_empresa)) as [[|c k]|]; cbn [unique_ok]; eauto.
      * congruence.
      * discriminate.
Qed.

(** Why the nit must not be the empty string there: [''] is false for
    the lookup by nit and a value for the uniqueness constraint, so a new
    name with nit [''] is refused once a party with nit [''] is stored. *)
Lemma guardar_empresa_empty_nit_collides :
  let s := mkStore [Empresa.mk (Some 1) (Some "ACME") (Some "jur") (Some "") None] [] [] [] in
  guardar_empresa (Datos.mkEmpresa (Val "BETA") Missing (Val "")) (midnight 2024 3 1) s
  = (s, Raised IntegrityError).
Proof. reflexivity. Qed.

Section GuardarProceso.

Variable fromisoformat : string -> option datetime.

(** What a call on a stored process does: the row with the re-parsed date
    of last action, when there is one, and the new time of consultation. *)
Lemma guardar_proceso_existing (datos_proceso : Datos.Proceso)
    (datos_empresa : option Datos.Empresa) (now_empresa now : datetime)
    (s : Store) (p : Proceso.t) :
  first_by Proceso.id_proceso_api (get (Datos.idProceso datos_proceso)) (procesos s)
  = Some p ->
  exists v p',
    parse_date fromisoformat (get (Datos.fechaUltimaActuacion datos_proceso)) = Returned v
    /\ p' = Proceso.set_fecha_consulta (Some now)
              match v with
              | Some d => Proceso.set_fecha_ultima_actuacion (Some d) p
              | None => p
              end
    /\ guardar_proceso fromisoformat datos_proceso datos_empresa now_empresa now s
       = (set_procesos (update_row Proceso.id p' (procesos s)) s, Returned p').
Proof.
  intro Hp. unfold guardar_proceso, bind, query, lift, update_proceso. rewrite Hp.
  destruct (parse_date_returns fromisoformat
              (get (Datos.fechaUltimaActuacion datos_proceso))) as [v Hv].
  rewrite Hv. eauto.
Qed.

(** What a call on a new identifier does, when it returns. *)
Lemma guardar_proceso_new (datos_proceso : Datos.Proceso)
    (datos_empresa : option Datos.Empresa) (now_empresa now : datetime)
    (s s1 : Store) (p1 : Proceso.t) :
  (forall r, In r (procesos s) ->
     Proceso.id_proceso_api r <> get (Datos.idProceso datos_proceso)) ->
  guardar_proceso fromisoformat datos_proceso datos_empresa now_empresa now s
  = (s1, Returned p1) ->
  procesos s1 = (procesos s ++ [p1])%list
  /\ actuaciones s1 = actuaciones s
  /\ documentos s1 = documentos s
  /\ Proceso.id p1 = Some (next_id Proceso.id (procesos s))
  /\ Proceso.id_proceso_api p1 = get (Datos.idProceso datos_proceso)
  /\ Proceso.llave_proceso p1 = get (Datos.llaveProceso datos_proceso)
  /\ parse_date fromisoformat (get (Datos.fechaProceso datos_proceso))
     = Returned (Proceso.fecha_proceso p1)
  /\ parse_date fromisoformat (get (Datos.fechaUltimaActuacion datos_proceso))
     = Returned (Proceso.fecha_ultima_actuacion p1)
  /\ Proceso.despacho p1 = get (Datos.despacho datos_proceso)
  /\ Proceso.departamento p1 = get (Datos.departamento datos_proceso)
  /\ Proceso.sujetos_procesales p1 = get (Datos.sujetosProcesales datos_proceso)
  /\ Proceso.fecha_consulta p1 = Some now.
Proof.
  intros Habs. unfold guardar_proceso, bind, query, lift.
  rewrite (proj2 (first_by_None Proceso.id_proceso_api _ _) Habs).
  set (hint := match datos_empresa with
               | Some de => if Datos.empresa_truthy de then _ else _
               | None => _
               end).
  assert (Hframe : forall s' o, hint s = (s', o) ->
            procesos s' = procesos s /\ actuaciones s' = actuaciones s
            /\ documentos s' = documentos s).
  { subst hint. intros s' o. destruct datos_empresa as [de|].
    - destruct (Datos.empresa_truthy de).
      + unfold bind, ret.
        destruct (guardar_empresa de now_empresa s) as [s0 [e|x]] eqn:E;
          intro H; injection H as <- _; now apply guardar_empresa_frame in E.
      + unfold ret. intro H. injection H as <- _. auto.
    - unfold ret. intro H. injection H as <- _. auto. }
  destruct (hint s) as [s0 [eid|x]] eqn:E; [|discriminate].
  destruct (Hframe _ _ eq_refl) as (Hp & Ha & Hd).
  destruct (parse_date_returns fromisoformat (get (Datos.fechaProceso datos_proceso)))
    as [v1 Hv1].
  destruct (parse_date_returns fromisoformat
              (get (Datos.fechaUltimaActuacion datos_proceso))) as [v2 Hv2].
  rewrite Hv1, Hv2. unfold insert_proceso. cbn [Proceso.id_proceso_api].
  rewrite Hp. rewrite unique_ok_absent by assumption.
  intro H. injection H as <- <-. cbn. repeat split; assumption.
Qed.

(** A call on a new identifier returns whenever the hint is absent, empty,
    or has a nit other than the empty string. *)
Lemma guardar_proceso_new_returns (datos_proceso : Datos.Proceso)
    (datos_empresa : option Datos.Empresa) (now_empresa now : datetime) (s : Store) :
  (forall r, In r (procesos s) ->
     Proceso.id_proceso_api r <> get (Datos.idProceso datos_proceso)) ->
  (forall de, datos_empresa = Some de -> get (Datos.nit de) <> Some "") ->
  exists s1 p1,
    guardar_proceso fromisoformat datos_proceso datos_empresa now_empresa now s
    = (s1, Returned p1).
Proof.
  intros Habs Hnit. unfold guardar_proceso, bind, query, lift.
  rewrite (proj2 (first_by_None Proceso.id_proceso_api _ _) Habs).
  destruct (parse_date_returns fromisoformat (get (Datos.fechaProceso datos_proceso)))
    as [v1 Hv1].
  destruct (parse_date_returns fromisoformat
              (get (Datos.fechaUltimaActuacion datos_proceso))) as [v2 Hv2].
  assert (Hins : forall s0 eid, procesos s0 = procesos s ->
            exists s1 p1,
              insert_proceso
                (Proceso.mk None (get (Datos.idProceso datos_proceso))
                   (get (Datos.llaveProceso datos_proceso)) v1 v2
                   (get (Datos.despacho datos_proceso))
                   (get (Datos.departamento datos_proceso))
                   (get (Datos.sujetosProcesales datos_proceso))
                   None None None None None None None None (Some now) eid) s0
              = (s1, Returned p1)).
  { intros s0 eid Hp. unfold insert_proceso. cbn [Proceso.id_proceso_api].
    rewrite Hp, unique_ok_absent by assumption. eauto. }
  destruct datos_empresa as [de|].
  - destruct (Datos.empresa_truthy de).
    + unfold bind, ret.
      destruct (guardar_empresa_returns de now_empresa s (Hnit de eq_refl)) as (s0 & e & E).
      rewrite E, Hv1, Hv2. apply Hins. now apply guardar_empresa_frame in E.
    + unfold ret. rewrite Hv1, Hv2. now apply Hins.
  - unfold ret. rewrite Hv1, Hv2. now apply Hins.
Qed.

End GuardarProceso.

(** C10. When the identifier of the payload is already stored,
    [guardar_proceso] creates, links and modifies no party, with or
    without a hint: the table of parties is the one before the call and
    the row keeps its party reference. The stored date of last action is
    replaced exactly when the payload's date is read; when that field is
    absent, empty or unreadable the stored date stays. The time of
    consultation is set to the clock in every case. No row is added. *)
Theorem guardar_proceso_on_stored_process (fromisoformat : string -> option datetime)
    (datos_proceso : Datos.Proceso) (datos_empresa : option Datos.Empresa)
    (now_empresa now : datetime) (s : Store) (p : Proceso.t) :
  first_by Proceso.id_proceso_api (get (Datos.idProceso datos_proceso)) (procesos s)
  = Some p ->
  exists s' p',
    guardar_proceso fromisoformat datos_proceso datos_empresa now_empresa now s
    = (s', Returned p')
    /\ empresas s' = empresas s
    /\ Proceso.empresa_id p' = Proceso.empresa_id p
    /\ (forall d,
          parse_date fromisoformat (get (Datos.fechaUltimaActuacion datos_proceso))
          = Returned (Some d) ->
          Proceso.fecha_ultima_actuacion p' = Some d)
    /\ (parse_date fromisoformat (get (Datos.fechaUltimaActuacion datos_proceso))
        = Returned None ->
        Proceso.fecha_ultima_actuacion p' = Proceso.fecha_ultima_actuacion p)
    /\ (truthy_str (get (Datos.fechaUltimaActuacion datos_proceso)) = false ->
        Proceso.fecha_ultima_actuacion p' = Proceso.fecha_ultima_actuacion p)
    /\ Proceso.fecha_consulta p' = Some now
    /\ In p' (procesos s')
    /\ List.length (procesos s') = List.length (procesos s)
    /\ (forall r, In r (procesos s') -> r = p' \/ In r (procesos s))
    /\ actuaciones s' = actuaciones s
    /\ documentos s' = documentos s.
Proof.
  intro Hp.
  destruct (guardar_proceso_existing fromisoformat datos_proceso datos_empresa
              now_empresa now s p Hp) as (v & p' & Hv & Hp' & Hcall).
  destruct (first_by_Some _ _ _ _ Hp) as [Hin _].
  exists (set_procesos (update_row Proceso.id p' (procesos s)) s), p'.
  assert (Hv' : truthy_str (get (Datos.fechaUltimaActuacion datos_proceso)) = false ->
                v = None).
  { intro Ht. rewrite parse_date_empty in Hv by assumption. congruence. }
  repeat split.
  - exact Hcall.
  - subst p'. now destruct v.
  - intros d Hd. rewrite Hd in Hv. injection Hv as <-. now subst p'.
  - intro Hd. rewrite Hd in Hv. injection Hv as <-. now subst p'.
  - intro Ht. rewrite (Hv' Ht) in Hp'. now subst p'.
  - now subst p'.
  - cbn [procesos set_procesos]. apply (update_row_hit Proceso.id _ p); [assumption|].
    subst p'. now destruct v.
  - cbn [procesos set_procesos]. apply update_row_length.
  - cbn [procesos set_procesos]. intros r. apply update_row_In.
Qed.

(** C10 on the example store: P1 is stored, the payload's date of last
    action cannot be read, and a hint for another party comes with it. *)
Lemma guardar_proceso_on_stored_process_witness :
  exists s' p',
    guardar_proceso sin_isoformat
      (Datos.mkProceso (Val "P1") Missing Missing (Val "pendiente") Missing Missing Missing)
      (Some Ejemplo.pista_beta) (midnight 2024 3 1) (midnight 2024 3 1) Ejemplo.almacen
    = (s', Returned p')
    /\ empresas s' = [Ejemplo.acme]
    /\ Proceso.empresa_id p' = Some 1
    /\ Proceso.fecha_ultima_actuacion p' = Some (midnight 2024 1 9)
    /\ Proceso.fecha_consulta p' = Some (midnight 2024 3 1).
Proof.
  destruct (guardar_proceso_on_stored_process sin_isoformat
              (Datos.mkProceso (Val "P1") Missing Missing (Val "pendiente")
                 Missing Missing Missing)
              (Some Ejemplo.pista_beta) (midnight 2024 3 1) (midnight 2024 3 1)
              Ejemplo.almacen Ejemplo.proceso_P1 eq_refl)
    as (s' & p' & Hcall & He & Hlink & _ & Hnone & _ & Hc & _).
  exists s', p'. repeat split; try assumption.
  now apply Hnone.
Defined.

(** C1. Two calls of [guardar_proceso] with the same identifier, on a
    store that does not hold it: the first call returns whenever the hint
    cannot collide on the nit; once it has returned, the second call
    returns too, the store holds exactly one process with that identifier
    (the row the first call added, at the same place), and that row
    differs from the first-insert row in the date of last action and the
    time of consultation only: display key, filing date, office,
    department, party summary, party link and every other column keep the
    values of the first payload, whatever the second payload says. The
    second call touches no other table. *)
Theorem guardar_proceso_twice (fromisoformat : string -> option datetime)
    (d1 d2 : Datos.Proceso) (e1 e2 : option Datos.Empresa)
    (ne1 n1 ne2 n2 : datetime) (s : Store) :
  get (Datos.idProceso d2) = get (Datos.idProceso d1) ->
  (forall r, In r (procesos s) ->
     Proceso.id_proceso_api r <> get (Datos.idProceso d1)) ->
  ((forall de, e1 = Some de -> get (Datos.nit de) <> Some "") ->
   exists s1 p1, guardar_proceso fromisoformat d1 e1 ne1 n1 s = (s1, Returned p1))
  /\ forall s1 p1,
       guardar_proceso fromisoformat d1 e1 ne1 n1 s = (s1, Returned p1) ->
       exists s2 p2,
         guardar_proceso fromisoformat d2 e2 ne2 n2 s1 = (s2, Returned p2)
         /\ procesos s1 = (procesos s ++ [p1])%list
         /\ procesos s2 = (procesos s ++ [p2])%list
         /\ List.length
              (filter (fun r => eq_str (Proceso.id_proceso_api r) (get (Datos.idProceso d1)))
                 (procesos s2)) = 1%nat
         /\ p2 = Proceso.set_fecha_consulta (Some n2)
                   (Proceso.set_fecha_ultima_actuacion
                      (Proceso.fecha_ultima_actuacion p2) p1)
         /\ (forall d,
               parse_date fromisoformat (get (Datos.fechaUltimaActuacion d2))
               = Returned (Some d) ->
               Proceso.fecha_ultima_actuacion p2 = Some d)
         /\ (parse_date fromisoformat (get (Datos.fechaUltimaActuacion d2))
             = Returned None ->
             Proceso.fecha_ultima_actuacion p2 = Proceso.fecha_ultima_actuacion p1)
         /\ (Proceso.llave_proceso p2 = get (Datos.llaveProceso d1)
             /\ parse_date fromisoformat (get (Datos.fechaProceso d1))
                = Returned (Proceso.fecha_proceso p2)
             /\ Proceso.despacho p2 = get (Datos.despacho d1)
             /\ Proceso.departamento p2 = get (Datos.departamento d1)
             /\ Proceso.sujetos_procesales p2 = get (Datos.sujetosProcesales d1)
             /\ Proceso.empresa_id p2 = Proceso.empresa_id p1
             /\ Proceso.resumen_generado p2 = Proceso.resumen_generado p1)
         /\ (empresas s2 = empresas s1 /\ actuaciones s2 = actuaciones s1
             /\ documentos s2 = documentos s1).
Proof.
  intros Hid Habs. split.
  - intro Hnit. now apply guardar_proceso_new_returns.
  - intros s1 p1 H1.
    destruct (guardar_proceso_new fromisoformat d1 e1 ne1 n1 s s1 p1 Habs H1)
      as (Hs1 & _ & _ & Hk & Hapi & Hll & Hfp & _ & Hde & Hdp & Hsu & _).
    assert (Hfind : first_by Proceso.id_proceso_api (get (Datos.idProceso d2))
                      (procesos s1) = Some p1).
    { rewrite Hs1, first_by_app, Hid.
      rewrite (proj2 (first_by_None Proceso.id_proceso_api _ _) Habs).
      unfold first_by. cbn [find]. now rewrite Hapi, eq_str_refl. }
    destruct (guardar_proceso_existing fromisoformat d2 e2 ne2 n2 s1 p1 Hfind)
      as (v & p2 & Hv & Hp2 & H2).
    assert (Hkeep : Proceso.id p2 = Proceso.id p1
                    /\ Proceso.id_proceso_api p2 = Proceso.id_proceso_api p1).
    { subst p2. now destruct v. }
    destruct Hkeep as [Hk2 Hapi2].
    assert (Hrows : update_row Proceso.id p2 (procesos s1) = (procesos s ++ [p2])%list).
    { rewrite Hs1. unfold update_row. rewrite map_app. fold (update_row Proceso.id p2 (procesos s)).
      rewrite update_row_fresh.
      - cbn [map]. now rewrite Hk2, (proj2 (eq_id_iff _ _) eq_refl).
      - intros r Hr. rewrite Hk2, Hk. now apply next_id_fresh. }
    exists (set_procesos (update_row Proceso.id p2 (procesos s1)) s1), p2.
    cbn [procesos empresas actuaciones documentos set_procesos].
    repeat split; try assumption; try (subst p2; now destruct v).
    + rewrite Hrows, filter_app.
      rewrite (filter_absent Proceso.id_proceso_api _ _ Habs).
      cbn [filter app]. now rewrite Hapi2, Hapi, eq_str_refl.
    + intros d Hd. rewrite Hd in Hv. injection Hv as <-. now subst p2.
    + intro Hd. rewrite Hd in Hv. injection Hv as <-. now subst p2.
Qed.

(** C1 on the example store: P2 is new; the second payload reports other
    values for it and a hint for another party. *)
Lemma guardar_proceso_twice_witness :
  exists s1 p1 s2 p2,
    guardar_proceso sin_isoformat Ejemplo.datos_P2 (Some Ejemplo.pista_acme)
      (midnight 2024 2 2) (midnight 2024 2 2) Ejemplo.almacen = (s1, Returned p1)
    /\ guardar_proceso sin_isoformat Ejemplo.datos_P2_despues (Some Ejemplo.pista_beta)
         (midnight 2024 3 1) (midnight 2024 3 1) s1 = (s2, Returned p2)
    /\ procesos s2 = [Ejemplo.proceso_P1; p2]
    /\ Proceso.llave_proceso p2 = Some "05001310301020220022900"
    /\ Proceso.despacho p2 = Some "JUZGADO 010 CIVIL"
    /\ Proceso.fecha_ultima_actuacion p2 = Proceso.fecha_ultima_actuacion p1
    /\ empresas s2 = empresas s1.
Proof.
  pose proof (guardar_proceso_twice sin_isoformat Ejemplo.datos_P2
                Ejemplo.datos_P2_despues (Some Ejemplo.pista_acme)
                (Some Ejemplo.pista_beta) (midnight 2024 2 2) (midnight 2024 2 2)
                (midnight 2024 3 1) (midnight 2024 3 1) Ejemplo.almacen eq_refl) as T.
  assert (Habs : forall r, In r (procesos Ejemplo.almacen) ->
                   Proceso.id_proceso_api r <> get (Datos.idProceso Ejemplo.datos_P2)).
  { intros r [<-|[]]. discriminate. }
  destruct (T Habs) as [T1 T2].
  destruct T1 as (s1 & p1 & H1).
  { intros de E. injection E as <-. discriminate. }
  destruct (T2 s1 p1 H1)
    as (s2 & p2 & H2 & _ & Hrows & _ & _ & _ & Hnone & (Hll & _ & Hde & _) & (He & _)).
  exists s1, p1, s2, p2. repeat split; try assumption.
  now apply Hnone.
Defined.

(** ** [guardar_actuaciones] *)

Lemma NoDup_app_sep {A : Type} (l1 l2 : list A) (x : A) :
  NoDup (l1 ++ l2) -> In x l1 -> ~ In x l2.
Proof.
  induction l1 as [|y l1 IH]; [intros _ []|]. cbn [app]. intros H [->|Hin] Hx.
  - apply NoDup_cons_iff in H. apply (proj1 H). apply in_or_app. now right.
  - apply NoDup_cons_iff in H. exact (IH (proj2 H) Hin Hx).
Qed.

Lemma eq_id_refl (a : option Z) : eq_id a a = true.
Proof. now apply eq_id_iff. Qed.

Lemma filter_all {A : Type} (f : A -> bool) (l : list A) :
  Forall (fun x => f x = true) l -> filter f l = l.
Proof.
  induction 1 as [|x l Hx _ IH]; [reflexivity|]. cbn [filter]. now rewrite Hx, IH.
Qed.

Lemma NoDup_map_eq {A B : Type} (f : A -> B) (l : list A) (x y : A) :
  NoDup (map f l) -> In x l -> In y l -> f x = f y -> x = y.
Proof.
  induction l as [|z l IH]; [contradiction|]. cbn [map]. intro Hnd.
  apply NoDup_cons_iff in Hnd. destruct Hnd as [Hz Hnd].
  intros [->|Hx] [->|Hy] E; auto.
  - exfalso. apply Hz. rewrite E. now apply in_map.
  - exfalso. apply Hz. rewrite <- E. now apply in_map.
Qed.

Lemma Forall2_In_l {A B : Type} (R : A -> B -> Prop) (l : list A) (l' : list B) (x : A) :
  Forall2 R l l' -> In x l -> exists y, In y l' /\ R x y.
Proof.
  induction 1 as [|a b l l' Hab _ IH]; [contradiction|].
  intros [->|Hx].
  - exists b. split; [now left | assumption].
  - destruct (IH Hx) as [y [Hy Hxy]]. exists y. split; [now right | assumption].
Qed.

Lemma Forall2_In_r {A B : Type} (R : A -> B -> Prop) (l : list A) (l' : list B) (y : B) :
  Forall2 R l l' -> In y l' -> exists x, In x l /\ R x y.
Proof.
  induction 1 as [|a b l l' Hab _ IH]; [contradiction|].
  intros [->|Hy].
  - exists a. split; [now left | assumption].
  - destruct (IH Hy) as [x [Hx Hxy]]. exists x. split; [now right | assumption].
Qed.

Lemma unique_ok_first_by {T : Type} (col : T -> option string) (k : string)
    (tbl : list T) :
  unique_ok col (Some k) tbl
  = match first_by col (Some k) tbl with Some _ => false | None => true end.
Proof.
  unfold unique_ok, first_by. induction tbl as [|x tbl IH]; [reflexivity|].
  cbn [existsb find]. destruct (eq_str (col x) (Some k)); [reflexivity | exact IH].
Qed.

Section GuardarActuaciones.

Variable fromisoformat : string -> option datetime.
Variable proceso : Proceso.t.

Lemma parse_date_fecha (x : field string) :
  parse_date fromisoformat (get x) = Returned (fecha fromisoformat x).
Proof.
  unfold fecha. destruct (parse_date_returns fromisoformat (get x)) as [v ->].
  reflexivity.
Qed.

Lemma nueva_actuacion_eq (act_data : Datos.Actuacion) :
  nueva_actuacion fromisoformat act_data proceso = Returned (pendiente_de fromisoformat proceso act_data).
Proof. unfold nueva_actuacion. now rewrite !parse_date_fecha. Qed.

Lemma recorrer_eq (tbl : list Actuacion.t) (acts : list Datos.Actuacion) :
  recorrer fromisoformat tbl proceso acts = Returned (map (guardada_de fromisoformat proceso tbl) acts).
Proof.
  induction acts as [|a acts IH]; [reflexivity|]. cbn [recorrer map].
  unfold guardada_de at 1. unfold id_de. rewrite IH, nueva_actuacion_eq.
  now destruct (first_by Actuacion.id_reg_actuacion _ tbl).
Qed.

Lemma confirmar_existentes (tbl rows : list Actuacion.t) :
  confirmar tbl (map Existente rows) = Returned (tbl, rows).
Proof.
  induction rows as [|r rows IH]; [reflexivity|]. cbn [map confirmar]. now rewrite IH.
Qed.

Lemma ids_pendientes_cons (tbl0 : list Actuacion.t) (a : Datos.Actuacion)
    (acts : list Datos.Actuacion) :
  ids_pendientes tbl0 (a :: acts)
  = (match first_by Actuacion.id_reg_actuacion (id_de a) tbl0 with
     | Some _ => []
     | None => presentes [id_de a]
     end ++ ids_pendientes tbl0 acts)%list.
Proof.
  unfold ids_pendientes. cbn [flat_map]. f_equal.
  destruct (id_de a), (first_by Actuacion.id_reg_actuacion _ tbl0); reflexivity.
Qed.

Lemma ids_pendientes_presentes (tbl0 : list Actuacion.t) (acts : list Datos.Actuacion) :
  ids_pendientes tbl0 acts = presentes (map id_de (pendientes tbl0 acts)).
Proof.
  induction acts as [|a acts IH]; [reflexivity|].
  rewrite ids_pendientes_cons, IH. cbn [pendientes filter].
  fold (pendientes tbl0 acts).
  destruct (first_by Actuacion.id_reg_actuacion (id_de a) tbl0); [reflexivity|].
  cbn [map]. unfold presentes. cbn [flat_map]. now rewrite app_nil_r.
Qed.

Lemma presentes_In (l : list (option string)) (k : string) :
  In k (presentes l) <-> In (Some k) l.
Proof.
  unfold presentes. rewrite in_flat_map. split.
  - intros [[k'|] [Hin H]]; [|contradiction]. destruct H as [->|[]]. exact Hin.
  - intro H. exists (Some k). split; [assumption | now left].
Qed.

Lemma presentes_NoDup (l : list (option string)) : NoDup l -> NoDup (presentes l).
Proof.
  induction 1 as [|o l Ho _ IH]; [constructor|].
  unfold presentes. cbn [flat_map]. fold (presentes l).
  destruct o as [k|]; cbn [app]; [|assumption].
  constructor; [|assumption]. now rewrite presentes_In.
Qed.

Lemma ids_presentes_presentes (tbl : list Actuacion.t) :
  ids_presentes tbl = presentes (map Actuacion.id_reg_actuacion tbl).
Proof.
  induction tbl as [|r tbl IH]; [reflexivity|].
  unfold ids_presentes, presentes. cbn [map flat_map].
  fold (ids_presentes tbl) (presentes (map Actuacion.id_reg_actuacion tbl)).
  now rewrite IH.
Qed.

Lemma al_dia_refl (tbl0 : list Actuacion.t) : al_dia tbl0 tbl0 [].
Proof.
  intro k. split; [intro H; split; [exact H | intros []] | intros [H _]; exact H].
Qed.

(** One INSERT of the commit, for a record whose identifier is not
    stored and was not inserted before: the constraint accepts the row,
    and the table is up to date with the identifier added. *)
Lemma paso_pendiente (tbl0 cur : list Actuacion.t) (vistos : list string)
    (a : Datos.Actuacion) (a' : Actuacion.t) :
  al_dia tbl0 cur vistos ->
  first_by Actuacion.id_reg_actuacion (id_de a) tbl0 = None ->
  (forall k, id_de a = Some k -> ~ In k vistos) ->
  Actuacion.id_reg_actuacion a' = id_de a ->
  unique_ok Actuacion.id_reg_actuacion (id_de a) cur = true
  /\ al_dia tbl0 (cur ++ [a'])%list (presentes [id_de a] ++ vistos)%list.
Proof.
  intros Hinv E0 Hnew Ha'. destruct (id_de a) as [k|] eqn:Ek.
  - specialize (Hnew k eq_refl).
    assert (Hc : first_by Actuacion.id_reg_actuacion (Some k) cur = None)
      by (apply Hinv; tauto).
    split; [now rewrite unique_ok_first_by, Hc|].
    intro k'. rewrite first_by_app. cbn [presentes flat_map app In].
    destruct (first_by Actuacion.id_reg_actuacion (Some k') cur) eqn:Ec.
    + split; [discriminate|]. intros [H1 H2].
      assert (first_by Actuacion.id_reg_actuacion (Some k') cur = None)
        by (apply Hinv; tauto).
      congruence.
    + apply Hinv in Ec. unfold first_by. cbn [find]. rewrite Ha'.
      destruct (eq_str (Some k) (Some k')) eqn:Ekk.
      * apply eq_str_iff in Ekk. injection Ekk as ->. split; [discriminate | tauto].
      * split; [|reflexivity]. intros _. split; [tauto|].
        intros [->|H]; [|tauto]. rewrite eq_str_refl in Ekk. discriminate.
  - split; [reflexivity|].
    intro k'. cbn [presentes flat_map app].
    assert (Hk : first_by Actuacion.id_reg_actuacion (Some k') (cur ++ [a'])%list
                 = first_by Actuacion.id_reg_actuacion (Some k') cur).
    { rewrite first_by_app.
      destruct (first_by Actuacion.id_reg_actuacion (Some k') cur); [reflexivity|].
      unfold first_by. cbn [find]. now rewrite Ha'. }
    rewrite Hk. apply Hinv.
Qed.

(** The commit, by induction on the records: [cur] is the table with the
    rows inserted so far, for the identifiers [vistos]. When the
    identifiers to insert are distinct and the sequence numbers fit, every
    INSERT is accepted. *)
Lemma confirmar_returns (tbl0 : list Actuacion.t) (acts : list Datos.Actuacion) :
  forall (cur : list Actuacion.t) (vistos : list string),
  al_dia tbl0 cur vistos ->
  NoDup (ids_pendientes tbl0 acts) ->
  (forall k, In k (ids_pendientes tbl0 acts) -> ~ In k vistos) ->
  Forall (fun a => cabe a = true) (pendientes tbl0 acts) ->
  exists nuevas rows,
    confirmar cur (map (guardada_de fromisoformat proceso tbl0) acts)
    = Returned ((cur ++ nuevas)%list, rows)
    /\ Forall2 (fun a row =>
          Actuacion.id_reg_actuacion row = id_de a
          /\ match first_by Actuacion.id_reg_actuacion (id_de a) tbl0 with
             | Some r => row = r
             | None => In row nuevas /\ fetched fromisoformat proceso a row
             end) acts rows
    /\ map Actuacion.id_reg_actuacion nuevas = map id_de (pendientes tbl0 acts).
Proof.
  induction acts as [|a acts IH]; intros cur vistos Hinv Hnd Hdis Hcabe.
  - exists [], []. cbn. rewrite app_nil_r. repeat split; constructor.
  - rewrite ids_pendientes_cons in Hnd, Hdis. cbn [pendientes filter] in Hcabe |- *.
    fold (pendientes tbl0 acts) in Hcabe |- *.
    cbn [map]. unfold guardada_de at 1.
    destruct (first_by Actuacion.id_reg_actuacion (id_de a) tbl0) as [r|] eqn:E0.
    + cbn [app] in Hnd, Hdis.
      destruct (IH cur vistos Hinv Hnd Hdis Hcabe) as (nuevas & rows & Hc & Hrows & Hids).
      exists nuevas, (r :: rows). cbn [confirmar]. rewrite Hc. repeat split.
      * constructor; [|exact Hrows]. rewrite E0. split; [|reflexivity].
        now apply first_by_Some in E0.
      * exact Hids.
    + apply Forall_cons_iff in Hcabe. destruct Hcabe as [Ha Hcabe].
      cbn [confirmar pendiente_de Actuacion.id_reg_actuacion Actuacion.cons_actuacion].
      change (sqlite_integer_ok (get (Datos.consActuacion a))) with (cabe a).
      change (get (Datos.idRegActuacion a)) with (id_de a).
      rewrite Ha. cbn [negb].
      match goal with
      | |- context [confirmar (cur ++ [?row])%list _] => set (a' := row)
      end.
      assert (Hfresh : forall k, id_de a = Some k -> ~ In k vistos).
      { intros k Ek. apply Hdis. rewrite Ek. now left. }
      destruct (paso_pendiente tbl0 cur vistos a a' Hinv E0 Hfresh eq_refl)
        as [Hu Hinv'].
      rewrite Hu.
      destruct (IH (cur ++ [a'])%list (presentes [id_de a] ++ vistos)%list Hinv')
        as (nuevas & rows & Hc & Hrows & Hids).
      { now apply NoDup_app_remove_l in Hnd. }
      { intros k Hk Hin. apply in_app_or in Hin. destruct Hin as [Hin|Hin].
        - exact (NoDup_app_sep _ _ k Hnd Hin Hk).
        - apply (Hdis k); [apply in_or_app; now right | assumption]. }
      { assumption. }
      exists (a' :: nuevas), (a' :: rows). rewrite Hc.
      replace ((cur ++ [a']) ++ nuevas)%list with (cur ++ a' :: nuevas)%list
        by now rewrite <- app_assoc.
      repeat split.
      * constructor.
        -- split; [reflexivity|]. rewrite E0. split; [now left|].
           unfold fetched. cbn. rewrite !parse_date_fecha.
           repeat split; try reflexivity.
           ++ now destruct (Datos.conDocumentos a).
           ++ eauto.
        -- eapply Forall2_impl; [|exact Hrows]. cbn beta. intros b row [H1 H2].
           split; [exact H1|].
           destruct (first_by Actuacion.id_reg_actuacion (id_de b) tbl0); [exact H2|].
           destruct H2 as [H2 H3]. split; [now right | exact H3].
      * cbn [map]. now rewrite Hids.
Qed.

(** An identifier to insert is repeated, and the sequence numbers fit:
    the constraint refuses an INSERT. *)
Lemma confirmar_refused (tbl0 : list Actuacion.t) (acts : list Datos.Actuacion) :
  forall (cur : list Actuacion.t) (vistos : list string),
  al_dia tbl0 cur vistos ->
  Forall (fun a => cabe a = true) (pendientes tbl0 acts) ->
  ~ (NoDup (ids_pendientes tbl0 acts)
     /\ forall k, In k (ids_pendientes tbl0 acts) -> ~ In k vistos) ->
  confirmar cur (map (guardada_de fromisoformat proceso tbl0) acts)
  = Raised IntegrityError.
Proof.
  induction acts as [|a acts IH]; intros cur vistos Hinv Hcabe Hno.
  - exfalso. apply Hno. split; [constructor | intros k []].
  - rewrite ids_pendientes_cons in Hno. cbn [pendientes filter] in Hcabe.
    fold (pendientes tbl0 acts) in Hcabe.
    cbn [map]. unfold guardada_de at 1.
    destruct (first_by Actuacion.id_reg_actuacion (id_de a) tbl0) as [r|] eqn:E0.
    + cbn [app] in Hno. cbn [confirmar]. now rewrite (IH cur vistos Hinv Hcabe Hno).
    + apply Forall_cons_iff in Hcabe. destruct Hcabe as [Ha Hcabe].
      cbn [confirmar pendiente_de Actuacion.id_reg_actuacion Actuacion.cons_actuacion].
      change (sqlite_integer_ok (get (Datos.consActuacion a))) with (cabe a).
      change (get (Datos.idRegActuacion a)) with (id_de a).
      rewrite Ha. cbn [negb].
      match goal with
      | |- context [confirmar (cur ++ [?row])%list _] => set (a' := row)
      end.
      assert (Hdec : (forall k, id_de a = Some k -> ~ In k vistos)
                     \/ exists k, id_de a = Some k /\ In k vistos).
      { destruct (id_de a) as [k|]; [|left; discriminate].
        destruct (in_dec string_dec k vistos) as [Hin|Hout].
        - right. eauto.
        - left. intros k' E. now injection E as <-. }
      destruct Hdec as [Hfresh|(k & Ek & Hin)].
      * destruct (paso_pendiente tbl0 cur vistos a a' Hinv E0 Hfresh eq_refl)
          as [Hu Hinv'].
        rewrite Hu.
        rewrite (IH (cur ++ [a'])%list (presentes [id_de a] ++ vistos)%list Hinv' Hcabe);
          [reflexivity|].
        intros [Hnd Hdis]. apply Hno. split.
        -- apply NoDup_app; [ | assumption | ].
           ++ apply presentes_NoDup. constructor; [intros [] | constructor].
           ++ intros k Hk Hk'. apply (Hdis k Hk'). apply in_or_app. now left.
        -- intros k Hk. apply in_app_or in Hk. destruct Hk as [Hk|Hk].
           ++ apply presentes_In in Hk. destruct Hk as [Hk|[]]. now apply Hfresh.
           ++ intro Hv. apply (Hdis k Hk). apply in_or_app. now right.
      * rewrite Ek, unique_ok_first_by.
        destruct (first_by Actuacion.id_reg_actuacion (Some k) cur) eqn:Ec;
          [reflexivity|].
        apply Hinv in Ec. tauto.
Qed.

(** The identifiers to insert are distinct and a sequence number does
    not fit: the driver refuses an INSERT. *)
Lemma confirmar_overflow (tbl0 : list Actuacion.t) (acts : list Datos.Actuacion) :
  forall (cur : list Actuacion.t) (vistos : list string),
  al_dia tbl0 cur vistos ->
  NoDup (ids_pendientes tbl0 acts) ->
  (forall k, In k (ids_pendientes tbl0 acts) -> ~ In k vistos) ->
  Exists (fun a => cabe a = false) (pendientes tbl0 acts) ->
  confirmar cur (map (guardada_de fromisoformat proceso tbl0) acts)
  = Raised OverflowError.
Proof.
  induction acts as [|a acts IH]; intros cur vistos Hinv Hnd Hdis Hex;
    [inversion Hex|].
  rewrite ids_pendientes_cons in Hnd, Hdis. cbn [pendientes filter] in Hex.
  fold (pendientes tbl0 acts) in Hex.
  cbn [map]. unfold guardada_de at 1.
  destruct (first_by Actuacion.id_reg_actuacion (id_de a) tbl0) as [r|] eqn:E0.
  - cbn [app] in Hnd, Hdis. cbn [confirmar].
    now rewrite (IH cur vistos Hinv Hnd Hdis Hex).
  - cbn [confirmar pendiente_de Actuacion.id_reg_actuacion Actuacion.cons_actuacion].
    change (sqlite_integer_ok (get (Datos.consActuacion a))) with (cabe a).
    change (get (Datos.idRegActuacion a)) with (id_de a).
    destruct (cabe a) eqn:Ha; cbn [negb]; [|reflexivity].
    apply Exists_cons in Hex. destruct Hex as [Hex|Hex]; [congruence|].
    match goal with
    | |- context [confirmar (cur ++ [?row])%list _] => set (a' := row)
    end.
    assert (Hfresh : forall k, id_de a = Some k -> ~ In k vistos).
    { intros k Ek. apply Hdis. rewrite Ek. now left. }
    destruct (paso_pendiente tbl0 cur vistos a a' Hinv E0 Hfresh eq_refl)
      as [Hu Hinv'].
    rewrite Hu.
    rewrite (IH (cur ++ [a'])%list (presentes [id_de a] ++ vistos)%list Hinv');
      [reflexivity | | | assumption].
    + now apply NoDup_app_remove_l in Hnd.
    + intros k Hk Hin. apply in_app_or in Hin. destruct Hin as [Hin|Hin].
      * exact (NoDup_app_sep _ _ k Hnd Hin Hk).
      * apply (Hdis k); [apply in_or_app; now right | assumption].
Qed.

Lemma guardadas_existentes (tbl : list Actuacion.t) (acts : list Datos.Actuacion)
    (rows : list Actuacion.t) :
  Forall2 (fun a row =>
     first_by Actuacion.id_reg_actuacion (id_de a) tbl = Some row) acts rows ->
  map (guardada_de fromisoformat proceso tbl) acts = map Existente rows.
Proof.
  induction 1 as [|a row acts rows H _ IH]; [reflexivity|].
  cbn [map]. unfold guardada_de at 1. now rewrite H, IH.
Qed.

Lemma ids_presentes_In (tbl : list Actuacion.t) (k : string) :
  In k (ids_presentes tbl) <->
  exists r, In r tbl /\ Actuacion.id_reg_actuacion r = Some k.
Proof.
  unfold ids_presentes. rewrite in_flat_map. split; intros [r [Hr H]]; exists r.
  - destruct (Actuacion.id_reg_actuacion r) as [k'|]; [|contradiction].
    destruct H as [->|[]]. auto.
  - rewrite H. split; [assumption | now left].
Qed.

(** After the commit every record finds a row under its identifier. *)
Lemma filas_halladas (tbl0 nuevas rows : list Actuacion.t)
    (acts : list Datos.Actuacion) :
  Forall2 (fun a row =>
     Actuacion.id_reg_actuacion row = id_de a
     /\ match first_by Actuacion.id_reg_actuacion (id_de a) tbl0 with
        | Some r => row = r
        | None => In row nuevas /\ fetched fromisoformat proceso a row
        end) acts rows ->
  exists rows2,
    Forall2 (fun a row =>
       first_by Actuacion.id_reg_actuacion (id_de a) (tbl0 ++ nuevas)%list = Some row)
      acts rows2.
Proof.
  induction 1 as [|a row acts rows [Hid Hrow] _ [rows2 IH]]; [exists []; constructor|].
  assert (Hx : exists x, first_by Actuacion.id_reg_actuacion (id_de a)
                           (tbl0 ++ nuevas)%list = Some x).
  { rewrite first_by_app.
    destruct (first_by Actuacion.id_reg_actuacion (id_de a) tbl0) as [r|]; [eauto|].
    destruct (first_by Actuacion.id_reg_actuacion (id_de a) nuevas) as [x|] eqn:E;
      [eauto|].
    exfalso.
    exact (proj1 (first_by_None Actuacion.id_reg_actuacion _ _) E row (proj1 Hrow) Hid). }
  destruct Hx as [x Hx]. exists (x :: rows2). now constructor.
Qed.

(** With distinct identifiers among the rows added, null ones counted,
    the row a record finds is the row the call returned for it. *)
Lemma filas_devueltas (tbl0 nuevas rows : list Actuacion.t)
    (acts : list Datos.Actuacion) :
  NoDup (map Actuacion.id_reg_actuacion nuevas) ->
  Forall2 (fun a row =>
     Actuacion.id_reg_actuacion row = id_de a
     /\ match first_by Actuacion.id_reg_actuacion (id_de a) tbl0 with
        | Some r => row = r
        | None => In row nuevas /\ fetched fromisoformat proceso a row
        end) acts rows ->
  Forall2 (fun a row =>
     first_by Actuacion.id_reg_actuacion (id_de a) (tbl0 ++ nuevas)%list = Some row
     /\ match first_by Actuacion.id_reg_actuacion (id_de a) tbl0 with
        | Some r => row = r
        | None => In row nuevas /\ fetched fromisoformat proceso a row
        end) acts rows.
Proof.
  intros Hnd Hrows. eapply Forall2_impl; [|exact Hrows]. cbn beta.
  intros a row [Hid Hrow]. split; [|exact Hrow]. rewrite first_by_app.
  destruct (first_by Actuacion.id_reg_actuacion (id_de a) tbl0) as [r|];
    [now subst row|].
  destruct Hrow as [Hin _].
  destruct (first_by Actuacion.id_reg_actuacion (id_de a) nuevas) as [x|] eqn:E.
  - apply first_by_Some in E. destruct E as [Hx Ex]. f_equal.
    apply (NoDup_map_eq Actuacion.id_reg_actuacion nuevas); try assumption.
    congruence.
  - exfalso.
    exact (proj1 (first_by_None Actuacion.id_reg_actuacion _ _) E row Hin Hid).
Qed.

Lemma Forall2_functional (tbl : list Actuacion.t) (acts : list Datos.Actuacion)
    (l1 l2 : list Actuacion.t) :
  Forall2 (fun a row =>
     first_by Actuacion.id_reg_actuacion (id_de a) tbl = Some row) acts l1 ->
  Forall2 (fun a row =>
     first_by Actuacion.id_reg_actuacion (id_de a) tbl = Some row) acts l2 ->
  l1 = l2.
Proof.
  intro H. revert l2. induction H as [|a r acts l1 Hr _ IH]; intros l2 H2;
    inversion H2 as [|a' r' acts' l2' Hr' H2']; subst; [reflexivity|].
  f_equal; [congruence | now apply IH].
Qed.

End GuardarActuaciones.

Lemma found_rows_ids (tbl : list Actuacion.t) (acts : list Datos.Actuacion)
    (rows : list Actuacion.t) :
  Forall2 (fun a row =>
     first_by Actuacion.id_reg_actuacion (id_de a) tbl = Some row) acts rows ->
  map Actuacion.id_reg_actuacion rows = map id_de acts.
Proof.
  induction 1 as [|a row acts' rows' H _ IH]; [reflexivity|].
  cbn [map]. apply first_by_Some in H. destruct H as [_ ->]. now f_equal.
Qed.

Lemma pendientes_In (tbl : list Actuacion.t) (acts : list Datos.Actuacion)
    (a : Datos.Actuacion) :
  In a (pendientes tbl acts)
  <-> In a acts /\ first_by Actuacion.id_reg_actuacion (id_de a) tbl = None.
Proof.
  unfold pendientes. rewrite filter_In.
  destruct (first_by Actuacion.id_reg_actuacion (id_de a) tbl); split;
    intros [H1 H2]; split; congruence.
Qed.

(** Records with distinct identifiers: so are those to insert. *)
Lemma pendientes_NoDup (tbl : list Actuacion.t) (acts : list Datos.Actuacion) :
  NoDup (map id_de acts) -> NoDup (map id_de (pendientes tbl acts)).
Proof.
  induction acts as [|a acts IH]; [constructor|]. cbn [map]. intro H.
  apply NoDup_cons_iff in H. destruct H as [Ha H].
  cbn [pendientes filter]. fold (pendientes tbl acts).
  destruct (first_by Actuacion.id_reg_actuacion (id_de a) tbl); [now apply IH|].
  cbn [map]. constructor; [|now apply IH].
  intro Hin. apply Ha. apply in_map_iff in Hin. destruct Hin as [b [Eb Hb]].
  apply pendientes_In in Hb. rewrite <- Eb. apply in_map. tauto.
Qed.

(** C2, amended. On a stored process, for a list of action records in
    which no identifier that is not stored yet occurs twice and in which
    the sequence number of every record not stored yet fits a signed
    integer of 64 bits, [guardar_actuaciones] returns without raising;
    the table of actions afterwards is the table before with new rows
    after it, so no stored row changes; the returned list has one row per
    record, in the order of the records, each with that record's
    identifier: the stored row itself when the identifier was stored, and
    otherwise a new row of the table that carries the fetched fields and
    the reference to the process. A second call with the same list on the
    resulting store leaves that store as it is and returns rows with the
    same identifiers in the same order, the very same rows when the
    records not stored before had distinct identifiers, a null one
    counted; and a table without duplicated identifiers stays without
    duplicates. *)
Theorem guardar_actuaciones_distinct_ids (fromisoformat : string -> option datetime)
    (s : Store) (id_proceso_api : option string) (proceso : Proceso.t)
    (acts : list Datos.Actuacion) :
  first_by Proceso.id_proceso_api id_proceso_api (procesos s) = Some proceso ->
  NoDup (ids_pendientes (actuaciones s) acts) ->
  Forall (fun a => cabe a = true) (pendientes (actuaciones s) acts) ->
  exists nuevas rows,
    let s' := set_actuaciones (actuaciones s ++ nuevas) s in
    guardar_actuaciones fromisoformat id_proceso_api acts s = (s', Returned rows)
    /\ map Actuacion.id_reg_actuacion rows = map id_de acts
    /\ Forall2 (fun act_data row =>
          In row (actuaciones s')
          /\ match first_by Actuacion.id_reg_actuacion (id_de act_data) (actuaciones s) with
             | Some r => row = r
             | None => In row nuevas /\ fetched fromisoformat proceso act_data row
             end) acts rows
    /\ (exists rows2,
          guardar_actuaciones fromisoformat id_proceso_api acts s' = (s', Returned rows2)
          /\ map Actuacion.id_reg_actuacion rows2 = map id_de acts
          /\ (NoDup (map id_de (pendientes (actuaciones s) acts)) -> rows2 = rows))
    /\ (NoDup (ids_presentes (actuaciones s)) -> NoDup (ids_presentes (actuaciones s'))).
Proof.
  intros Hp Hnd Hcabe.
  destruct (confirmar_returns fromisoformat proceso (actuaciones s) acts (actuaciones s)
              [] (al_dia_refl _) Hnd (fun k _ H => H) Hcabe)
    as (nuevas & rows & Hc & Hrows & Hids).
  exists nuevas, rows. cbn zeta.
  destruct (filas_halladas fromisoformat proceso _ _ _ _ Hrows) as [rows2 Hfind].
  split; [|split; [|split; [|split]]].
  - unfold guardar_actuaciones, bind, query, lift, raise. rewrite Hp.
    now rewrite recorrer_eq, Hc.
  - clear -Hrows. induction Hrows as [|a row acts rows [H _] _ IH]; [reflexivity|].
    cbn [map]. now rewrite H, IH.
  - eapply Forall2_impl; [|exact Hrows]. cbn beta. intros a row [H1 H2].
    split; [|exact H2]. cbn [actuaciones set_actuaciones]. apply in_or_app.
    destruct (first_by Actuacion.id_reg_actuacion (id_de a) (actuaciones s)) as [r|] eqn:E.
    + subst row. left. now apply first_by_Some in E.
    + right. tauto.
  - exists rows2. split; [|split].
    + unfold guardar_actuaciones, bind, query, lift, raise.
      cbn [procesos actuaciones set_actuaciones]. rewrite Hp, recorrer_eq.
      cbn [procesos actuaciones set_actuaciones].
      rewrite (guardadas_existentes fromisoformat proceso _ _ _ Hfind).
      rewrite confirmar_existentes.
      now destruct s.
    + exact (found_rows_ids _ _ _ Hfind).
    + intro Hnd2. rewrite <- Hids in Hnd2.
      pose proof (filas_devueltas fromisoformat proceso _ _ _ _ Hnd2 Hrows) as Hsame.
      apply (Forall2_functional (actuaciones s ++ nuevas)%list acts); [exact Hfind|].
      eapply Forall2_impl; [|exact Hsame]. cbn beta. now intros a row [H _].
  - intro Hs. cbn [actuaciones set_actuaciones]. unfold ids_presentes.
    rewrite flat_map_app. fold (ids_presentes (actuaciones s)) (ids_presentes nuevas).
    apply NoDup_app; [assumption | | ].
    + now rewrite ids_presentes_presentes, Hids, <- ids_pendientes_presentes.
    + intros k Hk Hk'. apply ids_presentes_In in Hk.
      rewrite ids_presentes_presentes, Hids in Hk'. apply presentes_In in Hk'.
      apply in_map_iff in Hk'. destruct Hk as [r [Hr Er]], Hk' as [a [Ea Ha]].
      apply pendientes_In in Ha. destruct Ha as [_ Habs]. rewrite Ea in Habs.
      exact (proj1 (first_by_None Actuacion.id_reg_actuacion _ _) Habs r Hr Er).
Qed.

(** C2 on the example store: A1 is stored and named twice, A2 is not
    stored. *)
Lemma guardar_actuaciones_distinct_ids_witness :
  exists nuevas rows,
    guardar_actuaciones sin_isoformat (Some "P1")
      [Ejemplo.acta "A1" "Auto admite demanda"; Ejemplo.acta "A2" "Fija fecha de audiencia";
       Ejemplo.acta "A1" "Auto admite demanda"]
      Ejemplo.almacen
    = (set_actuaciones (Ejemplo.actuacion_A1 :: nuevas) Ejemplo.almacen, Returned rows)
    /\ map Actuacion.id_reg_actuacion rows = [Some "A1"; Some "A2"; Some "A1"].
Proof.
  destruct (guardar_actuaciones_distinct_ids sin_isoformat Ejemplo.almacen (Some "P1")
              Ejemplo.proceso_P1
              [Ejemplo.acta "A1" "Auto admite demanda";
               Ejemplo.acta "A2" "Fija fecha de audiencia";
               Ejemplo.acta "A1" "Auto admite demanda"] eq_refl)
    as (nuevas & rows & H1 & H2 & _).
  - constructor; [intros [] | constructor].
  - constructor; [reflexivity | constructor].
  - exists nuevas, rows. split; assumption.
Defined.

(** C2 as stated fails: a list that names the same new identifier twice.
    Neither lookup sees the other record's pending row, both are added to
    the session, and the commit is refused by the uniqueness constraint:
    the call raises, nothing is inserted and nothing is returned. *)
Lemma guardar_actuaciones_repeated_id_raises :
  guardar_actuaciones sin_isoformat (Some "P1")
    [Ejemplo.acta "A2" "Fija fecha de audiencia"; Ejemplo.acta "A2" "Fija fecha de audiencia"]
    Ejemplo.almacen
  = (Ejemplo.almacen, Raised IntegrityError).
Proof. reflexivity. Qed.

(** A new record whose sequence number does not fit the column: the
    driver refuses the INSERT, the call raises, and the store is as
    before, the record that came with it included. *)
Lemma guardar_actuaciones_sin_cabida_raises :
  guardar_actuaciones sin_isoformat (Some "P1")
    [Ejemplo.acta "A2" "Fija fecha de audiencia"; Ejemplo.acta_sin_cabida]
    Ejemplo.almacen
  = (Ejemplo.almacen, Raised OverflowError).
Proof. vm_compute. reflexivity. Qed.

(** ** The keyword classifier *)

Lemma any_in_iff (palabras : list string) (texto : string) :
  any_in palabras texto = true <-> exists w, In w palabras /\ occurs w texto.
Proof.
  unfold any_in. rewrite existsb_exists.
  split; intros [w [Hw H]]; exists w; (split; [assumption|]); now apply contains_iff.
Qed.

Lemma lower_occurs (w t : string) : occurs w t -> occurs (PyStr.lower w) (PyStr.lower t).
Proof.
  intros [pre [post ->]]. exists (PyStr.lower pre), (PyStr.lower post).
  now rewrite !lower_app.
Qed.

(** C3, amended. The keyword classifier lowers the label and looks for the
    Spanish keywords, the first group that matches deciding: a label with
    "audiencia", "citación" or "comparecencia" is Urgente / "Audiencia" /
    action required; else one with "requerimiento", "solicitud" or "plazo"
    is Alta / "Requerimiento" / action required; else one with
    "notificación", "aviso" or "comunicación" is Normal / "Notificación" /
    no action; any other label is Baja / "Trámite" / no action. In
    particular a label in which "audiencia" occurs in any mix of upper and
    lower case is classified Urgente / "Audiencia" / action required,
    whatever the other fields of the record. *)
Theorem clasificar_simulada_keywords (actuacion : Datos.Actuacion) (texto : string) :
  get_default (Datos.actuacion actuacion) "" = Some texto ->
  let hit palabras := exists w, In w palabras /\ occurs w (PyStr.lower texto) in
  (hit palabras_audiencia ->
   _clasificar_actuacion_simulada actuacion = Returned es_audiencia)
  /\ (~ hit palabras_audiencia -> hit palabras_requerimiento ->
      _clasificar_actuacion_simulada actuacion = Returned es_requerimiento)
  /\ (~ hit palabras_audiencia -> ~ hit palabras_requerimiento ->
      hit palabras_notificacion ->
      _clasificar_actuacion_simulada actuacion = Returned es_notificacion)
  /\ (~ hit palabras_audiencia -> ~ hit palabras_requerimiento ->
      ~ hit palabras_notificacion ->
      _clasificar_actuacion_simulada actuacion = Returned es_tramite)
  /\ (forall w, PyStr.lower w = "audiencia" -> occurs w texto ->
      _clasificar_actuacion_simulada actuacion
      = Returned (Datos.mkClasificacion (Val "Urgente") (Val "Audiencia") (Val true)
                    (Datos.justificacion es_audiencia)))
  /\ (Datos.nivel_urgencia es_requerimiento = Val "Alta"
      /\ Datos.tipo_actuacion es_requerimiento = Val "Requerimiento"
      /\ Datos.requiere_accion es_requerimiento = Val true)
  /\ (Datos.nivel_urgencia es_notificacion = Val "Normal"
      /\ Datos.tipo_actuacion es_notificacion = Val ("Notificaci" ++ PyStr.o_acute ++ "n")
      /\ Datos.requiere_accion es_notificacion = Val false)
  /\ (Datos.nivel_urgencia es_tramite = Val "Baja"
      /\ Datos.tipo_actuacion es_tramite = Val ("Tr" ++ PyStr.a_acute ++ "mite")
      /\ Datos.requiere_accion es_tramite = Val false).
Proof.
  intros Ht hit. unfold _clasificar_actuacion_simulada. rewrite Ht.
  assert (Hyes : forall ps, hit ps -> any_in ps (PyStr.lower texto) = true).
  { intros ps H. now apply any_in_iff. }
  assert (Hno : forall ps, ~ hit ps -> any_in ps (PyStr.lower texto) = false).
  { intros ps H. apply not_true_is_false. intro E. apply H. now apply any_in_iff. }
  repeat split.
  - intro H. now rewrite (Hyes _ H).
  - intros H1 H2. now rewrite (Hno _ H1), (Hyes _ H2).
  - intros H1 H2 H3. now rewrite (Hno _ H1), (Hno _ H2), (Hyes _ H3).
  - intros H1 H2 H3. now rewrite (Hno _ H1), (Hno _ H2), (Hno _ H3).
  - intros w Hw Hocc. rewrite Hyes; [reflexivity|].
    exists "audiencia". split; [now left|]. rewrite <- Hw. now apply lower_occurs.
Qed.

(** C3 on a label in capitals. *)
Lemma clasificar_simulada_keywords_witness :
  _clasificar_actuacion_simulada (Ejemplo.acta_con_texto (Val "FIJA FECHA AUDIENCIA INICIAL"))
  = Returned (Datos.mkClasificacion (Val "Urgente") (Val "Audiencia") (Val true)
                (Datos.justificacion es_audiencia)).
Proof.
  refine (proj1 (proj2 (proj2 (proj2 (proj2
            (clasificar_simulada_keywords
               (Ejemplo.acta_con_texto (Val "FIJA FECHA AUDIENCIA INICIAL"))
               "FIJA FECHA AUDIENCIA INICIAL" eq_refl))))) "AUDIENCIA" eq_refl _).
  exists "FIJA FECHA ", " INICIAL". reflexivity.
Defined.

(** C3 as stated fails: the label below contains "hearing", and the
    classifier, which knows the Spanish keywords only, answers
    Baja / "Trámite" / no action. *)
Lemma clasificar_simulada_hearing_is_tramite :
  PyStr.contains "hearing" (PyStr.lower "Hearing of the parties") = true
  /\ _clasificar_actuacion_simulada (Ejemplo.acta_con_texto (Val "Hearing of the parties"))
     = Returned (Datos.mkClasificacion (Val "Baja") (Val ("Tr" ++ PyStr.a_acute ++ "mite"))
                   (Val false) (Datos.justificacion es_tramite)).
Proof. split; reflexivity. Qed.

(** C8 fails on the code: a record whose label is [None]. The default of
    [get] applies to a missing key only, [None.lower()] raises
    [AttributeError], and the service as the application builds it always
    takes this path. *)
Theorem clasificar_actuacion_null_label_raises
    (json_loads : string -> option Datos.Clasificacion) (respuesta : outcome string) :
  clasificar_actuacion json_loads ai_service respuesta (Ejemplo.acta_con_texto Null)
  = Raised AttributeError.
Proof. reflexivity. Qed.

(** What does hold: the keyword classifier returns one of its four
    answers on every record whose label is missing or a string. *)
Lemma clasificar_simulada_returns (actuacion : Datos.Actuacion) :
  Datos.actuacion actuacion <> Null ->
  exists c, _clasificar_actuacion_simulada actuacion = Returned c
            /\ In c [es_audiencia; es_requerimiento; es_notificacion; es_tramite].
Proof.
  intro H. unfold _clasificar_actuacion_simulada.
  destruct (Datos.actuacion actuacion) as [| |t]; [|congruence|]; cbn [get_default];
    repeat match goal with
           | |- context [if ?b then _ else _] => destruct b
           end;
    eexists; (split; [reflexivity|]); cbn; auto.
Qed.

(** The model-backed path returns on every record and every reply: the
    decoded object, or the fixed answer Normal / "No clasificada". *)
Lemma clasificar_modelo_returns (json_loads : string -> option Datos.Clasificacion)
    (self : AIGenerativeService.t) (respuesta : outcome string)
    (actuacion : Datos.Actuacion) :
  use_simulation self = false ->
  exists c, clasificar_actuacion json_loads self respuesta actuacion = Returned c
            /\ (c = no_clasificada \/ exists texto, json_loads texto = Some c).
Proof.
  intro H. unfold clasificar_actuacion, extraer_json. rewrite H.
  destruct respuesta as [texto|e]; [|eauto].
  destruct (find_char "{" texto) as [i|]; [|eauto].
  destruct (Nat.ltb _ _); [|eauto].
  destruct (json_loads _) eqn:E; eauto.
Qed.

(** ** The registry client *)

(** C5, amended. A search by party name whose upstream failure text
    contains "Hay más de mil registros con los criterios especificados"
    raises the distinguished error that asks for an office code or a more
    specific name, in place of the generic one: so when that sentence is
    in the [Message] of an HTTP error body, whatever the status text, and
    when it is in the text of a transport failure. The decision reads the
    text of the error only; a failure whose text lacks the sentence is
    raised as [_make_request] raised it, and a reply is returned. The two
    errors differ. *)
Theorem consultar_por_razon_social_too_broad (J : Type) :
  (forall text message,
     occurs demasiados_registros message ->
     consultar_por_razon_social (J := J) (HTTPError text (Some message))
     = Raised consulta_demasiado_general)
  /\ (forall text,
        occurs demasiados_registros text ->
        consultar_por_razon_social (J := J) (RequestException text)
        = Raised consulta_demasiado_general)
  /\ (forall respuesta e,
        _make_request (J := J) respuesta = Raised e ->
        ~ occurs demasiados_registros (str_exn e) ->
        consultar_por_razon_social respuesta = Raised e)
  /\ (forall body : J, consultar_por_razon_social (Reply body) = Returned body)
  /\ (forall respuesta : upstream J,
        _make_request respuesta <> Raised consulta_demasiado_general).
Proof.
  repeat split.
  - intros text message H. unfold consultar_por_razon_social, _make_request.
    cbn [str_exn]. replace (PyStr.contains _ _) with true; [reflexivity|].
    symmetry. apply contains_iff. now repeat apply occurs_after.
  - intros text H. unfold consultar_por_razon_social, _make_request.
    cbn [str_exn]. replace (PyStr.contains _ _) with true; [reflexivity|].
    symmetry. apply contains_iff. now apply occurs_after.
  - intros respuesta e He Hno. unfold consultar_por_razon_social. rewrite He.
    replace (PyStr.contains _ _) with false; [reflexivity|].
    symmetry. apply not_true_is_false. intro E. apply Hno. now apply contains_iff.
  - intros [body|text [m|]|text]; cbn; discriminate.
Qed.

(** C5 on an HTTP 400 whose body carries the registry's sentence. *)
Lemma consultar_por_razon_social_too_broad_witness :
  consultar_por_razon_social (J := list Datos.Proceso)
    (HTTPError "400 Client Error: Bad Request"
       (Some (demasiados_registros ++ ". Refine la consulta.")))
  = Raised consulta_demasiado_general.
Proof.
  apply (proj1 (consultar_por_razon_social_too_broad (list Datos.Proceso))).
  exists "", ". Refine la consulta.". reflexivity.
Defined.

(** C5 as stated fails: the message below contains "Hay más de mil
    registros", not the whole sentence the client looks for, and the
    search raises the generic error with that message in it. *)
Lemma consultar_por_razon_social_short_message_generic :
  PyStr.contains ("Hay m" ++ PyStr.a_acute ++ "s de mil registros") Ejemplo.mensaje_corto = true
  /\ consultar_por_razon_social (J := list Datos.Proceso)
       (HTTPError "400 Client Error: Bad Request" (Some Ejemplo.mensaje_corto))
     = Raised (Exception ("Error en la consulta a la API: 400 Client Error: Bad Request - "
                            ++ Ejemplo.mensaje_corto))
  /\ Exception ("Error en la consulta a la API: 400 Client Error: Bad Request - "
                  ++ Ejemplo.mensaje_corto)
     <> consulta_demasiado_general.
Proof. repeat split. discriminate. Qed.

(** ** The template summary *)

Lemma rev_app (a b : string) : PyStr.rev (a ++ b) = PyStr.rev b ++ PyStr.rev a.
Proof.
  induction a as [|c a IH]; cbn [append PyStr.rev].
  - now rewrite append_empty_r.
  - now rewrite IH, append_assoc.
Qed.

Lemma rev_involutive (a : string) : PyStr.rev (PyStr.rev a) = a.
Proof.
  induction a as [|c a IH]; [reflexivity|]. cbn [PyStr.rev].
  now rewrite rev_app, IH.
Qed.

Lemma lstrip_app (x y : string) :
  PyStr.lstrip x <> "" -> PyStr.lstrip (x ++ y) = PyStr.lstrip x ++ y.
Proof.
  induction x as [|c x IH]; cbn [PyStr.lstrip append]; [congruence|].
  destruct (PyStr.is_space c); [exact IH | reflexivity].
Qed.

Lemma rstrip_app (x y : string) :
  PyStr.rstrip y <> "" -> PyStr.rstrip (x ++ y) = x ++ PyStr.rstrip y.
Proof.
  unfold PyStr.rstrip. intro H. rewrite rev_app, lstrip_app.
  - now rewrite rev_app, rev_involutive.
  - intro E. apply H. now rewrite E.
Qed.

Lemma strip_plantilla (radicado despacho demandantes demandados : string) :
  PyStr.strip (plantilla radicado despacho demandantes demandados)
  = resumen radicado despacho demandantes demandados.
Proof.
  unfold PyStr.strip, plantilla, resumen.
  set (p1 := parrafo_1 radicado despacho demandantes demandados).
  assert (H1 : forall x, PyStr.lstrip (nl ++ sangria ++ p1 ++ x) = p1 ++ x) by reflexivity.
  rewrite H1.
  set (fin := parrafo_3 ++ nl ++ sangria).
  assert (H3 : PyStr.rstrip fin = parrafo_3) by (vm_compute; reflexivity).
  rewrite <- !append_assoc. rewrite rstrip_app.
  - rewrite H3. now rewrite !append_assoc.
  - rewrite H3. discriminate.
Qed.

(** C9, amended. The template summary puts the registration key, the
    office and the claimant and respondent names, each list joined by
    ", ", into the first of three fixed paragraphs; a key the detail
    record lacks reads "No especificado"; the other two paragraphs are
    constant. The list of actions is not read: the summary is the same for
    every list. It is returned for every detail record in which none of
    the four keys is bound to null. *)
Theorem generar_resumen_simulado_template (detalle_proceso : Datos.Detalle)
    (actuaciones : list Datos.Actuacion) :
  Datos.d_llaveProceso detalle_proceso <> Null ->
  Datos.d_despacho detalle_proceso <> Null ->
  Datos.demandantes detalle_proceso <> Null ->
  Datos.demandados detalle_proceso <> Null ->
  let texto (f : field string) :=
    match f with Val s => s | Missing | Null => "No especificado" end in
  let nombres (f : field (list string)) :=
    match f with Val l => PyStr.join ", " l | Missing | Null => "No especificado" end in
  _generar_resumen_simulado detalle_proceso actuaciones
  = Returned (resumen (texto (Datos.d_llaveProceso detalle_proceso))
                (texto (Datos.d_despacho detalle_proceso))
                (nombres (Datos.demandantes detalle_proceso))
                (nombres (Datos.demandados detalle_proceso)))
  /\ _generar_resumen_simulado detalle_proceso actuaciones
     = _generar_resumen_simulado detalle_proceso [].
Proof.
  intros H1 H2 H3 H4 texto nombres. split; [|reflexivity].
  unfold _generar_resumen_simulado, unir_nombres.
  destruct (Datos.d_llaveProceso detalle_proceso) as [| |k]; [|congruence|];
    destruct (Datos.d_despacho detalle_proceso) as [| |o]; try congruence;
    destruct (Datos.demandantes detalle_proceso) as [| |l1]; try congruence;
    destruct (Datos.demandados detalle_proceso) as [| |l2]; try congruence;
    cbn [get_default format_str]; now rewrite strip_plantilla.
Qed.

(** C9 on a detail record without office and respondents. *)
Lemma generar_resumen_simulado_template_witness :
  _generar_resumen_simulado Ejemplo.detalle_ejemplo [Ejemplo.acta "A2" "Sentencia"]
  = Returned (resumen "11001400300320230051800" "No especificado" "ACME, BETA"
                "No especificado").
Proof.
  refine (proj1 (generar_resumen_simulado_template Ejemplo.detalle_ejemplo
                   [Ejemplo.acta "A2" "Sentencia"] _ _ _ _)); discriminate.
Defined.

(** C9 as stated fails: the record below has one action, and neither its
    label nor its date is in the summary, which is the summary of the
    same record with no action at all. *)
Lemma generar_resumen_simulado_ignores_actions :
  exists texto,
    _generar_resumen_simulado Ejemplo.detalle_ejemplo
      [Ejemplo.acta "A2" "Sentencia de primera instancia"] = Returned texto
    /\ PyStr.contains "Sentencia de primera instancia" texto = false
    /\ PyStr.contains "2024-02-01" texto = false
    /\ _generar_resumen_simulado Ejemplo.detalle_ejemplo [] = Returned texto.
Proof.
  exists (resumen "11001400300320230051800" "No especificado" "ACME, BETA"
            "No especificado").
  repeat split; vm_compute; reflexivity.
Qed.

(** Outside the domain of C9: a detail record whose claimant entry is
    null makes the join raise. *)
Lemma generar_resumen_simulado_null_names (detalle_proceso : Datos.Detalle)
    (actuaciones : list Datos.Actuacion) :
  Datos.demandantes detalle_proceso = Null ->
  _generar_resumen_simulado detalle_proceso actuaciones = Raised TypeError.
Proof.
  intro H. unfold _generar_resumen_simulado, unir_nombres. now rewrite H.
Qed.

(** * Further properties of the services *)

(** ** Tables under [UPDATE] *)

Section Updates.

Context {T : Type}.
Variable col : T -> option string.
Variable id : T -> option Z.

(** The row a lookup finds is, after its update, what the same lookup
    finds. *)
Lemma first_by_update_row (v : option string) (tbl : list T) (p p' : T) :
  first_by col v tbl = Some p -> col p' = v -> id p' = id p ->
  first_by col v (update_row id p' tbl) = Some p'.
Proof.
  intros Hp Hc Hi. unfold first_by, update_row in *.
  induction tbl as [|x tbl IH]; [discriminate|]. cbn [map find] in *.
  destruct (eq_str (col x) v) eqn:E.
  - injection Hp as ->. rewrite Hi, (proj2 (eq_id_iff _ _) eq_refl).
    now rewrite <- Hc, eq_str_refl.
  - destruct (eq_id (id x) (id p')).
    + now rewrite <- Hc, eq_str_refl.
    + rewrite E. now apply IH.
Qed.

(** A value no row held is found on the updated row. *)
Lemma first_by_update_row_new (v : option string) (tbl : list T) (p p' : T) :
  first_by col v tbl = None -> In p tbl -> col p' = v -> id p' = id p ->
  first_by col v (update_row id p' tbl) = Some p'.
Proof.
  intros Hn Hin Hc Hi. unfold first_by, update_row in *.
  induction tbl as [|x tbl IH]; [contradiction|]. cbn [map find] in *.
  destruct (eq_str (col x) v) eqn:E; [discriminate|].
  destruct (eq_id (id x) (id p')) eqn:Ex.
  - now rewrite <- Hc, eq_str_refl.
  - rewrite E. destruct Hin as [->|Hin]; [|now apply IH].
    rewrite Hi, (proj2 (eq_id_iff _ _) eq_refl) in Ex. discriminate.
Qed.

(** A lookup for a value that neither the updated row nor the row it
    replaces carries is not affected. *)
Lemma first_by_update_row_other (v : option string) (tbl : list T) (p' : T) :
  col p' <> v ->
  (forall r, In r tbl -> id r = id p' -> col r <> v) ->
  first_by col v (update_row id p' tbl) = first_by col v tbl.
Proof.
  intros Hc Hr. unfold first_by, update_row.
  induction tbl as [|x tbl IH]; [reflexivity|]. cbn [map find].
  rewrite IH by (intros r Hin; apply Hr; now right).
  destruct (eq_id (id x) (id p')) eqn:Ex; [|reflexivity].
  apply eq_id_iff in Ex.
  assert (E1 : eq_str (col p') v = false).
  { apply not_true_is_false. now rewrite eq_str_iff. }
  assert (E2 : eq_str (col x) v = false).
  { apply not_true_is_false. rewrite eq_str_iff. apply Hr; [now left | assumption]. }
  now rewrite E1, E2.
Qed.

Lemma update_row_twice (p q : T) (tbl : list T) :
  id p = id q -> update_row id q (update_row id p tbl) = update_row id q tbl.
Proof.
  intro E. unfold update_row. rewrite map_map. apply map_ext. intro r.
  rewrite E. destruct (eq_id (id r) (id q)) eqn:Er; [|now rewrite Er].
  now rewrite E, (proj2 (eq_id_iff _ _) eq_refl).
Qed.

(** With distinct keys, an update touches the one row of its key. *)
Lemma update_row_NoDup (p p' : T) (tbl : list T) :
  NoDup (map id tbl) -> In p tbl -> id p' = id p ->
  forall r, In r tbl -> r <> p -> In r (update_row id p' tbl).
Proof.
  intros Hnd Hp Hi r Hr Hne. unfold update_row. apply in_map_iff. exists r.
  split; [|assumption].
  destruct (eq_id (id r) (id p')) eqn:E; [|reflexivity].
  apply eq_id_iff in E. rewrite Hi in E. exfalso. apply Hne. clear Hi p'.
  induction tbl as [|x tbl IH]; [contradiction|]. cbn [map] in Hnd.
  apply NoDup_cons_iff in Hnd. destruct Hnd as [Hx Hnd].
  destruct Hr as [->|Hr], Hp as [->|Hp]; auto.
  - exfalso. apply Hx. rewrite E. now apply in_map.
  - exfalso. apply Hx. rewrite <- E. now apply in_map.
Qed.

Lemma update_row_ids (p' : T) (tbl : list T) :
  map id (update_row id p' tbl) = map id tbl.
Proof.
  unfold update_row. rewrite map_map. apply map_ext_in. intros r _.
  destruct (eq_id (id r) (id p')) eqn:E; [|reflexivity].
  apply eq_id_iff in E. now rewrite E.
Qed.

End Updates.

(** ** [guardar_empresa] *)

(** X1. [guardar_empresa] is idempotent: once a call has returned a
    party, the same hint on the store it left returns that party again
    and writes nothing, whatever the clock; this covers the party found
    by nit, found by name, completed with the nit, and created. *)
Theorem guardar_empresa_idempotent (datos_empresa : Datos.Empresa)
    (now now' : datetime) (s s1 : Store) (e : Empresa.t) :
  guardar_empresa datos_empresa now s = (s1, Returned e) ->
  guardar_empresa datos_empresa now' s1 = (s1, Returned e).
Proof.
  unfold guardar_empresa, bind, query, ret.
  set (nit := get (Datos.nit datos_empresa)).
  set (nombre := get (Datos.nombre datos_empresa)).
  destruct (truthy_str nit) eqn:Ht.
  - destruct (first_by Empresa.nit nit (empresas s)) as [e0|] eqn:E1.
    + intro H. injection H as <- <-. now rewrite E1.
    + destruct (first_by Empresa.nombre nombre (empresas s)) as [e0|] eqn:E2.
      * cbn [andb]. destruct (negb (truthy_str (Empresa.nit e0))) eqn:Hn.
        -- unfold update_nit. destruct (unique_ok _ _ _); [|discriminate].
           intro H. injection H as <- <-. cbn [empresas set_empresas].
           destruct (first_by_Some _ _ _ _ E2) as [Hin _].
           now rewrite (first_by_update_row_new Empresa.nit Empresa.id nit _ e0
                          (Empresa.set_nit nit e0) E1 Hin eq_refl eq_refl).
        -- intro H. injection H as <- <-. now rewrite E1, E2, Hn.
      * unfold insert_empresa. cbn [Empresa.nit].
        destruct (unique_ok _ _ _); [|discriminate].
        intro H. injection H as <- <-. cbn [empresas set_empresas].
        rewrite first_by_app, E1. unfold first_by. cbn [find Empresa.nit].
        now rewrite eq_str_refl.
  - destruct (first_by Empresa.nombre nombre (empresas s)) as [e0|] eqn:E2.
    + cbn [andb]. intro H. injection H as <- <-. now rewrite E2.
    + unfold insert_empresa. cbn [Empresa.nit andb].
      destruct (unique_ok _ _ _); [|discriminate].
      intro H. injection H as <- <-. cbn [empresas set_empresas].
      rewrite first_by_app, E2. unfold first_by. cbn [find Empresa.nombre].
      now rewrite eq_str_refl.
Qed.

(** X1 on the example store: a hint for a party not stored yet. *)
Lemma guardar_empresa_idempotent_witness :
  let s1 := fst (guardar_empresa Ejemplo.pista_beta (midnight 2024 3 1) Ejemplo.almacen) in
  List.length (empresas s1) = 2%nat
  /\ exists e, guardar_empresa Ejemplo.pista_beta (midnight 2024 3 2) s1 = (s1, Returned e).
Proof.
  split; [reflexivity|]. eexists.
  apply (guardar_empresa_idempotent Ejemplo.pista_beta (midnight 2024 3 1)
           (midnight 2024 3 2) Ejemplo.almacen).
  reflexivity.
Defined.

(** X2. With distinct primary keys in the table of parties, a call of
    [guardar_empresa], returning or not, leaves every stored party as it
    is, except that the party found by name whose nit is empty receives
    the nit of the hint; at most one row is added, and the primary keys
    stay distinct. A nit that is stored is never replaced. *)
Theorem guardar_empresa_keeps_stored_parties (datos_empresa : Datos.Empresa)
    (now : datetime) (s s1 : Store) (o : outcome Empresa.t) :
  NoDup (map Empresa.id (empresas s)) ->
  guardar_empresa datos_empresa now s = (s1, o) ->
  (forall r, In r (empresas s) ->
     In r (empresas s1)
     \/ (truthy_str (Empresa.nit r) = false
         /\ truthy_str (get (Datos.nit datos_empresa)) = true
         /\ Empresa.nombre r = get (Datos.nombre datos_empresa)
         /\ In (Empresa.set_nit (get (Datos.nit datos_empresa)) r) (empresas s1)))
  /\ (List.length (empresas s1) <= S (List.length (empresas s)))%nat
  /\ NoDup (map Empresa.id (empresas s1)).
Proof.
  intro Hnd. unfold guardar_empresa, bind, query, ret.
  set (nit := get (Datos.nit datos_empresa)).
  set (nombre := get (Datos.nombre datos_empresa)).
  assert (Hsame : forall o', (s, o') = (s1, o) ->
            (forall r, In r (empresas s) ->
               In r (empresas s1)
               \/ (truthy_str (Empresa.nit r) = false /\ truthy_str nit = true
                   /\ Empresa.nombre r = nombre
                   /\ In (Empresa.set_nit nit r) (empresas s1)))
            /\ (List.length (empresas s1) <= S (List.length (empresas s)))%nat
            /\ NoDup (map Empresa.id (empresas s1))).
  { intros o' H. injection H as <- _. repeat split; auto. }
  assert (Hins : forall e0, insert_empresa e0 now s = (s1, o) ->
            (forall r, In r (empresas s) ->
               In r (empresas s1)
               \/ (truthy_str (Empresa.nit r) = false /\ truthy_str nit = true
                   /\ Empresa.nombre r = nombre
                   /\ In (Empresa.set_nit nit r) (empresas s1)))
            /\ (List.length (empresas s1) <= S (List.length (empresas s)))%nat
            /\ NoDup (map Empresa.id (empresas s1))).
  { intros e0. unfold insert_empresa.
    destruct (unique_ok _ _ _); [|apply Hsame].
    intro H. injection H as <- _. cbn [empresas set_empresas]. repeat split.
    - intros r Hr. left. apply in_or_app. now left.
    - rewrite length_app. cbn. lia.
    - rewrite map_app. cbn [map Empresa.id]. apply NoDup_app; [assumption | | ].
      + constructor; [intros [] | constructor].
      + intros k Hk [<-|[]]. apply in_map_iff in Hk. destruct Hk as [r [Er Hr]].
        pose proof (next_id_fresh Empresa.id _ r Hr) as Hf.
        rewrite Er, (proj2 (eq_id_iff _ _) eq_refl) in Hf. discriminate. }
  destruct (if truthy_str nit then first_by Empresa.nit nit (empresas s) else None)
    as [e0|]; [apply Hsame|].
  destruct (first_by Empresa.nombre nombre (empresas s)) as [e0|] eqn:E2;
    [|apply Hins].
  destruct (truthy_str nit) eqn:Ht; cbn [andb]; [|apply Hsame].
  destruct (negb (truthy_str (Empresa.nit e0))) eqn:Hn; [|apply Hsame].
  apply negb_true_iff in Hn. unfold update_nit.
  destruct (unique_ok _ _ _); [|apply Hsame].
  intro H. injection H as <- _. cbn [empresas set_empresas].
  destruct (first_by_Some _ _ _ _ E2) as [Hin Hname]. repeat split.
  - intros r Hr. destruct (eq_id (Empresa.id r) (Empresa.id e0)) eqn:Er.
    + right. apply eq_id_iff in Er.
      assert (r = e0) as ->.
      { clear -Hnd Hr Hin Er. induction (empresas s) as [|x tbl IH]; [contradiction|].
        cbn [map] in Hnd. apply NoDup_cons_iff in Hnd. destruct Hnd as [Hx Hnd].
        destruct Hr as [->|Hr], Hin as [->|Hin]; auto.
        - exfalso. apply Hx. rewrite Er. now apply in_map.
        - exfalso. apply Hx. rewrite <- Er. now apply in_map. }
      repeat split; try assumption.
      apply (update_row_hit Empresa.id _ e0); [assumption | reflexivity].
    + left. apply (update_row_NoDup Empresa.id e0 (Empresa.set_nit nit e0) _ Hnd Hin eq_refl r Hr).
      intros ->. rewrite (proj2 (eq_id_iff _ _) eq_refl) in Er. discriminate.
  - rewrite update_row_length. lia.
  - now rewrite update_row_ids.
Qed.

(** X2 on the example store: the stored party has no nit and receives the
    one of the hint. *)
Lemma guardar_empresa_keeps_stored_parties_witness :
  let s1 := fst (guardar_empresa Ejemplo.pista_acme_nit (midnight 2024 3 1) Ejemplo.almacen) in
  empresas s1 = [Empresa.set_nit (Some "900555") Ejemplo.acme]
  /\ NoDup (map Empresa.id (empresas s1)).
Proof.
  split; [reflexivity|].
  refine (proj2 (proj2 (guardar_empresa_keeps_stored_parties Ejemplo.pista_acme_nit
                          (midnight 2024 3 1) Ejemplo.almacen _ _ _ _))).
  - constructor; [intros [] | constructor].
  - apply surjective_pairing.
Defined.

(** ** [guardar_resumen_proceso] *)

(** X3. [guardar_resumen_proceso] on an identifier that is not stored
    returns [None] and leaves the store as it is. On a stored one it
    returns the row with the summary replaced and every other column as
    it was; the same lookup then finds that row; the table of processes
    keeps its length and the other tables are the ones before. *)
Theorem guardar_resumen_proceso_read_back (s : Store) (id_proceso_api : option string)
    (resumen' : string) :
  match first_by Proceso.id_proceso_api id_proceso_api (procesos s) with
  | None => guardar_resumen_proceso id_proceso_api resumen' s = (s, Returned None)
  | Some p =>
      exists s1 p1,
        guardar_resumen_proceso id_proceso_api resumen' s = (s1, Returned (Some p1))
        /\ first_by Proceso.id_proceso_api id_proceso_api (procesos s1) = Some p1
        /\ Proceso.resumen_generado p1 = Some resumen'
        /\ Proceso.set_resumen_generado (Proceso.resumen_generado p) p1 = p
        /\ List.length (procesos s1) = List.length (procesos s)
        /\ (forall r, In r (procesos s1) -> r = p1 \/ In r (procesos s))
        /\ empresas s1 = empresas s
        /\ actuaciones s1 = actuaciones s
        /\ documentos s1 = documentos s
  end.
Proof.
  unfold guardar_resumen_proceso, bind, query, ret, update_proceso.
  destruct (first_by Proceso.id_proceso_api id_proceso_api (procesos s)) as [p|] eqn:Hp;
    [|reflexivity].
  destruct (first_by_Some _ _ _ _ Hp) as [Hin Hk].
  eexists _, _. split; [reflexivity|]. cbn [procesos set_procesos]. repeat split.
  - apply (first_by_update_row Proceso.id_proceso_api Proceso.id _ _ p); auto.
  - now destruct p.
  - apply update_row_length.
  - intro r. apply update_row_In.
Qed.

(** What the three writers of one row do on a stored identifier. *)
Lemma guardar_detalle_proceso_found (s : Store) (id_proceso_api : option string)
    (detalle : Datos.Detalle) (p : Proceso.t) :
  first_by Proceso.id_proceso_api id_proceso_api (procesos s) = Some p ->
  guardar_detalle_proceso id_proceso_api detalle s
  = (con_proceso (con_detalle detalle p) s, Returned (Some (con_detalle detalle p))).
Proof.
  intro Hp. unfold guardar_detalle_proceso, bind, query, ret, update_proceso.
  now rewrite Hp.
Qed.

Lemma guardar_resumen_proceso_found (s : Store) (id_proceso_api : option string)
    (resumen' : string) (p : Proceso.t) :
  first_by Proceso.id_proceso_api id_proceso_api (procesos s) = Some p ->
  guardar_resumen_proceso id_proceso_api resumen' s
  = (con_proceso (Proceso.set_resumen_generado (Some resumen') p) s,
     Returned (Some (Proceso.set_resumen_generado (Some resumen') p))).
Proof.
  intro Hp. unfold guardar_resumen_proceso, bind, query, ret, update_proceso.
  now rewrite Hp.
Qed.

Lemma guardar_clasificacion_actuacion_found (s : Store)
    (id_reg_actuacion : option string) (clasificacion : Datos.Clasificacion)
    (a : Actuacion.t) :
  first_by Actuacion.id_reg_actuacion id_reg_actuacion (actuaciones s) = Some a ->
  guardar_clasificacion_actuacion id_reg_actuacion clasificacion s
  = (con_actuacion (con_clasificacion clasificacion a) s,
     Returned (Some (con_clasificacion clasificacion a))).
Proof.
  intro Hp. unfold guardar_clasificacion_actuacion, bind, query, ret, update_actuacion.
  now rewrite Hp.
Qed.

Lemma guardar_detalle_proceso_absent (s : Store) (id_proceso_api : option string)
    (detalle : Datos.Detalle) :
  first_by Proceso.id_proceso_api id_proceso_api (procesos s) = None ->
  guardar_detalle_proceso id_proceso_api detalle s = (s, Returned None).
Proof.
  intro Hp. unfold guardar_detalle_proceso, bind, query, ret. now rewrite Hp.
Qed.

Lemma guardar_resumen_proceso_absent (s : Store) (id_proceso_api : option string)
    (resumen' : string) :
  first_by Proceso.id_proceso_api id_proceso_api (procesos s) = None ->
  guardar_resumen_proceso id_proceso_api resumen' s = (s, Returned None).
Proof.
  intro Hp. unfold guardar_resumen_proceso, bind, query, ret. now rewrite Hp.
Qed.

Lemma guardar_clasificacion_actuacion_absent (s : Store)
    (id_reg_actuacion : option string) (clasificacion : Datos.Clasificacion) :
  first_by Actuacion.id_reg_actuacion id_reg_actuacion (actuaciones s) = None ->
  guardar_clasificacion_actuacion id_reg_actuacion clasificacion s = (s, Returned None).
Proof.
  intro Hp. unfold guardar_clasificacion_actuacion, bind, query, ret. now rewrite Hp.
Qed.

Lemma con_detalle_keys (detalle : Datos.Detalle) (p : Proceso.t) :
  Proceso.id (con_detalle detalle p) = Proceso.id p
  /\ Proceso.id_proceso_api (con_detalle detalle p) = Proceso.id_proceso_api p.
Proof.
  unfold con_detalle.
  now destruct (has_key (Datos.demandantes detalle)), (has_key (Datos.demandados detalle)).
Qed.

Lemma con_detalle_resumen (detalle : Datos.Detalle) (v : option string) (p : Proceso.t) :
  con_detalle detalle (Proceso.set_resumen_generado v p)
  = Proceso.set_resumen_generado v (con_detalle detalle p).
Proof.
  unfold con_detalle.
  now destruct (has_key (Datos.demandantes detalle)), (has_key (Datos.demandados detalle)).
Qed.

(** X4. [guardar_detalle_proceso] and [guardar_resumen_proceso] on the
    same identifier commute: in either order the store that results is the
    same, so neither write undoes the other. *)
Theorem guardar_detalle_resumen_commute (s : Store) (id_proceso_api : option string)
    (detalle : Datos.Detalle) (resumen' : string) :
  fst (guardar_resumen_proceso id_proceso_api resumen'
         (fst (guardar_detalle_proceso id_proceso_api detalle s)))
  = fst (guardar_detalle_proceso id_proceso_api detalle
           (fst (guardar_resumen_proceso id_proceso_api resumen' s))).
Proof.
  destruct (first_by Proceso.id_proceso_api id_proceso_api (procesos s)) as [p|] eqn:Hp.
  - destruct (first_by_Some _ _ _ _ Hp) as [Hin Hk].
    destruct (con_detalle_keys detalle p) as [Hid Hapi].
    rewrite (guardar_detalle_proceso_found s _ detalle p Hp),
            (guardar_resumen_proceso_found s _ resumen' p Hp).
    cbn [fst].
    rewrite (guardar_resumen_proceso_found _ _ resumen' (con_detalle detalle p)).
    2: { apply (first_by_update_row Proceso.id_proceso_api Proceso.id _ _ p);
           [assumption | now rewrite Hapi | assumption]. }
    rewrite (guardar_detalle_proceso_found _ _ detalle
               (Proceso.set_resumen_generado (Some resumen') p)).
    2: { apply (first_by_update_row Proceso.id_proceso_api Proceso.id _ _ p);
           [assumption | assumption | reflexivity]. }
    cbn [fst]. unfold con_proceso. cbn [procesos set_procesos].
    rewrite con_detalle_resumen.
    rewrite !update_row_twice; [reflexivity | | ]; cbn; now rewrite ?Hid.
  - rewrite (guardar_detalle_proceso_absent s _ detalle Hp),
            (guardar_resumen_proceso_absent s _ resumen' Hp).
    cbn [fst].
    now rewrite (guardar_detalle_proceso_absent s _ detalle Hp),
                (guardar_resumen_proceso_absent s _ resumen' Hp).
Qed.

(** ** [guardar_actuaciones], [guardar_clasificacion_actuacion] and the
    listing of a process *)

(** [guardar_actuaciones] on a stored process and records with distinct
    identifiers: the table grows by new rows, one per record that was
    not stored. *)
Lemma guardar_actuaciones_appends (fromisoformat : string -> option datetime)
    (s : Store) (id_proceso_api : option string) (proceso : Proceso.t)
    (acts : list Datos.Actuacion) :
  first_by Proceso.id_proceso_api id_proceso_api (procesos s) = Some proceso ->
  NoDup (map id_de acts) ->
  Forall (fun a => cabe a = true) (pendientes (actuaciones s) acts) ->
  exists nuevas rows,
    guardar_actuaciones fromisoformat id_proceso_api acts s
    = (set_actuaciones (actuaciones s ++ nuevas) s, Returned rows)
    /\ Forall2 (fun a row =>
          first_by Actuacion.id_reg_actuacion (id_de a) (actuaciones s ++ nuevas)%list
          = Some row
          /\ match first_by Actuacion.id_reg_actuacion (id_de a) (actuaciones s) with
             | Some r => row = r
             | None => In row nuevas /\ fetched fromisoformat proceso a row
             end) acts rows
    /\ Forall (fun r =>
          In (Actuacion.id_reg_actuacion r) (map id_de acts)
          /\ first_by Actuacion.id_reg_actuacion (Actuacion.id_reg_actuacion r)
               (actuaciones s) = None) nuevas
    /\ NoDup (map Actuacion.id_reg_actuacion nuevas).
Proof.
  intros Hp Hnd Hcabe.
  assert (Hnd1 : NoDup (map id_de (pendientes (actuaciones s) acts)))
    by now apply pendientes_NoDup.
  assert (Hnd2 : NoDup (ids_pendientes (actuaciones s) acts))
    by (rewrite ids_pendientes_presentes; now apply presentes_NoDup).
  destruct (confirmar_returns fromisoformat proceso (actuaciones s) acts (actuaciones s)
              [] (al_dia_refl _) Hnd2 (fun k _ H => H) Hcabe)
    as (nuevas & rows & Hc & Hrows & Hids).
  rewrite <- Hids in Hnd1.
  exists nuevas, rows. split; [|split; [|split]].
  - unfold guardar_actuaciones, bind, query, lift, raise. rewrite Hp.
    now rewrite recorrer_eq, Hc.
  - exact (filas_devueltas fromisoformat proceso _ _ _ _ Hnd1 Hrows).
  - rewrite Forall_forall. intros r Hr.
    apply (in_map Actuacion.id_reg_actuacion) in Hr. rewrite Hids in Hr.
    apply in_map_iff in Hr. destruct Hr as [a [Ea Ha]].
    apply pendientes_In in Ha. destruct Ha as [Ha Habs]. rewrite <- Ea.
    split; [now apply in_map | exact Habs].
  - exact Hnd1.
Qed.

(** Every row of [nuevas] is the row returned for one of the records. *)
Lemma nuevas_fetched (fromisoformat : string -> option datetime)
    (proceso : Proceso.t) (tbl nuevas rows : list Actuacion.t)
    (acts : list Datos.Actuacion) :
  Forall2 (fun a row =>
     first_by Actuacion.id_reg_actuacion (id_de a) (tbl ++ nuevas)%list = Some row
     /\ match first_by Actuacion.id_reg_actuacion (id_de a) tbl with
        | Some r => row = r
        | None => In row nuevas /\ fetched fromisoformat proceso a row
        end) acts rows ->
  Forall (fun r =>
     In (Actuacion.id_reg_actuacion r) (map id_de acts)
     /\ first_by Actuacion.id_reg_actuacion (Actuacion.id_reg_actuacion r) tbl = None)
    nuevas ->
  NoDup (map Actuacion.id_reg_actuacion nuevas) ->
  forall r, In r nuevas ->
    exists a, In a acts /\ In r rows /\ fetched fromisoformat proceso a r.
Proof.
  intros Hrows Hnew Hnd r Hr. rewrite Forall_forall in Hnew.
  destruct (Hnew r Hr) as [Hid Habs]. apply in_map_iff in Hid.
  destruct Hid as [a [Ea Ha]]. exists a. split; [assumption|].
  destruct (Forall2_In_l _ _ _ a Hrows Ha) as [row [Hrow [_ H2]]].
  rewrite Ea, Habs in H2. destruct H2 as [Hin Hf].
  assert (row = r) as ->.
  { apply (NoDup_map_eq Actuacion.id_reg_actuacion nuevas); try assumption.
    destruct Hf as [-> _]. exact Ea. }
  split; assumption.
Qed.

(** X5. The classification of a stored action is written on its row,
    which keeps every fetched column, and is what a lookup of the
    identifier finds afterwards. A later [guardar_actuaciones] that
    brings the action again, for whatever stored process and among
    records with distinct identifiers of which those not stored yet
    carry a sequence number that fits a signed integer of 64 bits,
    returns that classified row and does not reset it. *)
Theorem clasificacion_survives_reingestion (fromisoformat : string -> option datetime)
    (s : Store) (id_reg_actuacion id_proceso_api : option string)
    (clasificacion' : Datos.Clasificacion) (a : Actuacion.t) (proceso : Proceso.t)
    (acts : list Datos.Actuacion) :
  first_by Actuacion.id_reg_actuacion id_reg_actuacion (actuaciones s) = Some a ->
  first_by Proceso.id_proceso_api id_proceso_api (procesos s) = Some proceso ->
  NoDup (map id_de acts) ->
  Forall (fun act_data => cabe act_data = true)
    (pendientes (actuaciones (con_actuacion (con_clasificacion clasificacion' a) s)) acts) ->
  let a' := con_clasificacion clasificacion' a in
  exists s1 s2 rows,
    guardar_clasificacion_actuacion id_reg_actuacion clasificacion' s
    = (s1, Returned (Some a'))
    /\ Actuacion.set_clasificacion (Actuacion.nivel_urgencia a)
         (Actuacion.tipo_actuacion a) (Actuacion.requiere_accion a)
         (Actuacion.justificacion a) a' = a
    /\ first_by Actuacion.id_reg_actuacion id_reg_actuacion (actuaciones s1) = Some a'
    /\ guardar_actuaciones fromisoformat id_proceso_api acts s1 = (s2, Returned rows)
    /\ first_by Actuacion.id_reg_actuacion id_reg_actuacion (actuaciones s2) = Some a'
    /\ (In id_reg_actuacion (map id_de acts) -> In a' rows).
Proof.
  intros Ha Hp Hnd Hcabe a'.
  destruct (first_by_Some _ _ _ _ Ha) as [Hin Hk].
  assert (Ha1 : first_by Actuacion.id_reg_actuacion id_reg_actuacion
                  (actuaciones (con_actuacion a' s)) = Some a').
  { cbn [con_actuacion actuaciones set_actuaciones].
    now apply (first_by_update_row Actuacion.id_reg_actuacion Actuacion.id _ _ a). }
  destruct (guardar_actuaciones_appends fromisoformat (con_actuacion a' s)
              id_proceso_api proceso acts Hp Hnd Hcabe)
    as (nuevas & rows & Hg & Hrows & _).
  eexists _, _, rows. split; [now apply guardar_clasificacion_actuacion_found|].
  split; [now destruct a|]. split; [exact Ha1|]. split; [exact Hg|]. split.
  - cbn [actuaciones set_actuaciones]. now rewrite first_by_app, Ha1.
  - intro Hid. apply in_map_iff in Hid. destruct Hid as [x [Ex Hx]].
    destruct (Forall2_In_l _ _ _ x Hrows Hx) as [row [Hrow [_ H2]]].
    rewrite Ex, Ha1 in H2. now subst row.
Qed.

(** X5 on the example store: A1 is classified, then fetched again with a
    new action. *)
Lemma clasificacion_survives_reingestion_witness :
  exists s1 s2 rows,
    guardar_clasificacion_actuacion (Some "A1") Ejemplo.urgente Ejemplo.almacen
    = (s1, Returned (Some (con_clasificacion Ejemplo.urgente Ejemplo.actuacion_A1)))
    /\ guardar_actuaciones sin_isoformat (Some "P1")
         [Ejemplo.acta "A1" "Auto admite demanda"; Ejemplo.acta "A2" "Fija fecha de audiencia"]
         s1 = (s2, Returned rows)
    /\ first_by Actuacion.id_reg_actuacion (Some "A1") (actuaciones s2)
       = Some (con_clasificacion Ejemplo.urgente Ejemplo.actuacion_A1).
Proof.
  assert (Hnd : NoDup (map id_de [Ejemplo.acta "A1" "Auto admite demanda";
                                  Ejemplo.acta "A2" "Fija fecha de audiencia"])).
  { constructor; [|constructor; [intros []|constructor]].
    intros [E|[]]. discriminate. }
  destruct (clasificacion_survives_reingestion sin_isoformat Ejemplo.almacen
              (Some "A1") (Some "P1") Ejemplo.urgente Ejemplo.actuacion_A1
              Ejemplo.proceso_P1 _ eq_refl eq_refl Hnd)
    as (s1 & s2 & rows & H1 & _ & _ & H4 & H5 & _).
  - constructor; [reflexivity | constructor].
  - exists s1, s2, rows. repeat split; assumption.
Defined.

(** X6. After [guardar_actuaciones] on a stored process, for records
    with distinct identifiers of which those not stored yet carry a
    sequence number that fits a signed integer of 64 bits,
    [obtener_actuaciones_proceso] lists for
    that process what it listed before followed by the inserted rows, in
    the order of the records; the inserted rows are the returned rows
    that were not stored, each with the fetched fields of its record. A
    returned row that was stored, under this or another process, stays
    where it was. *)
Theorem obtener_actuaciones_proceso_after_guardar
    (fromisoformat : string -> option datetime) (s : Store)
    (id_proceso_api : option string) (proceso : Proceso.t)
    (acts : list Datos.Actuacion) :
  first_by Proceso.id_proceso_api id_proceso_api (procesos s) = Some proceso ->
  NoDup (map id_de acts) ->
  Forall (fun a => cabe a = true) (pendientes (actuaciones s) acts) ->
  exists nuevas rows s1,
    guardar_actuaciones fromisoformat id_proceso_api acts s = (s1, Returned rows)
    /\ DatabaseService.obtener_actuaciones_proceso (Proceso.id proceso) s1
       = (s1, Returned (del_proceso (Proceso.id proceso) (actuaciones s) ++ nuevas)%list)
    /\ (forall r, In r nuevas ->
          In r rows /\ ~ In r (actuaciones s)
          /\ exists a, In a acts /\ fetched fromisoformat proceso a r)
    /\ (forall r, In r rows -> In r (actuaciones s) \/ In r nuevas).
Proof.
  intros Hp Hnd Hcabe.
  destruct (guardar_actuaciones_appends fromisoformat s id_proceso_api proceso acts
              Hp Hnd Hcabe)
    as (nuevas & rows & Hg & Hrows & Hnew & Hnd').
  pose proof (nuevas_fetched fromisoformat proceso _ _ _ _ Hrows Hnew Hnd') as Hf.
  exists nuevas, rows, (set_actuaciones (actuaciones s ++ nuevas) s).
  split; [exact Hg|]. split; [|split].
  - unfold DatabaseService.obtener_actuaciones_proceso, query.
    cbn [actuaciones set_actuaciones]. f_equal. f_equal.
    rewrite filter_app. unfold del_proceso. f_equal.
    apply filter_all. rewrite Forall_forall. intros r Hr.
    destruct (Hf r Hr) as (a & _ & _ & Hfetched).
    destruct Hfetched as (_ & _ & _ & _ & _ & _ & _ & _ & _ & -> & _).
    apply eq_id_refl.
  - intros r Hr. destruct (Hf r Hr) as (a & Ha & Hin & Hfetched).
    split; [assumption|]. split; [|eauto].
    rewrite Forall_forall in Hnew. destruct (Hnew r Hr) as [_ Habs].
    intro Hold.
    exact (proj1 (first_by_None Actuacion.id_reg_actuacion _ _) Habs r Hold eq_refl).
  - intros r Hr. destruct (Forall2_In_r _ _ _ r Hrows Hr) as [a [Ha [H1 H2]]].
    destruct (first_by Actuacion.id_reg_actuacion (id_de a) (actuaciones s)) as [r0|] eqn:E.
    + subst r0. left. now apply first_by_Some in E.
    + right. tauto.
Qed.

(** X6 on the example store: A2 is new and is listed after A1. *)
Lemma obtener_actuaciones_proceso_after_guardar_witness :
  exists nuevas rows s1,
    guardar_actuaciones sin_isoformat (Some "P1")
      [Ejemplo.acta "A1" "Auto admite demanda"; Ejemplo.acta "A2" "Fija fecha de audiencia"]
      Ejemplo.almacen = (s1, Returned rows)
    /\ DatabaseService.obtener_actuaciones_proceso (Some 1) s1
       = (s1, Returned (Ejemplo.actuacion_A1 :: nuevas)).
Proof.
  assert (Hnd : NoDup (map id_de [Ejemplo.acta "A1" "Auto admite demanda";
                                  Ejemplo.acta "A2" "Fija fecha de audiencia"])).
  { constructor; [|constructor; [intros []|constructor]].
    intros [E|[]]. discriminate. }
  destruct (obtener_actuaciones_proceso_after_guardar sin_isoformat Ejemplo.almacen
              (Some "P1") Ejemplo.proceso_P1 _ eq_refl Hnd)
    as (nuevas & rows & s1 & H1 & H2 & _).
  - constructor; [reflexivity | constructor].
  - exists nuevas, rows, s1. split; assumption.
Defined.

(** ** [guardar_documentos] *)

Lemma nuevo_documento_eq (fromisoformat : string -> option datetime)
    (doc_data : Datos.Documento) (actuacion : Actuacion.t) :
  nuevo_documento fromisoformat doc_data actuacion
  = Returned (Documento.mk None (id_doc doc_data)
                (get (Datos.nombreDocumento doc_data))
                (fecha fromisoformat (Datos.fechaDocumento doc_data))
                (fecha fromisoformat (Datos.fechaPublicacion doc_data))
                (Some (url_descarga (id_doc doc_data))) None
                (Actuacion.id actuacion)).
Proof. unfold nuevo_documento. now rewrite !parse_date_fecha. Qed.

(** The link stored with a document is the address [obtener_documento]
    requests for its identifier. *)
Lemma url_descarga_obtener_documento (id_reg_documento : string) :
  url_descarga (Some id_reg_documento) = url_de_documento id_reg_documento.
Proof. reflexivity. Qed.

(** The loop and the commit of [guardar_documentos], by induction on the
    records: [cur] is the table with the rows inserted so far. *)
Lemma guardar_documentos_loop (fromisoformat : string -> option datetime)
    (tbl0 : list Documento.t) (actuacion : Actuacion.t) (docs : list Datos.Documento) :
  forall cur : list Documento.t,
  NoDup (map id_doc docs) ->
  (forall d, In d docs ->
     first_by Documento.id_reg_documento (id_doc d) cur
     = first_by Documento.id_reg_documento (id_doc d) tbl0) ->
  exists l nuevos rows,
    recorrer_documentos fromisoformat tbl0 actuacion docs = Returned l
    /\ confirmar_documentos cur l = Some ((cur ++ nuevos)%list, rows)
    /\ Forall2 (fun d row =>
          Documento.id_reg_documento row = id_doc d
          /\ match first_by Documento.id_reg_documento (id_doc d) tbl0 with
             | Some r => row = r
             | None => In row nuevos
             end) docs rows
    /\ Forall (fun r =>
          In r rows
          /\ first_by Documento.id_reg_documento (Documento.id_reg_documento r) tbl0 = None
          /\ Documento.url_documento r
             = Some (url_descarga (Documento.id_reg_documento r))
          /\ Documento.ruta_local r = None
          /\ Documento.actuacion_id r = Actuacion.id actuacion) nuevos.
Proof.
  induction docs as [|d docs IH]; intros cur Hnd Hcur.
  - exists [], [], []. cbn. rewrite app_nil_r. repeat split; constructor.
  - cbn [map] in Hnd. apply NoDup_cons_iff in Hnd. destruct Hnd as [Hfresh Hnd].
    pose proof (Hcur d (or_introl eq_refl)) as Hd.
    cbn [recorrer_documentos]. change (get (Datos.idRegDocumento d)) with (id_doc d).
    destruct (first_by Documento.id_reg_documento (id_doc d) tbl0) as [r|] eqn:E0.
    + destruct (IH cur Hnd) as (l & nuevos & rows & Hl & Hc & Hrows & Hnew).
      { intros b Hb. apply Hcur. now right. }
      exists (DocExistente r :: l), nuevos, (r :: rows). rewrite Hl.
      cbn [confirmar_documentos]. rewrite Hc. repeat split.
      * constructor; [|exact Hrows]. rewrite E0. split; [|reflexivity].
        now apply first_by_Some in E0.
      * eapply Forall_impl; [|exact Hnew]. cbn beta. intros x [Hx Hx'].
        split; [now right | assumption].
    + rewrite nuevo_documento_eq.
      pose proof (proj1 (first_by_None Documento.id_reg_documento _ _) Hd) as Habs.
      match goal with
      | |- context [DocPendiente (Documento.mk None ?a ?b ?c ?e ?u ?f ?g)] =>
          set (d' := Documento.mk (Some (next_id Documento.id cur)) a b c e u f g)
      end.
      destruct (IH (cur ++ [d'])%list Hnd) as (l & nuevos & rows & Hl & Hc & Hrows & Hnew).
      { intros b Hb. rewrite first_by_app, (Hcur b (or_intror Hb)).
        destruct (first_by Documento.id_reg_documento (id_doc b) tbl0); [reflexivity|].
        unfold first_by. cbn [find Documento.id_reg_documento d'].
        destruct (eq_str (id_doc d) (id_doc b)) eqn:E; [|reflexivity].
        apply eq_str_iff in E. exfalso. apply Hfresh.
        rewrite E. now apply in_map. }
      rewrite Hl. eexists _, (d' :: nuevos), (d' :: rows). split; [reflexivity|].
      cbn [confirmar_documentos Documento.id_reg_documento].
      rewrite (unique_ok_absent Documento.id_reg_documento _ _ Habs).
      cbn [Documento.nombre_documento Documento.fecha_documento
           Documento.fecha_publicacion Documento.url_documento Documento.ruta_local
           Documento.actuacion_id].
      fold d'. rewrite Hc. rewrite <- app_assoc. cbn [app]. repeat split.
      * constructor.
        -- rewrite E0. split; [reflexivity | now left].
        -- eapply Forall2_impl; [|exact Hrows]. cbn beta. intros b row [H1 H2].
           split; [exact H1|].
           destruct (first_by Documento.id_reg_documento (id_doc b) tbl0);
             [exact H2 | now right].
      * constructor.
        -- cbn [d' Documento.id_reg_documento Documento.url_documento
                Documento.ruta_local Documento.actuacion_id].
           repeat split; [now left | exact E0].
        -- eapply Forall_impl; [|exact Hnew]. cbn beta. intros x [Hx Hx'].
           split; [now right | assumption].
Qed.

(** X7. [guardar_documentos] for a stored action and records with
    distinct identifiers returns one row per record, with the record's
    identifier and in the order of the records; the table grows by the
    rows of the records that were not stored, each linked to the action,
    without local path, and with the link built from its identifier,
    which for an identifier that is a string is the address
    [obtener_documento] downloads from ([urlDocumento] of the record is
    not read); [obtener_documentos_actuacion] then lists for the action
    what it listed before followed by those rows. *)
Theorem guardar_documentos_distinct_ids (fromisoformat : string -> option datetime)
    (s : Store) (id_reg_actuacion : option string) (actuacion : Actuacion.t)
    (docs : list Datos.Documento) :
  first_by Actuacion.id_reg_actuacion id_reg_actuacion (actuaciones s) = Some actuacion ->
  NoDup (map id_doc docs) ->
  exists nuevos rows,
    let s1 := set_documentos (documentos s ++ nuevos) s in
    guardar_documentos fromisoformat id_reg_actuacion docs s = (s1, Returned rows)
    /\ map Documento.id_reg_documento rows = map id_doc docs
    /\ (forall r, In r rows -> In r (documentos s) \/ In r nuevos)
    /\ Forall (fun r =>
          In r rows
          /\ ~ In r (documentos s)
          /\ Documento.actuacion_id r = Actuacion.id actuacion
          /\ Documento.ruta_local r = None
          /\ Documento.url_documento r
             = Some (url_descarga (Documento.id_reg_documento r))
          /\ forall k, Documento.id_reg_documento r = Some k ->
               Documento.url_documento r = Some (url_de_documento k)) nuevos
    /\ DatabaseService.obtener_documentos_actuacion (Actuacion.id actuacion) s1
       = (s1, Returned (de_la_actuacion (Actuacion.id actuacion) (documentos s)
                        ++ nuevos)%list).
Proof.
  intros Ha Hnd. unfold guardar_documentos, bind, query, lift, raise, ret. rewrite Ha.
  destruct (guardar_documentos_loop fromisoformat (documentos s) actuacion docs
              (documentos s) Hnd)
    as (l & nuevos & rows & Hl & Hc & Hrows & Hnew); [reflexivity|].
  exists nuevos, rows. cbn zeta. rewrite Hl, Hc. split; [reflexivity|].
  split; [|split; [|split]].
  - clear -Hrows. induction Hrows as [|d row docs rows [H _] _ IH]; [reflexivity|].
    cbn [map]. now rewrite H, IH.
  - intros r Hr. destruct (Forall2_In_r _ _ _ r Hrows Hr) as [d [Hd [H1 H2]]].
    destruct (first_by Documento.id_reg_documento (id_doc d) (documentos s))
      as [r0|] eqn:E; [|now right].
    subst r0. left. now apply first_by_Some in E.
  - eapply Forall_impl; [|exact Hnew]. cbn beta.
    intros r (Hin & Habs & Hurl & Hruta & Hact). repeat split; try assumption.
    + intro Hold.
      exact (proj1 (first_by_None Documento.id_reg_documento _ _) Habs r Hold eq_refl).
    + intros k Hk. rewrite Hurl, Hk. now rewrite url_descarga_obtener_documento.
  - unfold DatabaseService.obtener_documentos_actuacion, query.
    cbn [documentos set_documentos]. f_equal. f_equal.
    rewrite filter_app. unfold de_la_actuacion. f_equal.
    apply filter_all. eapply Forall_impl; [|exact Hnew]. cbn beta.
    intros r (_ & _ & _ & _ & ->). apply eq_id_refl.
Qed.

(** X7 on the example store: two documents of A1, the first with a link
    of its own, which is not the one stored. *)
Lemma guardar_documentos_distinct_ids_witness :
  exists nuevos rows,
    guardar_documentos sin_isoformat (Some "A1")
      [Ejemplo.documento_D "D1" (Val "http://otro.example/D1"); Ejemplo.documento_D "D2" Missing]
      Ejemplo.almacen
    = (set_documentos nuevos Ejemplo.almacen, Returned rows)
    /\ map Documento.id_reg_documento rows = [Some "D1"; Some "D2"].
Proof.
  assert (Hnd : NoDup (map id_doc [Ejemplo.documento_D "D1" (Val "http://otro.example/D1");
                                   Ejemplo.documento_D "D2" Missing])).
  { constructor; [|constructor; [intros []|constructor]].
    intros [E|[]]. discriminate. }
  destruct (guardar_documentos_distinct_ids sin_isoformat Ejemplo.almacen (Some "A1")
              Ejemplo.actuacion_A1
              [Ejemplo.documento_D "D1" (Val "http://otro.example/D1");
               Ejemplo.documento_D "D2" Missing] eq_refl Hnd)
    as (nuevos & rows & H1 & H2 & _).
  exists nuevos, rows. split; assumption.
Defined.

(** ** Writers on a parent that is not stored *)

(** X8. [guardar_actuaciones] for a process that is not stored, and
    [guardar_documentos] for an action that is not stored, return the
    empty list and leave the store as it is, whatever the records are:
    they are not read, so even records that would collide are accepted. *)
Theorem guardar_sin_padre (fromisoformat : string -> option datetime) (s : Store)
    (id_padre : option string) :
  (first_by Proceso.id_proceso_api id_padre (procesos s) = None ->
   forall acts, guardar_actuaciones fromisoformat id_padre acts s = (s, Returned []))
  /\ (first_by Actuacion.id_reg_actuacion id_padre (actuaciones s) = None ->
      forall docs, guardar_documentos fromisoformat id_padre docs s = (s, Returned [])).
Proof.
  split; intros H l.
  - unfold guardar_actuaciones, bind, query, ret. now rewrite H.
  - unfold guardar_documentos, bind, query, ret. now rewrite H.
Qed.

(** ** The model-backed strategies *)

Lemma find_char_app (c : ascii) (pre rest : string) :
  has_char c pre = false ->
  find_char c (pre ++ String c rest) = Some (String.length pre).
Proof.
  induction pre as [|a pre IH]; cbn [has_char append find_char String.length].
  - now rewrite Ascii.eqb_refl.
  - intro H. apply orb_false_iff in H. destruct H as [Ha Hp].
    now rewrite Ha, (IH Hp).
Qed.

Lemma find_char_none (c : ascii) (t : string) :
  has_char c t = false -> find_char c t = None /\ rfind_char c t = None.
Proof.
  induction t as [|a t IH]; cbn [has_char find_char rfind_char]; [easy|].
  intro H. apply orb_false_iff in H. destruct H as [Ha Hp].
  destruct (IH Hp) as [-> ->]. now rewrite Ha.
Qed.

Lemma rfind_char_app (c : ascii) (pre post : string) :
  has_char c post = false ->
  rfind_char c (pre ++ String c post) = Some (String.length pre).
Proof.
  intro H. induction pre as [|a pre IH]; cbn [append rfind_char String.length].
  - destruct (find_char_none c post H) as [_ ->]. now rewrite Ascii.eqb_refl.
  - now rewrite IH.
Qed.

Lemma length_append (a b : string) :
  String.length (a ++ b) = (String.length a + String.length b)%nat.
Proof. induction a as [|x a IH]; cbn; [reflexivity | now rewrite IH]. Qed.

Lemma substring_prefix (body post : string) :
  substring 0 (String.length body) (body ++ post) = body.
Proof.
  induction body as [|x body IH]; cbn [String.length append].
  - now destruct post.
  - cbn [substring]. now rewrite IH.
Qed.

Lemma substring_middle (pre body post : string) :
  substring (String.length pre) (String.length body) (pre ++ body ++ post) = body.
Proof.
  induction pre as [|x pre IH]; cbn [String.length append].
  - apply substring_prefix.
  - cbn [substring]. exact IH.
Qed.

(** X9. The model-backed classification hands to [json.loads] the text
    from the first opening brace of the reply to its last closing brace,
    both included, whatever lies between them: for a reply [pre ++ "{"
    ++ mid ++ "}" ++ post] with no opening brace in [pre] and no closing
    brace in [post], the answer is what that text decodes to, and the
    fixed Normal / "No clasificada" answer when it does not decode. A
    reply without an opening brace, one without a closing brace, and a
    failure of the model give that fixed answer too; the call never
    raises. *)
Theorem clasificar_actuacion_reads_outer_braces
    (json_loads : string -> option Datos.Clasificacion)
    (self : AIGenerativeService.t) (actuacion : Datos.Actuacion) :
  use_simulation self = false ->
  (forall pre mid post,
     has_char "{" pre = false -> has_char "}" post = false ->
     clasificar_actuacion json_loads self
       (Returned (pre ++ "{" ++ mid ++ "}" ++ post)) actuacion
     = Returned match json_loads ("{" ++ mid ++ "}") with
                | Some clasificacion_json => clasificacion_json
                | None => no_clasificada
                end)
  /\ (forall texto,
        has_char "{" texto = false \/ has_char "}" texto = false ->
        clasificar_actuacion json_loads self (Returned texto) actuacion
        = Returned no_clasificada)
  /\ (forall e,
        clasificar_actuacion json_loads self (Raised e) actuacion
        = Returned no_clasificada).
Proof.
  intro Hs. unfold clasificar_actuacion. rewrite Hs. repeat split.
  - intros pre mid post Hpre Hpost.
    set (texto := pre ++ "{" ++ mid ++ "}" ++ post).
    assert (Hf : find_char "{" texto = Some (String.length pre)).
    { exact (find_char_app "{" pre _ Hpre). }
    assert (Hr : rfind_char "}" texto
                 = Some (String.length pre + S (String.length mid))%nat).
    { replace texto with ((pre ++ "{" ++ mid) ++ String "}" post)
        by (unfold texto; rewrite !append_assoc; reflexivity).
      rewrite (rfind_char_app "}" _ post Hpost), !length_append. reflexivity. }
    assert (Hsub : substring (String.length pre)
                     (S (String.length pre + S (String.length mid)) - String.length pre)
                     texto = "{" ++ mid ++ "}").
    { replace (S (String.length pre + S (String.length mid)) - String.length pre)%nat
        with (String.length ("{" ++ mid ++ "}"))
        by (rewrite !length_append; cbn [String.length]; lia).
      replace texto with (pre ++ ("{" ++ mid ++ "}") ++ post)
        by (unfold texto; rewrite !append_assoc; reflexivity).
      apply substring_middle. }
    unfold extraer_json. rewrite Hf, Hr, Hsub.
    replace (Nat.ltb _ _) with true by (symmetry; apply Nat.ltb_lt; lia).
    now destruct (json_loads _).
  - intros texto [H|H]; unfold extraer_json.
    + destruct (find_char_none _ _ H) as [-> _]. reflexivity.
    + destruct (find_char_none _ _ H) as [_ ->].
      destruct (find_char "{" texto); reflexivity.
Qed.

(** X9 on a reply with two objects: the text handed to the decoder runs
    from the first brace to the last, and a decoder that accepts no such
    text leaves the fixed answer. *)
Lemma clasificar_actuacion_reads_outer_braces_witness :
  clasificar_actuacion sin_json con_modelo
    (Returned "Respuesta: {a} y {b}.") (Ejemplo.acta "A2" "Sentencia")
  = Returned no_clasificada.
Proof.
  refine (proj1 (clasificar_actuacion_reads_outer_braces sin_json con_modelo
                   (Ejemplo.acta "A2" "Sentencia") eq_refl)
            "Respuesta: " "a} y {b" "." eq_refl eq_refl).
Defined.

Lemma actuaciones_recientes_firstn (actuaciones : list Datos.Actuacion) :
  (if Nat.ltb 5 (List.length actuaciones) then firstn 5 actuaciones else actuaciones)
  = firstn 5 actuaciones.
Proof.
  destruct (Nat.ltb 5 (List.length actuaciones)) eqn:E; [reflexivity|].
  apply Nat.ltb_ge in E. symmetry. now apply firstn_all2.
Qed.

(** X10. The model-backed summary. For a detail record whose two name
    entries are not null and a list of actions it returns a text
    whatever the model does, the fixed "No se pudo generar..." text when
    the model fails; the prompt is built from the first five actions
    only, so the result for a list is the result for its first five. A
    null name entry, with whatever actions, and [None] for the actions,
    with whatever names, raise [TypeError] before the model is called:
    the result is that exception for every model. *)
Theorem generar_resumen_proceso_modelo (chat_invoke : string -> string -> outcome string)
    (self : AIGenerativeService.t) (detalle_proceso : Datos.Detalle)
    (fechaRadicacion : field string) (actuaciones : list Datos.Actuacion) :
  use_simulation self = false ->
  (Datos.demandantes detalle_proceso <> Null ->
   Datos.demandados detalle_proceso <> Null ->
   (exists texto,
      generar_resumen_proceso chat_invoke self detalle_proceso fechaRadicacion
        (Some actuaciones) = Returned texto)
   /\ generar_resumen_proceso chat_invoke self detalle_proceso fechaRadicacion
        (Some actuaciones)
      = generar_resumen_proceso chat_invoke self detalle_proceso fechaRadicacion
          (Some (firstn 5 actuaciones))
   /\ ((forall system human, exists e, chat_invoke system human = Raised e) ->
       generar_resumen_proceso chat_invoke self detalle_proceso fechaRadicacion
         (Some actuaciones) = Returned resumen_no_disponible))
  /\ (forall (modelo : string -> string -> outcome string)
             (actuaciones' : option (list Datos.Actuacion)),
        Datos.demandantes detalle_proceso = Null
        \/ Datos.demandados detalle_proceso = Null ->
        generar_resumen_proceso modelo self detalle_proceso fechaRadicacion actuaciones'
        = Raised TypeError)
  /\ (forall modelo : string -> string -> outcome string,
        generar_resumen_proceso modelo self detalle_proceso fechaRadicacion None
        = Raised TypeError).
Proof.
  intro Hs. split; [|split].
  - intros H1 H2. unfold generar_resumen_proceso, unir_nombres. rewrite Hs.
    rewrite !actuaciones_recientes_firstn, firstn_firstn. cbn [Nat.min].
    destruct (Datos.demandantes detalle_proceso) as [| |l1]; [ | congruence | ];
      (destruct (Datos.demandados detalle_proceso) as [| |l2]; [ | congruence | ]);
      cbn [get_default]; repeat split;
      try (destruct (chat_invoke _ _); eauto; fail);
      try (intro Hf;
           match goal with
           | |- context [chat_invoke ?a ?b] => destruct (Hf a b) as [e ->]
           end; reflexivity).
  - intros modelo actuaciones' Hnull.
    unfold generar_resumen_proceso, unir_nombres. rewrite Hs.
    destruct Hnull as [-> | ->]; cbn [get_default]; [reflexivity|].
    now destruct (get_default (Datos.demandantes detalle_proceso) ["No especificado"]).
  - intro modelo. unfold generar_resumen_proceso, unir_nombres. rewrite Hs.
    destruct (get_default (Datos.demandantes detalle_proceso) ["No especificado"]);
      [|reflexivity].
    now destruct (get_default (Datos.demandados detalle_proceso) ["No especificado"]).
Qed.

(** X10 with a model that cannot be reached. *)
Lemma generar_resumen_proceso_modelo_witness :
  generar_resumen_proceso sin_modelo con_modelo Ejemplo.detalle_ejemplo Missing
    (Some [Ejemplo.acta "A2" "Sentencia"])
  = Returned resumen_no_disponible.
Proof.
  refine (proj2 (proj2 (proj1 (generar_resumen_proceso_modelo sin_modelo con_modelo
                                 Ejemplo.detalle_ejemplo Missing
                                 [Ejemplo.acta "A2" "Sentencia"] eq_refl) _ _)) _).
  - discriminate.
  - discriminate.
  - intros system human. eexists. reflexivity.
Defined.

(** * The request handlers *)

Section HandlerProperties.

Variable fromisoformat : string -> option datetime.
Variable relojes : nat -> datetime * datetime.
Variable chat_invoke : string -> string -> outcome string.
Variable respuesta_modelo : Datos.Actuacion -> outcome string.
Variable json_loads : string -> option Datos.Clasificacion.

(** ** The registry does not answer *)

(** X11. When the registry fails, a handler answers with its error page
    and the exception of the client, and writes nothing. The two queries
    of [detalle_proceso] are made before the first write, so a failure of
    the second leaves the detail of the first unwritten. *)
Theorem registro_sin_respuesta (s : Store) :
  (forall nombre tipo_persona registro e,
     consultar_por_razon_social registro = Raised e ->
     Main.buscar_razon_social fromisoformat relojes nombre tipo_persona registro s
     = (s, Main.PaginaError Main.error_busqueda (Main.Lanzada e)))
  /\ (forall numero registro e,
        _make_request registro = Raised e ->
        Main.buscar_radicado fromisoformat relojes numero registro s
        = (s, Main.PaginaError Main.error_busqueda (Main.Lanzada e)))
  /\ (forall id_proceso registro_detalle fechaRadicacion registro_actuaciones e,
        _make_request registro_detalle = Raised e ->
        Main.detalle_proceso fromisoformat chat_invoke respuesta_modelo json_loads
          id_proceso registro_detalle fechaRadicacion registro_actuaciones s
        = (s, Main.PaginaError "Error al obtener detalles" (Main.Lanzada e)))
  /\ (forall id_proceso detalle fechaRadicacion registro_actuaciones e,
        _make_request registro_actuaciones = Raised e ->
        Main.detalle_proceso fromisoformat chat_invoke respuesta_modelo json_loads
          id_proceso (Reply detalle) fechaRadicacion registro_actuaciones s
        = (s, Main.PaginaError "Error al obtener detalles" (Main.Lanzada e)))
  /\ (forall id_actuacion registro e,
        _make_request registro = Raised e ->
        Main.detalle_actuacion fromisoformat id_actuacion registro s
        = (s, Main.PaginaError "Error al obtener documentos" (Main.Lanzada e))).
Proof.
  repeat split.
  - intros nombre tipo_persona registro e H.
    unfold Main.buscar_razon_social, Main.intentar, Main.luego, Main.llamada.
    now rewrite H.
  - intros numero registro e H.
    unfold Main.buscar_radicado, Main.intentar, Main.luego, Main.llamada,
      consultar_por_radicado.
    now rewrite H.
  - intros id_proceso rd fr ra e H.
    unfold Main.detalle_proceso, Main.intentar, Main.luego, Main.llamada,
      obtener_detalle_proceso.
    now rewrite H.
  - intros id_proceso d fr ra e H.
    unfold Main.detalle_proceso, Main.intentar, Main.luego, Main.llamada,
      obtener_detalle_proceso, JudicialAPIClient.obtener_actuaciones_proceso.
    cbn [_make_request]. now rewrite H.
  - intros id_actuacion registro e H.
    unfold Main.detalle_actuacion, Main.intentar, Main.luego, Main.llamada,
      JudicialAPIClient.obtener_documentos_actuacion.
    now rewrite H.
Qed.

(** ** The searches *)

Lemma map_update_row_same {T B : Type} (id : T -> option Z) (g : T -> B)
    (p p' : T) (tbl : list T) :
  NoDup (map id tbl) -> In p tbl -> id p' = id p -> g p' = g p ->
  map g (update_row id p' tbl) = map g tbl.
Proof.
  intros Hnd Hp Hi Hg. unfold update_row. rewrite map_map. apply map_ext_in.
  intros r Hr. destruct (eq_id (id r) (id p')) eqn:E; [|reflexivity].
  apply eq_id_iff in E. rewrite Hi in E.
  rewrite (NoDup_map_eq id tbl r p Hnd Hr Hp E). exact Hg.
Qed.

Lemma existsb_first_by {T : Type} (col : T -> option string) (v : option string)
    (tbl : list T) :
  existsb (eq_str v) (map col tbl)
  = match first_by col v tbl with Some _ => true | None => false end.
Proof.
  unfold first_by. induction tbl as [|x tbl IH]; [reflexivity|]. cbn [map existsb find].
  replace (eq_str v (col x)) with (eq_str (col x) v).
  - destruct (eq_str (col x) v); [reflexivity | exact IH].
  - destruct (col x), v; cbn; try reflexivity. apply String.eqb_sym.
Qed.

Lemma NoDup_next_id {T : Type} (id : T -> option Z) (tbl : list T) :
  NoDup (map id tbl) -> NoDup (map id tbl ++ [Some (next_id id tbl)]).
Proof.
  intro Hnd. apply NoDup_app; [assumption | | ].
  - constructor; [intros [] | constructor].
  - intros k Hk [<-|[]]. apply in_map_iff in Hk. destruct Hk as [r [Er Hr]].
    pose proof (next_id_fresh id _ r Hr) as Hf.
    rewrite Er, eq_id_refl in Hf. discriminate.
Qed.

Lemma map_vinculo_api (l l' : list Proceso.t) :
  map vinculo l = map vinculo l' ->
  map Proceso.id_proceso_api l = map Proceso.id_proceso_api l'.
Proof.
  intro H. apply (f_equal (map fst)) in H. rewrite !map_map in H. exact H.
Qed.

(** One turn of the loop on a stored identifier: the row keeps its key,
    its identifier and its party. *)
Lemma guardar_proceso_stored_vinculo (datos_proceso : Datos.Proceso)
    (datos_empresa : option Datos.Empresa) (now_empresa now : datetime)
    (s : Store) (p : Proceso.t) :
  NoDup (map Proceso.id (procesos s)) ->
  first_by Proceso.id_proceso_api (get (Datos.idProceso datos_proceso)) (procesos s)
  = Some p ->
  exists s1 p1,
    guardar_proceso fromisoformat datos_proceso datos_empresa now_empresa now s
    = (s1, Returned p1)
    /\ map Proceso.id (procesos s1) = map Proceso.id (procesos s)
    /\ map vinculo (procesos s1) = map vinculo (procesos s)
    /\ empresas s1 = empresas s /\ actuaciones s1 = actuaciones s
    /\ documentos s1 = documentos s.
Proof.
  intros Hnd Hp.
  destruct (guardar_proceso_existing fromisoformat datos_proceso datos_empresa
              now_empresa now s p Hp) as (v & p' & _ & Hp' & Hg).
  destruct (first_by_Some _ _ _ _ Hp) as [Hin _].
  eexists _, _. split; [exact Hg|]. cbn [procesos set_procesos empresas actuaciones
                                          documentos].
  assert (Hkeys : Proceso.id p' = Proceso.id p /\ vinculo p' = vinculo p).
  { subst p'. now destruct v. }
  destruct Hkeys as [Hi Hv]. repeat split.
  - apply update_row_ids.
  - now apply (map_update_row_same Proceso.id vinculo p).
Qed.

(** One turn on a new identifier, without a hint. *)
Lemma guardar_proceso_new_sin_pista (datos_proceso : Datos.Proceso)
    (now_empresa now : datetime) (s : Store) :
  first_by Proceso.id_proceso_api (get (Datos.idProceso datos_proceso)) (procesos s)
  = None ->
  exists p1,
    guardar_proceso fromisoformat datos_proceso None now_empresa now s
    = (set_procesos (procesos s ++ [p1]) s, Returned p1)
    /\ Proceso.id p1 = Some (next_id Proceso.id (procesos s))
    /\ vinculo p1 = (get (Datos.idProceso datos_proceso), None).
Proof.
  intro Hn. unfold guardar_proceso, bind, query, lift, ret. rewrite Hn.
  destruct (parse_date_returns fromisoformat (get (Datos.fechaProceso datos_proceso)))
    as [v1 ->].
  destruct (parse_date_returns fromisoformat
              (get (Datos.fechaUltimaActuacion datos_proceso))) as [v2 ->].
  unfold insert_proceso. cbn [Proceso.id_proceso_api].
  rewrite (unique_ok_absent Proceso.id_proceso_api _ _
             (proj1 (first_by_None Proceso.id_proceso_api _ _) Hn)).
  eexists. split; [reflexivity|]. split; reflexivity.
Qed.

(** One turn on a new identifier, with the hint of the search by name:
    the party is the first one stored under the name, or a new one. *)
Lemma guardar_proceso_new_con_nombre (datos_proceso : Datos.Proceso)
    (nombre tipo_persona : string) (now_empresa now : datetime) (s : Store) :
  first_by Proceso.id_proceso_api (get (Datos.idProceso datos_proceso)) (procesos s)
  = None ->
  exists s1 p1,
    guardar_proceso fromisoformat datos_proceso
      (Some (Datos.mkEmpresa (Val nombre) (Val tipo_persona) Missing))
      now_empresa now s = (s1, Returned p1)
    /\ procesos s1 = (procesos s ++ [p1])%list
    /\ actuaciones s1 = actuaciones s /\ documentos s1 = documentos s
    /\ Proceso.id p1 = Some (next_id Proceso.id (procesos s))
    /\ vinculo p1 = (get (Datos.idProceso datos_proceso), empresa_de nombre (empresas s))
    /\ empresas s1
       = match first_by Empresa.nombre (Some nombre) (empresas s) with
         | Some _ => empresas s
         | None =>
             (empresas s
              ++ [Empresa.mk (Some (next_id Empresa.id (empresas s))) (Some nombre)
                    (Some tipo_persona) None (Some now_empresa)])%list
         end.
Proof.
  intro Hn. unfold guardar_proceso, bind, query, lift, ret. rewrite Hn.
  cbn [Datos.empresa_truthy Datos.nombre Datos.tipo_persona Datos.nit has_key orb].
  unfold guardar_empresa, bind, query, ret, empresa_de.
  cbn [Datos.nombre Datos.tipo_persona Datos.nit get get_default truthy_str andb].
  destruct (parse_date_returns fromisoformat (get (Datos.fechaProceso datos_proceso)))
    as [v1 Hv1].
  destruct (parse_date_returns fromisoformat
              (get (Datos.fechaUltimaActuacion datos_proceso))) as [v2 Hv2].
  pose proof (unique_ok_absent Proceso.id_proceso_api _ _
                (proj1 (first_by_None Proceso.id_proceso_api _ _) Hn)) as Hu.
  destruct (first_by Empresa.nombre (Some nombre) (empresas s)) as [e|].
  - rewrite Hv1, Hv2. unfold insert_proceso. cbn [Proceso.id_proceso_api].
    rewrite Hu. eexists _, _. split; [reflexivity|]. repeat split.
  - unfold insert_empresa. cbn [Empresa.nit unique_ok].
    rewrite Hv1, Hv2. unfold insert_proceso.
    cbn [Proceso.id_proceso_api procesos set_empresas].
    rewrite Hu. eexists _, _. split; [reflexivity|]. repeat split.
Qed.

(** The loop of [buscar_radicado]. *)
Lemma guardar_procesos_sin_pista (l : list Datos.Proceso) :
  forall (i : nat) (s : Store),
  NoDup (map Proceso.id (procesos s)) ->
  exists s1,
    Main.guardar_procesos fromisoformat relojes None i l s = (s1, Returned tt)
    /\ map vinculo (procesos s1)
       = (map vinculo (procesos s)
          ++ map (fun k => (k, None))
               (ids_nuevos (map Proceso.id_proceso_api (procesos s)) l))%list
    /\ NoDup (map Proceso.id (procesos s1))
    /\ empresas s1 = empresas s /\ actuaciones s1 = actuaciones s
    /\ documentos s1 = documentos s.
Proof.
  induction l as [|d l IH]; intros i s Hnd.
  - exists s. cbn. rewrite app_nil_r. repeat split; assumption.
  - cbn [Main.guardar_procesos ids_nuevos]. unfold bind.
    rewrite existsb_first_by.
    destruct (first_by Proceso.id_proceso_api (get (Datos.idProceso d)) (procesos s))
      as [p|] eqn:Hp.
    + destruct (guardar_proceso_stored_vinculo d None (fst (relojes i))
                  (snd (relojes i)) s p Hnd Hp)
        as (s' & p' & Hg & Hid & Hv & He & Ha & Hd).
      rewrite Hg.
      destruct (IH (S i) s') as (s1 & Hl & Hv1 & Hnd1 & He1 & Ha1 & Hd1);
        [now rewrite Hid|].
      exists s1. split; [exact Hl|].
      assert (Hapi : map Proceso.id_proceso_api (procesos s')
                     = map Proceso.id_proceso_api (procesos s)).
      { now apply map_vinculo_api. }
      rewrite Hv1, Hv, Hapi. repeat split; congruence.
    + destruct (guardar_proceso_new_sin_pista d (fst (relojes i)) (snd (relojes i)) s Hp)
        as (p1 & Hg & Hid & Hv).
      rewrite Hg.
      destruct (IH (S i) (set_procesos (procesos s ++ [p1]) s))
        as (s1 & Hl & Hv1 & Hnd1 & He1 & Ha1 & Hd1).
      { cbn [procesos set_procesos]. rewrite map_app. cbn [map]. rewrite Hid.
        now apply NoDup_next_id. }
      exists s1. split; [exact Hl|]. cbn [procesos set_procesos] in Hv1.
      rewrite Hv1, !map_app. cbn [map]. rewrite Hv, <- app_assoc.
      replace (Proceso.id_proceso_api p1) with (get (Datos.idProceso d))
        by (injection Hv as <- _; reflexivity).
      repeat split; assumption.
Qed.

(** The loop of [buscar_razon_social]. *)
Lemma guardar_procesos_con_nombre (nombre tipo_persona : string)
    (l : list Datos.Proceso) :
  forall (i : nat) (s : Store),
  NoDup (map Proceso.id (procesos s)) ->
  exists s1,
    Main.guardar_procesos fromisoformat relojes
      (Some (Datos.mkEmpresa (Val nombre) (Val tipo_persona) Missing)) i l s
    = (s1, Returned tt)
    /\ map vinculo (procesos s1)
       = (map vinculo (procesos s)
          ++ map (fun k => (k, empresa_de nombre (empresas s)))
               (ids_nuevos (map Proceso.id_proceso_api (procesos s)) l))%list
    /\ NoDup (map Proceso.id (procesos s1))
    /\ match first_by Empresa.nombre (Some nombre) (empresas s),
             ids_nuevos (map Proceso.id_proceso_api (procesos s)) l with
       | None, _ :: _ =>
           exists fecha_creacion,
             empresas s1
             = (empresas s
                ++ [Empresa.mk (Some (next_id Empresa.id (empresas s))) (Some nombre)
                      (Some tipo_persona) None (Some fecha_creacion)])%list
       | _, _ => empresas s1 = empresas s
       end
    /\ actuaciones s1 = actuaciones s
    /\ documentos s1 = documentos s.
Proof.
  induction l as [|d l IH]; intros i s Hnd.
  - exists s. cbn. rewrite app_nil_r. repeat split; try assumption.
    now destruct (first_by Empresa.nombre (Some nombre) (empresas s)).
  - cbn [Main.guardar_procesos ids_nuevos]. unfold bind.
    rewrite existsb_first_by.
    destruct (first_by Proceso.id_proceso_api (get (Datos.idProceso d)) (procesos s))
      as [p|] eqn:Hp.
    + destruct (guardar_proceso_stored_vinculo d
                  (Some (Datos.mkEmpresa (Val nombre) (Val tipo_persona) Missing))
                  (fst (relojes i)) (snd (relojes i)) s p Hnd Hp)
        as (s' & p' & Hg & Hid & Hv & He & Ha & Hd).
      rewrite Hg.
      destruct (IH (S i) s') as (s1 & Hl & Hv1 & Hnd1 & He1 & Ha1 & Hd1);
        [now rewrite Hid|].
      exists s1. split; [exact Hl|].
      assert (Hapi : map Proceso.id_proceso_api (procesos s')
                     = map Proceso.id_proceso_api (procesos s)).
      { now apply map_vinculo_api. }
      rewrite Hapi, He in *. rewrite Hv1, Hv. repeat split; congruence.
    + destruct (guardar_proceso_new_con_nombre d nombre tipo_persona (fst (relojes i))
                  (snd (relojes i)) s Hp)
        as (s' & p1 & Hg & Hps & Has & Hds & Hid & Hv & He).
      rewrite Hg.
      destruct (IH (S i) s') as (s1 & Hl & Hv1 & Hnd1 & He1 & Ha1 & Hd1).
      { rewrite Hps, map_app. cbn [map]. rewrite Hid. now apply NoDup_next_id. }
      exists s1. split; [exact Hl|].
      assert (Hparty : empresa_de nombre (empresas s') = empresa_de nombre (empresas s)
                       /\ exists e, first_by Empresa.nombre (Some nombre) (empresas s')
                                    = Some e).
      { rewrite He. unfold empresa_de.
        destruct (first_by Empresa.nombre (Some nombre) (empresas s)) as [e|] eqn:E.
        - rewrite E. eauto.
        - rewrite first_by_app, E. unfold first_by. cbn [find Empresa.nombre].
          rewrite eq_str_refl. cbn [Empresa.id]. eauto. }
      destruct Hparty as [Hparty [e Hfound]].
      rewrite Hfound in He1. rewrite Hps in Hv1.
      rewrite Hv1, !map_app. cbn [map]. rewrite Hv, Hparty, <- app_assoc.
      replace (Proceso.id_proceso_api p1) with (get (Datos.idProceso d))
        by (injection Hv as <- _; reflexivity).
      repeat split; try assumption; try congruence.
      rewrite He1, He.
      destruct (first_by Empresa.nombre (Some nombre) (empresas s)); eauto.
Qed.

End HandlerProperties.

(** X12. [buscar_radicado], once the registry has answered, shows the
    result page whatever the answer holds: no record makes the store
    refuse a write, a repeated identifier included. With distinct
    primary keys before the request, the table of processes afterwards
    has the rows it had, each with its identifier and its party, then one
    row for each identifier of the answer that was not stored, in the
    order of the answer and linked to no party; the primary keys stay
    distinct and the other tables are as before. *)
Theorem buscar_radicado_stores (fromisoformat : string -> option datetime)
    (relojes : nat -> datetime * datetime) (numero : string)
    (resultados : Datos.Resultados) (s : Store) :
  NoDup (map Proceso.id (procesos s)) ->
  exists s1,
    Main.buscar_radicado fromisoformat relojes numero (Reply resultados) s
    = (s1, Main.Plantilla
             (Main.mkContextoResultados ("Resultados para radicado " ++ numero)
                resultados "radicado"))
    /\ map vinculo (procesos s1)
       = (map vinculo (procesos s)
          ++ map (fun k => (k, None))
               (ids_nuevos (map Proceso.id_proceso_api (procesos s))
                  (Main.subscript_list (Datos.procesos resultados))))%list
    /\ NoDup (map Proceso.id (procesos s1))
    /\ empresas s1 = empresas s /\ actuaciones s1 = actuaciones s
    /\ documentos s1 = documentos s.
Proof.
  intro Hnd.
  unfold Main.buscar_radicado, Main.intentar, Main.luego, Main.llamada, Main.servicio,
    Main.hecho, consultar_por_radicado.
  cbn [_make_request].
  destruct (Main.truthy_list (Datos.procesos resultados)) eqn:Ht.
  - destruct (guardar_procesos_sin_pista fromisoformat relojes
                (Main.subscript_list (Datos.procesos resultados)) 0 s Hnd)
      as (s1 & Hl & H). rewrite Hl. exists s1. split; [reflexivity | exact H].
  - exists s. unfold ret. split; [reflexivity|].
    replace (Main.subscript_list (Datos.procesos resultados)) with (@nil Datos.Proceso).
    + cbn. rewrite app_nil_r. repeat split; assumption.
    + destruct (Datos.procesos resultados) as [| |[|x l]]; try reflexivity. discriminate.
Qed.

(** X12 on the example store: the answer names P2 twice. *)
Lemma buscar_radicado_stores_witness :
  exists s1,
    Main.buscar_radicado sin_isoformat Ejemplo.reloj_fijo "05001310301020220022900"
      (Reply (Datos.mkResultados (Val [Ejemplo.datos_P2; Ejemplo.datos_P2_despues])))
      Ejemplo.almacen
    = (s1, Main.Plantilla
             (Main.mkContextoResultados "Resultados para radicado 05001310301020220022900"
                (Datos.mkResultados (Val [Ejemplo.datos_P2; Ejemplo.datos_P2_despues]))
                "radicado"))
    /\ map vinculo (procesos s1) = [(Some "P1", Some 1); (Some "P2", None)].
Proof.
  assert (Hnd : NoDup (map Proceso.id (procesos Ejemplo.almacen))).
  { constructor; [intros [] | constructor]. }
  destruct (buscar_radicado_stores sin_isoformat Ejemplo.reloj_fijo
              "05001310301020220022900"
              (Datos.mkResultados (Val [Ejemplo.datos_P2; Ejemplo.datos_P2_despues]))
              Ejemplo.almacen Hnd) as (s1 & H1 & H2 & _).
  exists s1. split; [exact H1 | exact H2].
Defined.

(** X13. [buscar_razon_social], once the registry has answered, shows
    the result page whatever the answer holds. With distinct primary keys
    before the request, the table of processes afterwards has the rows it
    had, each with its identifier and its party, then one row for each
    identifier of the answer that was not stored, all of them linked to
    one party: the first stored party with the name searched for, and
    when there is none a party the request creates with that name, the
    type of the form and no nit. At most that one party is created, and
    only when the answer brings a new identifier; no stored party
    changes. *)
Theorem buscar_razon_social_stores (fromisoformat : string -> option datetime)
    (relojes : nat -> datetime * datetime) (nombre tipo_persona : string)
    (resultados : Datos.Resultados) (s : Store) :
  NoDup (map Proceso.id (procesos s)) ->
  let nuevos := ids_nuevos (map Proceso.id_proceso_api (procesos s))
                  (Main.subscript_list (Datos.procesos resultados)) in
  exists s1,
    Main.buscar_razon_social fromisoformat relojes nombre tipo_persona
      (Reply resultados) s
    = (s1, Main.Plantilla
             (Main.mkContextoResultados ("Resultados para " ++ nombre)
                resultados "razon_social"))
    /\ map vinculo (procesos s1)
       = (map vinculo (procesos s)
          ++ map (fun k => (k, empresa_de nombre (empresas s))) nuevos)%list
    /\ NoDup (map Proceso.id (procesos s1))
    /\ match first_by Empresa.nombre (Some nombre) (empresas s), nuevos with
       | None, _ :: _ =>
           exists fecha_creacion,
             empresas s1
             = (empresas s
                ++ [Empresa.mk (Some (next_id Empresa.id (empresas s))) (Some nombre)
                      (Some tipo_persona) None (Some fecha_creacion)])%list
       | _, _ => empresas s1 = empresas s
       end
    /\ actuaciones s1 = actuaciones s
    /\ documentos s1 = documentos s.
Proof.
  intros Hnd nuevos. subst nuevos.
  unfold Main.buscar_razon_social, Main.intentar, Main.luego, Main.llamada,
    Main.servicio, Main.hecho, consultar_por_razon_social.
  cbn [_make_request].
  destruct (Main.truthy_list (Datos.procesos resultados)) eqn:Ht.
  - destruct (guardar_procesos_con_nombre fromisoformat relojes nombre tipo_persona
                (Main.subscript_list (Datos.procesos resultados)) 0 s Hnd)
      as (s1 & Hl & H). rewrite Hl. exists s1. split; [reflexivity | exact H].
  - exists s. unfold ret. split; [reflexivity|].
    replace (Main.subscript_list (Datos.procesos resultados)) with (@nil Datos.Proceso).
    + cbn. rewrite app_nil_r. repeat split; try assumption.
      now destruct (first_by Empresa.nombre (Some nombre) (empresas s)).
    + destruct (Datos.procesos resultados) as [| |[|x l]]; try reflexivity. discriminate.
Qed.

(** X13 on the example store: a search for a name that is not stored,
    answered with the stored P1 and the new P2. *)
Lemma buscar_razon_social_stores_witness :
  exists s1 fecha_creacion,
    fst (Main.buscar_razon_social sin_isoformat Ejemplo.reloj_fijo "BETA" "jur"
           (Reply (Datos.mkResultados (Val [Ejemplo.datos_P2_despues; Ejemplo.datos_P2])))
           Ejemplo.almacen) = s1
    /\ map vinculo (procesos s1) = [(Some "P1", Some 1); (Some "P2", Some 2)]
    /\ empresas s1
       = [Ejemplo.acme;
          Empresa.mk (Some 2) (Some "BETA") (Some "jur") None (Some fecha_creacion)].
Proof.
  assert (Hnd : NoDup (map Proceso.id (procesos Ejemplo.almacen))).
  { constructor; [intros [] | constructor]. }
  destruct (buscar_razon_social_stores sin_isoformat Ejemplo.reloj_fijo "BETA" "jur"
              (Datos.mkResultados (Val [Ejemplo.datos_P2_despues; Ejemplo.datos_P2]))
              Ejemplo.almacen Hnd) as (s1 & H1 & H2 & _ & [fecha H4] & _).
  exists s1, fecha. split; [now rewrite H1|]. split; [exact H2 | exact H4].
Defined.

(** ** [detalle_proceso] *)

Lemma clasificar_simulada_label (actuacion : Datos.Actuacion) :
  Datos.actuacion actuacion <> Null ->
  _clasificar_actuacion_simulada actuacion = Returned (clasificacion_de actuacion).
Proof.
  intro H. unfold clasificacion_de, _clasificar_actuacion_simulada.
  destruct (Datos.actuacion actuacion) as [| |texto]; [ | congruence | ];
    cbn [get_default];
    repeat match goal with
           | |- context [if ?b then _ else _] => destruct b
           end; reflexivity.
Qed.

Lemma generar_resumen_simulado_de (detalle : Datos.Detalle)
    (actuaciones : list Datos.Actuacion) :
  Datos.demandantes detalle <> Null -> Datos.demandados detalle <> Null ->
  _generar_resumen_simulado detalle actuaciones = Returned (resumen_de detalle).
Proof.
  intros H1 H2. unfold resumen_de, _generar_resumen_simulado, unir_nombres.
  destruct (Datos.demandantes detalle); [ | congruence | ];
    (destruct (Datos.demandados detalle); [ | congruence | ]); reflexivity.
Qed.

Lemma truthy_list_false {A : Type} (f : field (list A)) :
  Main.truthy_list f = false -> Main.subscript_list f = [].
Proof. destruct f as [| |[|x l]]; try reflexivity. discriminate. Qed.

Lemma guardar_clasificacion_actuacion_returns (s : Store)
    (id_reg_actuacion : option string) (clasificacion : Datos.Clasificacion) :
  exists r,
    guardar_clasificacion_actuacion id_reg_actuacion clasificacion s
    = (fst (guardar_clasificacion_actuacion id_reg_actuacion clasificacion s),
       Returned r).
Proof.
  unfold guardar_clasificacion_actuacion, bind, query, ret, update_actuacion.
  destruct (first_by Actuacion.id_reg_actuacion id_reg_actuacion (actuaciones s));
    eexists; reflexivity.
Qed.

Lemma fetched_id (fromisoformat : string -> option datetime) (p p' : Proceso.t)
    (a : Datos.Actuacion) (r : Actuacion.t) :
  Proceso.id p = Proceso.id p' ->
  fetched fromisoformat p a r -> fetched fromisoformat p' a r.
Proof. unfold fetched. intros <-. exact (fun H => H). Qed.

(** The commit of [guardar_actuaciones] keeps the primary keys distinct. *)
Lemma confirmar_ids (l : list guardada) :
  forall cur tbl rows,
  confirmar cur l = Returned (tbl, rows) ->
  NoDup (map Actuacion.id cur) -> NoDup (map Actuacion.id tbl).
Proof.
  induction l as [|[a|a] l IH]; intros cur tbl rows; cbn [confirmar].
  - intro H. injection H as <- _. exact (fun H => H).
  - destruct (confirmar cur l) as [[tbl' rows']|e] eqn:E; [|discriminate].
    intro H. injection H as <- _. now apply (IH cur tbl' rows').
  - destruct (negb _); [discriminate|].
    destruct (unique_ok _ _ _); [|discriminate].
    match goal with
    | |- context [confirmar (cur ++ [?row])%list l] =>
        destruct (confirmar (cur ++ [row])%list l) as [[tbl' rows']|e] eqn:E;
          [|discriminate]
    end.
    intro H. injection H as <- _. intro Hnd. apply (IH _ _ _ E).
    rewrite map_app. cbn [map Actuacion.id]. now apply NoDup_next_id.
Qed.

Lemma guardar_actuaciones_ids (fromisoformat : string -> option datetime)
    (id_proceso_api : option string) (acts : list Datos.Actuacion)
    (s s1 : Store) (o : outcome (list Actuacion.t)) :
  guardar_actuaciones fromisoformat id_proceso_api acts s = (s1, o) ->
  NoDup (map Actuacion.id (actuaciones s)) -> NoDup (map Actuacion.id (actuaciones s1)).
Proof.
  unfold guardar_actuaciones, bind, query, lift, raise, ret.
  destruct (first_by Proceso.id_proceso_api id_proceso_api (procesos s)) as [p|].
  - rewrite recorrer_eq.
    destruct (confirmar (actuaciones s) _) as [[tbl rows]|e] eqn:E.
    + intro H. injection H as <- _. cbn [actuaciones set_actuaciones].
      now apply (confirmar_ids _ _ _ _ E).
    + intro H. injection H as <- _. exact (fun H => H).
  - intro H. injection H as <- _. exact (fun H => H).
Qed.

Section Clasificar.

Variable respuesta_modelo : Datos.Actuacion -> outcome string.
Variable json_loads : string -> option Datos.Clasificacion.

(** One turn of the classification loop on a record with an identifier
    and a label. *)
Lemma clasificar_actuaciones_cons (a : Datos.Actuacion) (l : list Datos.Actuacion)
    (s : Store) :
  Datos.actuacion a <> Null -> Datos.idRegActuacion a <> Missing ->
  Main.clasificar_actuaciones respuesta_modelo json_loads (a :: l) s
  = match Main.clasificar_actuaciones respuesta_modelo json_loads l
            (fst (guardar_clasificacion_actuacion (id_de a) (clasificacion_de a) s)) with
    | (s1, Main.Hecho cs) => (s1, Main.Hecho ((a, clasificacion_de a) :: cs))
    | (s1, Main.Fallo f) => (s1, Main.Fallo f)
    end.
Proof.
  intros Hl Hi. cbn [Main.clasificar_actuaciones].
  unfold Main.luego at 1. unfold Main.llamada.
  change (clasificar_actuacion json_loads ai_service (respuesta_modelo a) a)
    with (_clasificar_actuacion_simulada a).
  rewrite (clasificar_simulada_label a Hl).
  unfold Main.luego at 1.
  assert (Hid : (match Datos.idRegActuacion a with
                 | Missing => Main.falla (Main.KeyError "idRegActuacion")
                 | Null => Main.hecho None
                 | Val k => Main.hecho (Some k)
                 end) s = (s, Main.Hecho (id_de a))).
  { unfold id_de. destruct (Datos.idRegActuacion a); [congruence | | ]; reflexivity. }
  rewrite Hid. unfold Main.luego at 1. unfold Main.servicio.
  destruct (guardar_clasificacion_actuacion_returns s (id_de a) (clasificacion_de a))
    as [r ->].
  cbn [fst]. unfold Main.luego, Main.hecho.
  now destruct (Main.clasificar_actuaciones respuesta_modelo json_loads l _)
    as [s1 [cs|f]].
Qed.

(** A record whose label is null stops the loop. *)
Lemma clasificar_actuaciones_null (a : Datos.Actuacion) (l : list Datos.Actuacion)
    (s : Store) :
  Datos.actuacion a = Null ->
  Main.clasificar_actuaciones respuesta_modelo json_loads (a :: l) s
  = (s, Main.Fallo (Main.Lanzada AttributeError)).
Proof.
  intro Hl. cbn [Main.clasificar_actuaciones].
  unfold Main.luego at 1. unfold Main.llamada.
  change (clasificar_actuacion json_loads ai_service (respuesta_modelo a) a)
    with (_clasificar_actuacion_simulada a).
  unfold _clasificar_actuacion_simulada. now rewrite Hl.
Qed.

(** What a classification writes: nothing outside the table of actions,
    and in it neither a key nor an identifier. *)
Lemma guardar_clasificacion_actuacion_frame (s : Store)
    (id_reg_actuacion : option string) (clasificacion : Datos.Clasificacion) :
  NoDup (map Actuacion.id (actuaciones s)) ->
  let s1 := fst (guardar_clasificacion_actuacion id_reg_actuacion clasificacion s) in
  map Actuacion.id (actuaciones s1) = map Actuacion.id (actuaciones s)
  /\ map Actuacion.id_reg_actuacion (actuaciones s1)
     = map Actuacion.id_reg_actuacion (actuaciones s)
  /\ empresas s1 = empresas s /\ procesos s1 = procesos s
  /\ documentos s1 = documentos s.
Proof.
  intro Hnd. cbn zeta.
  destruct (first_by Actuacion.id_reg_actuacion id_reg_actuacion (actuaciones s))
    as [r|] eqn:E.
  - rewrite (guardar_clasificacion_actuacion_found s _ clasificacion r E).
    cbn [fst con_actuacion actuaciones set_actuaciones empresas procesos documentos].
    destruct (first_by_Some _ _ _ _ E) as [Hin _]. repeat split.
    + apply update_row_ids.
    + now apply (map_update_row_same Actuacion.id Actuacion.id_reg_actuacion r).
  - rewrite (guardar_clasificacion_actuacion_absent s _ clasificacion E).
    repeat split.
Qed.

(** The loop, run to its end or not, writes nothing outside the table of
    actions, and in it neither a key nor an identifier. *)
Lemma clasificar_actuaciones_frame (l : list Datos.Actuacion) :
  forall s,
  NoDup (map Actuacion.id (actuaciones s)) ->
  Forall (fun a => Datos.idRegActuacion a <> Missing) l ->
  let s1 := fst (Main.clasificar_actuaciones respuesta_modelo json_loads l s) in
  map Actuacion.id (actuaciones s1) = map Actuacion.id (actuaciones s)
  /\ map Actuacion.id_reg_actuacion (actuaciones s1)
     = map Actuacion.id_reg_actuacion (actuaciones s)
  /\ empresas s1 = empresas s /\ procesos s1 = procesos s
  /\ documentos s1 = documentos s.
Proof.
  induction l as [|a l IH]; intros s Hnd Hids; cbn zeta.
  - repeat split.
  - apply Forall_cons_iff in Hids. destruct Hids as [Hi Hids].
    destruct (Datos.actuacion a) as [| |texto] eqn:El.
    2: { rewrite (clasificar_actuaciones_null a l s El). repeat split. }
    all: rewrite clasificar_actuaciones_cons by (assumption || congruence);
      destruct (guardar_clasificacion_actuacion_frame s (id_de a) (clasificacion_de a) Hnd)
        as (H1 & H2 & H3 & H4 & H5);
      specialize (IH (fst (guardar_clasificacion_actuacion (id_de a)
                             (clasificacion_de a) s)));
      cbn zeta in IH; rewrite H1 in IH; specialize (IH Hnd Hids);
      destruct IH as (I1 & I2 & I3 & I4 & I5);
      destruct (Main.clasificar_actuaciones respuesta_modelo json_loads l _)
        as [s1 [cs|f]]; cbn [fst] in *; repeat split; congruence.
Qed.

(** A null label anywhere in the list, all records carrying an
    identifier: the loop ends in [AttributeError]. *)
Lemma clasificar_actuaciones_raises (l : list Datos.Actuacion) :
  forall s,
  Forall (fun a => Datos.idRegActuacion a <> Missing) l ->
  Exists (fun a => Datos.actuacion a = Null) l ->
  snd (Main.clasificar_actuaciones respuesta_modelo json_loads l s)
  = Main.Fallo (Main.Lanzada AttributeError).
Proof.
  induction l as [|a l IH]; intros s Hids Hex; [inversion Hex|].
  apply Forall_cons_iff in Hids. destruct Hids as [Hi Hids].
  destruct (Datos.actuacion a) as [| |texto] eqn:El.
  2: { now rewrite (clasificar_actuaciones_null a l s El). }
  all: rewrite clasificar_actuaciones_cons by (assumption || congruence);
    apply Exists_cons in Hex; destruct Hex as [Hex|Hex]; [congruence|];
    specialize (IH (fst (guardar_clasificacion_actuacion (id_de a)
                           (clasificacion_de a) s)) Hids Hex);
    destruct (Main.clasificar_actuaciones respuesta_modelo json_loads l _)
      as [s1 [cs|f]]; cbn [snd] in *; congruence.
Qed.

(** The loop on records none of which is stored writes nothing. *)
Lemma clasificar_actuaciones_absent (l : list Datos.Actuacion) (s : Store) :
  Forall (fun a => first_by Actuacion.id_reg_actuacion (id_de a) (actuaciones s) = None) l ->
  fst (Main.clasificar_actuaciones respuesta_modelo json_loads l s) = s
  /\ (Forall (fun a => Datos.idRegActuacion a <> Missing) l ->
      Forall (fun a => Datos.actuacion a <> Null) l ->
      Main.clasificar_actuaciones respuesta_modelo json_loads l s
      = (s, Main.Hecho (map (fun a => (a, clasificacion_de a)) l))).
Proof.
  induction l as [|a l IH]; intro Habs; [split; reflexivity|].
  apply Forall_cons_iff in Habs. destruct Habs as [Ha Habs].
  destruct (IH Habs) as [I1 I2]. split.
  - cbn [Main.clasificar_actuaciones]. unfold Main.luego at 1. unfold Main.llamada.
    destruct (clasificar_actuacion json_loads ai_service (respuesta_modelo a) a);
      [|reflexivity].
    unfold Main.luego at 1.
    destruct (Datos.idRegActuacion a) as [| |k] eqn:Ei; [reflexivity | | ];
      unfold Main.hecho at 1; unfold Main.luego at 1; unfold Main.servicio;
      unfold id_de in Ha; rewrite Ei in Ha; cbn [get] in Ha;
      rewrite (guardar_clasificacion_actuacion_absent s _ _ Ha);
      unfold Main.luego, Main.hecho;
      destruct (Main.clasificar_actuaciones respuesta_modelo json_loads l s)
        as [s1 [cs|f]]; exact I1.
  - intros Hids Hls.
    apply Forall_cons_iff in Hids. destruct Hids as [Hi Hids].
    apply Forall_cons_iff in Hls. destruct Hls as [Hl Hls].
    rewrite (clasificar_actuaciones_cons a l s Hl Hi).
    rewrite (guardar_clasificacion_actuacion_absent s _ _ Ha). cbn [fst].
    now rewrite (I2 Hids Hls).
Qed.

(** The loop on stored records with distinct identifiers: every record is
    classified and its row, found by the identifier, carries the
    classification; rows of other identifiers are as they were. *)
Lemma clasificar_actuaciones_stored (l : list Datos.Actuacion) :
  forall s,
  NoDup (map id_de l) ->
  Forall (fun a => Datos.idRegActuacion a <> Missing) l ->
  Forall (fun a => Datos.actuacion a <> Null) l ->
  NoDup (map Actuacion.id (actuaciones s)) ->
  Forall (fun a => first_by Actuacion.id_reg_actuacion (id_de a) (actuaciones s) <> None) l ->
  exists s1,
    Main.clasificar_actuaciones respuesta_modelo json_loads l s
    = (s1, Main.Hecho (map (fun a => (a, clasificacion_de a)) l))
    /\ (forall a, In a l ->
          exists r,
            first_by Actuacion.id_reg_actuacion (id_de a) (actuaciones s) = Some r
            /\ first_by Actuacion.id_reg_actuacion (id_de a) (actuaciones s1)
               = Some (con_clasificacion (clasificacion_de a) r))
    /\ (forall k, ~ In k (map id_de l) ->
          first_by Actuacion.id_reg_actuacion k (actuaciones s1)
          = first_by Actuacion.id_reg_actuacion k (actuaciones s)).
Proof.
  induction l as [|a l IH]; intros s Hnd Hids Hls Hpk Hst.
  - exists s. repeat split. intros a [].
  - cbn [map] in Hnd. apply NoDup_cons_iff in Hnd. destruct Hnd as [Hfresh Hnd].
    apply Forall_cons_iff in Hids. destruct Hids as [Hi Hids].
    apply Forall_cons_iff in Hls. destruct Hls as [Hl Hls].
    apply Forall_cons_iff in Hst. destruct Hst as [Ha Hst].
    destruct (first_by Actuacion.id_reg_actuacion (id_de a) (actuaciones s))
      as [r|] eqn:Er; [clear Ha | congruence].
    destruct (first_by_Some _ _ _ _ Er) as [Hin Hk].
    rewrite (clasificar_actuaciones_cons a l s Hl Hi).
    rewrite (guardar_clasificacion_actuacion_found s _ (clasificacion_de a) r Er).
    cbn [fst]. set (r' := con_clasificacion (clasificacion_de a) r).
    assert (Hother : forall k, k <> id_de a ->
              first_by Actuacion.id_reg_actuacion k (actuaciones (con_actuacion r' s))
              = first_by Actuacion.id_reg_actuacion k (actuaciones s)).
    { intros k Hne. cbn [con_actuacion actuaciones set_actuaciones].
      apply first_by_update_row_other.
      - cbn. congruence.
      - intros x Hx Ex.
        rewrite (NoDup_map_eq Actuacion.id (actuaciones s) x r Hpk Hx Hin Ex).
        congruence. }
    destruct (IH (con_actuacion r' s) Hnd Hids Hls) as (s1 & Hloop & Hrows & Hrest).
    { cbn [con_actuacion actuaciones set_actuaciones]. now rewrite update_row_ids. }
    { rewrite Forall_forall in Hst |- *. intros b Hb. rewrite Hother; [now apply Hst|].
      intro E. apply Hfresh. rewrite <- E. now apply in_map. }
    exists s1. rewrite Hloop. split; [reflexivity|]. split.
    + intros b [<-|Hb].
      * exists r. split; [exact Er|]. rewrite (Hrest _ Hfresh).
        cbn [con_actuacion actuaciones set_actuaciones].
        now apply (first_by_update_row Actuacion.id_reg_actuacion Actuacion.id _ _ r).
      * destruct (Hrows b Hb) as (rb & H1 & H2). exists rb. split; [|exact H2].
        rewrite <- H1. symmetry. apply Hother.
        intro E. apply Hfresh. rewrite <- E. now apply in_map.
    + intros k Hnk. cbn [map In] in Hnk. rewrite Hrest by tauto.
      apply Hother. intro E. apply Hnk. left. now symmetry.
Qed.

End Clasificar.

Section DetalleProceso.

Variable fromisoformat : string -> option datetime.
Variable chat_invoke : string -> string -> outcome string.
Variable respuesta_modelo : Datos.Actuacion -> outcome string.
Variable json_loads : string -> option Datos.Clasificacion.

(** The handler, by its steps: the two writes, the summary, its write,
    and the loop. *)
Lemma detalle_proceso_steps (id_proceso : string) (detalle : Datos.Detalle)
    (fechaRadicacion : field string) (acts : Datos.Actuaciones)
    (s sa sb sc sd : Store) (x1 x3 : option Proceso.t) (x2 : list Actuacion.t)
    (resumen' : string)
    (r : Main.resultado (list (Datos.Actuacion * Datos.Clasificacion))) :
  guardar_detalle_proceso (Some id_proceso) detalle s = (sa, Returned x1) ->
  (if Main.truthy_list (Datos.actuaciones acts)
   then guardar_actuaciones fromisoformat (Some id_proceso)
          (Main.subscript_list (Datos.actuaciones acts))
   else ret []) sa = (sb, Returned x2) ->
  _generar_resumen_simulado detalle
    match get_default (Datos.actuaciones acts) [] with Some l => l | None => [] end
  = Returned resumen' ->
  guardar_resumen_proceso (Some id_proceso) resumen' sb = (sc, Returned x3) ->
  Main.clasificar_actuaciones respuesta_modelo json_loads
    (Main.subscript_list (Datos.actuaciones acts)) sc = (sd, r) ->
  Main.detalle_proceso fromisoformat chat_invoke respuesta_modelo json_loads
    id_proceso (Reply detalle) fechaRadicacion (Reply acts) s
  = (sd, match r with
         | Main.Hecho cs =>
             Main.Plantilla
               (Main.mkContextoProceso (titulo_proceso id_proceso detalle) detalle
                  resumen' cs)
         | Main.Fallo f => Main.PaginaError "Error al obtener detalles" f
         end).
Proof.
  intros H1 H2 H3 H4 H5.
  unfold Main.detalle_proceso, Main.intentar, Main.luego, Main.llamada, Main.servicio,
    Main.hecho, obtener_detalle_proceso, JudicialAPIClient.obtener_actuaciones_proceso.
  cbn [_make_request]. rewrite H1, H2.
  change (generar_resumen_proceso chat_invoke ai_service detalle fechaRadicacion
            (get_default (Datos.actuaciones acts) []))
    with (_generar_resumen_simulado detalle
            match get_default (Datos.actuaciones acts) [] with
            | Some l => l
            | None => []
            end).
  rewrite H3, H4.
  replace (if Main.truthy_list (Datos.actuaciones acts)
           then Main.clasificar_actuaciones respuesta_modelo json_loads
                  (Main.subscript_list (Datos.actuaciones acts))
           else fun s0 => (s0, Main.Hecho []))
    with (Main.clasificar_actuaciones respuesta_modelo json_loads
            (Main.subscript_list (Datos.actuaciones acts))).
  - rewrite H5. now destruct r.
  - destruct (Main.truthy_list (Datos.actuaciones acts)) eqn:Ht; [reflexivity|].
    now rewrite (truthy_list_false _ Ht).
Qed.

Lemma guardar_actuaciones_absent (id_proceso_api : option string)
    (acts : list Datos.Actuacion) (s : Store) :
  first_by Proceso.id_proceso_api id_proceso_api (procesos s) = None ->
  guardar_actuaciones fromisoformat id_proceso_api acts s = (s, Returned []).
Proof.
  intro H. unfold guardar_actuaciones, bind, query, ret. now rewrite H.
Qed.

(** The write of the actions in the handler, on a stored process. *)
Lemma paso_actuaciones (id_proceso_api : option string) (proceso : Proceso.t)
    (fld : field (list Datos.Actuacion)) (s : Store) :
  first_by Proceso.id_proceso_api id_proceso_api (procesos s) = Some proceso ->
  NoDup (map id_de (Main.subscript_list fld)) ->
  Forall (fun a => cabe a = true) (pendientes (actuaciones s) (Main.subscript_list fld)) ->
  exists nuevas rows,
    (if Main.truthy_list fld
     then guardar_actuaciones fromisoformat id_proceso_api (Main.subscript_list fld)
     else ret []) s
    = (set_actuaciones (actuaciones s ++ nuevas) s, Returned rows)
    /\ Forall2 (fun a row =>
          first_by Actuacion.id_reg_actuacion (id_de a) (actuaciones s ++ nuevas)%list
          = Some row
          /\ match first_by Actuacion.id_reg_actuacion (id_de a) (actuaciones s) with
             | Some r => row = r
             | None => In row nuevas /\ fetched fromisoformat proceso a row
             end) (Main.subscript_list fld) rows
    /\ Forall (fun r =>
          In (Actuacion.id_reg_actuacion r) (map id_de (Main.subscript_list fld))
          /\ first_by Actuacion.id_reg_actuacion (Actuacion.id_reg_actuacion r)
               (actuaciones s) = None) nuevas
    /\ (NoDup (map Actuacion.id (actuaciones s)) ->
        NoDup (map Actuacion.id (actuaciones s ++ nuevas)%list)).
Proof.
  intros Hp Hnd Hcabe. destruct (Main.truthy_list fld) eqn:Ht.
  - destruct (guardar_actuaciones_appends fromisoformat s id_proceso_api proceso _
                Hp Hnd Hcabe)
      as (nuevas & rows & Hg & Hrows & Hnew & _).
    exists nuevas, rows. repeat split; try assumption.
    intro Hpk. apply (guardar_actuaciones_ids _ _ _ _ _ _ Hg) in Hpk. exact Hpk.
  - rewrite (truthy_list_false _ Ht). exists [], []. repeat split; try constructor.
    + unfold ret. rewrite app_nil_r. now destruct s.
    + now rewrite app_nil_r.
Qed.

(** The store the loop of [detalle_proceso] starts from, on a stored
    process: the row of the process with the detail and the summary, and
    the actions of the answer stored. *)
Lemma detalle_proceso_before_loop (id_proceso : string) (detalle : Datos.Detalle)
    (fechaRadicacion : field string) (acts : Datos.Actuaciones) (s : Store)
    (p : Proceso.t) :
  first_by Proceso.id_proceso_api (Some id_proceso) (procesos s) = Some p ->
  Datos.demandantes detalle <> Null -> Datos.demandados detalle <> Null ->
  NoDup (map id_de (Main.subscript_list (Datos.actuaciones acts))) ->
  Forall (fun a => cabe a = true)
    (pendientes (actuaciones s) (Main.subscript_list (Datos.actuaciones acts))) ->
  exists sc nuevas rows,
    (forall sd r,
       Main.clasificar_actuaciones respuesta_modelo json_loads
         (Main.subscript_list (Datos.actuaciones acts)) sc = (sd, r) ->
       Main.detalle_proceso fromisoformat chat_invoke respuesta_modelo json_loads
         id_proceso (Reply detalle) fechaRadicacion (Reply acts) s
       = (sd, match r with
              | Main.Hecho cs =>
                  Main.Plantilla
                    (Main.mkContextoProceso (titulo_proceso id_proceso detalle) detalle
                       (resumen_de detalle) cs)
              | Main.Fallo f => Main.PaginaError "Error al obtener detalles" f
              end))
    /\ first_by Proceso.id_proceso_api (Some id_proceso) (procesos sc)
       = Some (Proceso.set_resumen_generado (Some (resumen_de detalle))
                 (con_detalle detalle p))
    /\ List.length (procesos sc) = List.length (procesos s)
    /\ actuaciones sc = (actuaciones s ++ nuevas)%list
    /\ empresas sc = empresas s /\ documentos sc = documentos s
    /\ Forall2 (fun a row =>
          first_by Actuacion.id_reg_actuacion (id_de a) (actuaciones s ++ nuevas)%list
          = Some row
          /\ match first_by Actuacion.id_reg_actuacion (id_de a) (actuaciones s) with
             | Some r => row = r
             | None => In row nuevas /\ fetched fromisoformat p a row
             end) (Main.subscript_list (Datos.actuaciones acts)) rows
    /\ Forall (fun r =>
          In (Actuacion.id_reg_actuacion r)
            (map id_de (Main.subscript_list (Datos.actuaciones acts)))
          /\ first_by Actuacion.id_reg_actuacion (Actuacion.id_reg_actuacion r)
               (actuaciones s) = None) nuevas
    /\ (NoDup (map Actuacion.id (actuaciones s)) ->
        NoDup (map Actuacion.id (actuaciones sc))).
Proof.
  intros Hp Hn1 Hn2 Hnd Hcabe.
  destruct (first_by_Some _ _ _ _ Hp) as [Hin Hk].
  destruct (con_detalle_keys detalle p) as [Hid Hapi].
  set (pa := con_detalle detalle p).
  assert (Hpa : first_by Proceso.id_proceso_api (Some id_proceso)
                  (procesos (con_proceso pa s)) = Some pa).
  { cbn [con_proceso procesos set_procesos].
    apply (first_by_update_row Proceso.id_proceso_api Proceso.id _ _ p);
      [assumption | unfold pa; congruence | assumption]. }
  destruct (paso_actuaciones (Some id_proceso) pa (Datos.actuaciones acts)
              (con_proceso pa s) Hpa Hnd Hcabe)
    as (nuevas & rows & Hg & Hrows & Hnew & Hpk).
  set (sb := set_actuaciones (actuaciones (con_proceso pa s) ++ nuevas) (con_proceso pa s))
    in *.
  set (pc := Proceso.set_resumen_generado (Some (resumen_de detalle)) pa).
  exists (con_proceso pc sb), nuevas, rows. split; [|repeat split].
  - intros sd r Hloop.
    apply (detalle_proceso_steps id_proceso detalle fechaRadicacion acts s
             (con_proceso pa s) sb (con_proceso pc sb) sd (Some pa) (Some pc) rows
             (resumen_de detalle) r).
    + now apply guardar_detalle_proceso_found.
    + exact Hg.
    + now apply generar_resumen_simulado_de.
    + now apply guardar_resumen_proceso_found.
    + exact Hloop.
  - cbn [con_proceso procesos set_procesos sb set_actuaciones].
    apply (first_by_update_row Proceso.id_proceso_api Proceso.id _ _ pa);
      [exact Hpa | cbn; unfold pa; congruence | reflexivity].
  - cbn [con_proceso procesos set_procesos sb set_actuaciones].
    now rewrite !update_row_length.
  - eapply Forall2_impl; [|exact Hrows]. cbn beta. intros a row [H1 H2].
    split; [exact H1|]. cbn [con_proceso actuaciones set_procesos] in H2.
    destruct (first_by Actuacion.id_reg_actuacion (id_de a) (actuaciones s));
      [exact H2|].
    destruct H2 as [H2 H3]. split; [exact H2|].
    apply (fetched_id fromisoformat pa p); [exact Hid | exact H3].
  - exact Hnew.
  - exact Hpk.
Qed.

(** X14. [detalle_proceso] for a process that is not stored, answered by
    the registry with actions none of which is stored, writes nothing:
    the store after the request is the store before it, whether the page
    or the error page is shown. When the two name entries of the detail
    are not null and every action has an identifier and a label that is
    not null, the page is shown, with the summary and the classification
    of every action, none of them kept. *)
Theorem detalle_proceso_unknown (id_proceso : string) (detalle : Datos.Detalle)
    (fechaRadicacion : field string) (acts : Datos.Actuaciones) (s : Store) :
  first_by Proceso.id_proceso_api (Some id_proceso) (procesos s) = None ->
  Forall (fun a => first_by Actuacion.id_reg_actuacion (id_de a) (actuaciones s) = None)
    (Main.subscript_list (Datos.actuaciones acts)) ->
  fst (Main.detalle_proceso fromisoformat chat_invoke respuesta_modelo json_loads
         id_proceso (Reply detalle) fechaRadicacion (Reply acts) s) = s
  /\ (Datos.demandantes detalle <> Null -> Datos.demandados detalle <> Null ->
      Forall (fun a => Datos.idRegActuacion a <> Missing)
        (Main.subscript_list (Datos.actuaciones acts)) ->
      Forall (fun a => Datos.actuacion a <> Null)
        (Main.subscript_list (Datos.actuaciones acts)) ->
      Main.detalle_proceso fromisoformat chat_invoke respuesta_modelo json_loads
        id_proceso (Reply detalle) fechaRadicacion (Reply acts) s
      = (s, Main.Plantilla
              (Main.mkContextoProceso (titulo_proceso id_proceso detalle) detalle
                 (resumen_de detalle)
                 (clasificadas (Main.subscript_list (Datos.actuaciones acts)))))).
Proof.
  intros Hp Habs.
  destruct (clasificar_actuaciones_absent respuesta_modelo json_loads _ s Habs)
    as [Hfst Hloop].
  assert (Hacts : (if Main.truthy_list (Datos.actuaciones acts)
                   then guardar_actuaciones fromisoformat (Some id_proceso)
                          (Main.subscript_list (Datos.actuaciones acts))
                   else ret []) s = (s, Returned [])).
  { destruct (Main.truthy_list (Datos.actuaciones acts)); [|reflexivity].
    now apply guardar_actuaciones_absent. }
  split.
  - destruct (_generar_resumen_simulado detalle
                match get_default (Datos.actuaciones acts) [] with
                | Some l => l
                | None => []
                end) as [texto|e] eqn:Er.
    + destruct (Main.clasificar_actuaciones respuesta_modelo json_loads
                  (Main.subscript_list (Datos.actuaciones acts)) s) as [sd r] eqn:El.
      rewrite (detalle_proceso_steps id_proceso detalle fechaRadicacion acts s s s s sd
                 None None [] texto r
                 (guardar_detalle_proceso_absent s _ detalle Hp) Hacts Er
                 (guardar_resumen_proceso_absent s _ texto Hp) El).
      exact Hfst.
    + unfold Main.detalle_proceso, Main.intentar, Main.luego, Main.llamada,
        Main.servicio, Main.hecho, obtener_detalle_proceso,
        JudicialAPIClient.obtener_actuaciones_proceso.
      cbn [_make_request].
      rewrite (guardar_detalle_proceso_absent s _ detalle Hp), Hacts.
      change (generar_resumen_proceso chat_invoke ai_service detalle fechaRadicacion
                (get_default (Datos.actuaciones acts) []))
        with (_generar_resumen_simulado detalle
                match get_default (Datos.actuaciones acts) [] with
                | Some l => l
                | None => []
                end).
      now rewrite Er.
  - intros Hn1 Hn2 Hids Hls.
    exact (detalle_proceso_steps id_proceso detalle fechaRadicacion acts s s s s s
             None None [] (resumen_de detalle)
             (Main.Hecho (clasificadas (Main.subscript_list (Datos.actuaciones acts))))
             (guardar_detalle_proceso_absent s _ detalle Hp) Hacts
             (generar_resumen_simulado_de detalle _ Hn1 Hn2)
             (guardar_resumen_proceso_absent s _ _ Hp) (Hloop Hids Hls)).
Qed.

(** X15. [detalle_proceso] on a stored process, when the two name
    entries of the detail are not null, the actions of the answer have
    distinct identifiers and labels that are not null, those not stored
    yet carry a sequence number that fits a signed integer of 64 bits,
    and the primary keys of the stored actions are distinct: the page is
    shown with the
    template summary and the classification of every action of the
    answer. Afterwards the row of the process carries the detail and that
    summary; every action of the answer is found by its identifier, the
    row being the one stored before, or a new row with the fetched
    fields, with the classification shown on the page written over
    whatever classification it had; an action the answer does not name is
    as it was; no process or party is added and no document written. *)
Theorem detalle_proceso_stored (id_proceso : string) (detalle : Datos.Detalle)
    (fechaRadicacion : field string) (acts : Datos.Actuaciones) (s : Store)
    (p : Proceso.t) :
  first_by Proceso.id_proceso_api (Some id_proceso) (procesos s) = Some p ->
  Datos.demandantes detalle <> Null -> Datos.demandados detalle <> Null ->
  NoDup (map id_de (Main.subscript_list (Datos.actuaciones acts))) ->
  Forall (fun a => cabe a = true)
    (pendientes (actuaciones s) (Main.subscript_list (Datos.actuaciones acts))) ->
  Forall (fun a => Datos.idRegActuacion a <> Missing)
    (Main.subscript_list (Datos.actuaciones acts)) ->
  Forall (fun a => Datos.actuacion a <> Null)
    (Main.subscript_list (Datos.actuaciones acts)) ->
  NoDup (map Actuacion.id (actuaciones s)) ->
  exists s1,
    Main.detalle_proceso fromisoformat chat_invoke respuesta_modelo json_loads
      id_proceso (Reply detalle) fechaRadicacion (Reply acts) s
    = (s1, Main.Plantilla
             (Main.mkContextoProceso (titulo_proceso id_proceso detalle) detalle
                (resumen_de detalle)
                (clasificadas (Main.subscript_list (Datos.actuaciones acts)))))
    /\ first_by Proceso.id_proceso_api (Some id_proceso) (procesos s1)
       = Some (Proceso.set_resumen_generado (Some (resumen_de detalle))
                 (con_detalle detalle p))
    /\ (forall a, In a (Main.subscript_list (Datos.actuaciones acts)) ->
          exists r,
            first_by Actuacion.id_reg_actuacion (id_de a) (actuaciones s1)
            = Some (con_clasificacion (clasificacion_de a) r)
            /\ match first_by Actuacion.id_reg_actuacion (id_de a) (actuaciones s) with
               | Some r0 => r = r0
               | None => fetched fromisoformat p a r
               end)
    /\ (forall k, ~ In k (map id_de (Main.subscript_list (Datos.actuaciones acts))) ->
          first_by Actuacion.id_reg_actuacion k (actuaciones s1)
          = first_by Actuacion.id_reg_actuacion k (actuaciones s))
    /\ List.length (procesos s1) = List.length (procesos s)
    /\ empresas s1 = empresas s
    /\ documentos s1 = documentos s.
Proof.
  intros Hp Hn1 Hn2 Hnd Hcabe Hids Hls Hpk.
  destruct (detalle_proceso_before_loop id_proceso detalle fechaRadicacion acts s p
              Hp Hn1 Hn2 Hnd Hcabe)
    as (sc & nuevas & rows & Hroute & Hrow & Hlen & Hacts & Hemp & Hdoc & Hrows & Hnew
        & Hpkc).
  specialize (Hpkc Hpk).
  assert (Hst : Forall (fun a =>
                  first_by Actuacion.id_reg_actuacion (id_de a) (actuaciones sc) <> None)
                  (Main.subscript_list (Datos.actuaciones acts))).
  { rewrite Forall_forall. intros a Ha.
    destruct (Forall2_In_l _ _ _ a Hrows Ha) as [row [_ [H1 _]]].
    rewrite Hacts, H1. discriminate. }
  destruct (clasificar_actuaciones_stored respuesta_modelo json_loads _ sc
              Hnd Hids Hls Hpkc Hst) as (s1 & Hloop & Hcls & Hrest).
  pose proof (clasificar_actuaciones_frame respuesta_modelo json_loads _ sc Hpkc Hids)
    as Hframe.
  cbn zeta in Hframe. rewrite Hloop in Hframe. cbn [fst] in Hframe.
  destruct Hframe as (_ & _ & Fe & Fp & Fd).
  exists s1. split; [exact (Hroute s1 _ Hloop)|]. repeat split.
  - now rewrite Fp.
  - intros a Ha. destruct (Hcls a Ha) as (r & H1 & H2). exists r.
    split; [exact H2|].
    destruct (Forall2_In_l _ _ _ a Hrows Ha) as [row [_ [H3 H4]]].
    rewrite Hacts, H3 in H1. injection H1 as ->.
    destruct (first_by Actuacion.id_reg_actuacion (id_de a) (actuaciones s));
      [exact H4 | exact (proj2 H4)].
  - intros k Hk. rewrite (Hrest k Hk), Hacts, first_by_app.
    destruct (first_by Actuacion.id_reg_actuacion k (actuaciones s)) eqn:E;
      [reflexivity|].
    apply first_by_None. intros r Hr Er. rewrite Forall_forall in Hnew.
    destruct (Hnew r Hr) as [Hin _]. apply Hk. now rewrite <- Er.
  - now rewrite Fp.
  - now rewrite Fe.
  - now rewrite Fd.
Qed.

(** X16. [detalle_proceso] is not atomic. On a stored process, with name
    entries that are not null and actions with distinct identifiers, of
    which those not stored yet carry a sequence number that fits a signed
    integer of 64 bits and one has a null label: the error page is shown
    with
    [AttributeError], and yet the detail and the summary are on the row
    of the process and every action of the answer is stored. *)
Theorem detalle_proceso_null_label (id_proceso : string) (detalle : Datos.Detalle)
    (fechaRadicacion : field string) (acts : Datos.Actuaciones) (s : Store)
    (p : Proceso.t) :
  first_by Proceso.id_proceso_api (Some id_proceso) (procesos s) = Some p ->
  Datos.demandantes detalle <> Null -> Datos.demandados detalle <> Null ->
  NoDup (map id_de (Main.subscript_list (Datos.actuaciones acts))) ->
  Forall (fun a => cabe a = true)
    (pendientes (actuaciones s) (Main.subscript_list (Datos.actuaciones acts))) ->
  Forall (fun a => Datos.idRegActuacion a <> Missing)
    (Main.subscript_list (Datos.actuaciones acts)) ->
  Exists (fun a => Datos.actuacion a = Null)
    (Main.subscript_list (Datos.actuaciones acts)) ->
  NoDup (map Actuacion.id (actuaciones s)) ->
  exists s1,
    Main.detalle_proceso fromisoformat chat_invoke respuesta_modelo json_loads
      id_proceso (Reply detalle) fechaRadicacion (Reply acts) s
    = (s1, Main.PaginaError "Error al obtener detalles" (Main.Lanzada AttributeError))
    /\ first_by Proceso.id_proceso_api (Some id_proceso) (procesos s1)
       = Some (Proceso.set_resumen_generado (Some (resumen_de detalle))
                 (con_detalle detalle p))
    /\ (forall a, In a (Main.subscript_list (Datos.actuaciones acts)) ->
          In (id_de a) (map Actuacion.id_reg_actuacion (actuaciones s1)))
    /\ (List.length (actuaciones s) <= List.length (actuaciones s1))%nat.
Proof.
  intros Hp Hn1 Hn2 Hnd Hcabe Hids Hex Hpk.
  destruct (detalle_proceso_before_loop id_proceso detalle fechaRadicacion acts s p
              Hp Hn1 Hn2 Hnd Hcabe)
    as (sc & nuevas & rows & Hroute & Hrow & Hlen & Hacts & Hemp & Hdoc & Hrows & Hnew
        & Hpkc).
  specialize (Hpkc Hpk).
  pose proof (clasificar_actuaciones_raises respuesta_modelo json_loads _ sc Hids Hex)
    as Hr.
  pose proof (clasificar_actuaciones_frame respuesta_modelo json_loads _ sc Hpkc Hids)
    as Hframe.
  cbn zeta in Hframe.
  specialize (Hroute _ _ (surjective_pairing _)).
  destruct (Main.clasificar_actuaciones respuesta_modelo json_loads
              (Main.subscript_list (Datos.actuaciones acts)) sc) as [s1 r].
  cbn [fst snd] in *. subst r. destruct Hframe as (F1 & F2 & _ & Fp & _).
  exists s1. split; [exact Hroute|]. repeat split.
  - now rewrite Fp.
  - intros a Ha. rewrite F2, Hacts.
    destruct (Forall2_In_l _ _ _ a Hrows Ha) as [row [_ [H1 _]]].
    apply first_by_Some in H1. destruct H1 as [Hin <-]. now apply in_map.
  - rewrite <- (length_map Actuacion.id (actuaciones s1)), F1, length_map, Hacts,
      length_app. lia.
Qed.

End DetalleProceso.

(** X14 on the example store: a process nobody searched for. *)
Lemma detalle_proceso_unknown_witness :
  Main.detalle_proceso sin_isoformat sin_modelo sin_respuesta sin_json "P9"
    (Reply Ejemplo.detalle_ejemplo) Missing
    (Reply (Datos.mkActuaciones (Val [Ejemplo.acta "A9" "Fija fecha de audiencia"])))
    Ejemplo.almacen
  = (Ejemplo.almacen,
     Main.Plantilla
       (Main.mkContextoProceso "Proceso 11001400300320230051800" Ejemplo.detalle_ejemplo
          (resumen_de Ejemplo.detalle_ejemplo)
          [(Ejemplo.acta "A9" "Fija fecha de audiencia", es_audiencia)])).
Proof.
  refine (proj2 (detalle_proceso_unknown sin_isoformat sin_modelo sin_respuesta sin_json
                   "P9" Ejemplo.detalle_ejemplo Missing
                   (Datos.mkActuaciones (Val [Ejemplo.acta "A9" "Fija fecha de audiencia"]))
                   Ejemplo.almacen eq_refl _) _ _ _ _).
  - constructor; [reflexivity | constructor].
  - discriminate.
  - discriminate.
  - constructor; [discriminate | constructor].
  - constructor; [discriminate | constructor].
Defined.

(** X15 on the example store: P1 with its stored action and a new one. *)
Lemma detalle_proceso_stored_witness :
  exists s1 r,
    fst (Main.detalle_proceso sin_isoformat sin_modelo sin_respuesta sin_json "P1"
           (Reply Ejemplo.detalle_ejemplo) Missing (Reply Ejemplo.actuaciones_P1)
           Ejemplo.almacen) = s1
    /\ first_by Actuacion.id_reg_actuacion (Some "A2") (actuaciones s1)
       = Some (con_clasificacion es_audiencia r)
    /\ Actuacion.actuacion r = Some "Fija fecha de audiencia".
Proof.
  assert (Hnd : NoDup (map id_de [Ejemplo.acta "A1" "Auto admite demanda";
                                  Ejemplo.acta "A2" "Fija fecha de audiencia"])).
  { constructor; [|constructor; [intros []|constructor]].
    intros [E|[]]. discriminate. }
  destruct (detalle_proceso_stored sin_isoformat sin_modelo sin_respuesta sin_json "P1"
              Ejemplo.detalle_ejemplo Missing Ejemplo.actuaciones_P1 Ejemplo.almacen
              Ejemplo.proceso_P1 eq_refl)
    as (s1 & H1 & _ & H3 & _).
  - discriminate.
  - discriminate.
  - exact Hnd.
  - constructor; [reflexivity | constructor].
  - repeat constructor; discriminate.
  - repeat constructor; discriminate.
  - constructor; [intros [] | constructor].
  - destruct (H3 (Ejemplo.acta "A2" "Fija fecha de audiencia")) as (r & Hr & Hf).
    { right. now left. }
    exists s1, r. split; [now rewrite H1|]. split; [exact Hr|].
    destruct Hf as (_ & _ & _ & Hlabel & _). exact Hlabel.
Defined.

(** X16 on the example store: the third action of the answer has a null
    label. *)
Lemma detalle_proceso_null_label_witness :
  exists s1,
    Main.detalle_proceso sin_isoformat sin_modelo sin_respuesta sin_json "P1"
      (Reply Ejemplo.detalle_ejemplo) Missing (Reply Ejemplo.actuaciones_P1_nula)
      Ejemplo.almacen
    = (s1, Main.PaginaError "Error al obtener detalles" (Main.Lanzada AttributeError))
    /\ In (Some "A7") (map Actuacion.id_reg_actuacion (actuaciones s1)).
Proof.
  destruct (detalle_proceso_null_label sin_isoformat sin_modelo sin_respuesta sin_json
              "P1" Ejemplo.detalle_ejemplo Missing Ejemplo.actuaciones_P1_nula
              Ejemplo.almacen Ejemplo.proceso_P1 eq_refl)
    as (s1 & H1 & _ & H3 & _).
  - discriminate.
  - discriminate.
  - repeat constructor; cbn; intuition discriminate.
  - repeat constructor.
  - repeat constructor; discriminate.
  - right. right. now left.
  - constructor; [intros [] | constructor].
  - exists s1. split; [exact H1|].
    apply (H3 (Ejemplo.acta_con_texto Null)). right. right. now left.
Defined.

(** ** When [guardar_actuaciones] raises *)

Lemma confirmar_length (l : list guardada) :
  forall cur tbl rows,
  confirmar cur l = Returned (tbl, rows) -> List.length rows = List.length l.
Proof.
  induction l as [|[a|a] l IH]; intros cur tbl rows; cbn [confirmar].
  - intro H. now injection H as _ <-.
  - destruct (confirmar cur l) as [[tbl' rows']|e] eqn:E; [|discriminate].
    intro H. injection H as _ <-. cbn. f_equal. now apply (IH cur tbl').
  - destruct (negb _); [discriminate|].
    destruct (unique_ok _ _ _); [|discriminate].
    match goal with
    | |- context [confirmar (cur ++ [?row])%list l] =>
        destruct (confirmar (cur ++ [row])%list l) as [[tbl' rows']|e] eqn:E;
          [|discriminate]
    end.
    intro H. injection H as _ <-. cbn. f_equal. exact (IH _ _ _ E).
Qed.

(** A record to insert whose sequence number does not fit: the commit
    fails, on that INSERT or on an earlier one. *)
Lemma confirmar_fails (fromisoformat : string -> option datetime) (proceso : Proceso.t)
    (tbl0 : list Actuacion.t) (acts : list Datos.Actuacion) :
  forall cur : list Actuacion.t,
  Exists (fun a => cabe a = false) (pendientes tbl0 acts) ->
  exists e,
    confirmar cur (map (guardada_de fromisoformat proceso tbl0) acts) = Raised e
    /\ (e = IntegrityError \/ e = OverflowError).
Proof.
  induction acts as [|a acts IH]; intros cur Hex; [inversion Hex|].
  cbn [pendientes filter] in Hex. fold (pendientes tbl0 acts) in Hex.
  cbn [map]. unfold guardada_de at 1.
  destruct (first_by Actuacion.id_reg_actuacion (id_de a) tbl0) as [r|] eqn:E0.
  - cbn [confirmar]. destruct (IH cur Hex) as (e & -> & He). eauto.
  - cbn [confirmar pendiente_de Actuacion.id_reg_actuacion Actuacion.cons_actuacion].
    change (sqlite_integer_ok (get (Datos.consActuacion a))) with (cabe a).
    destruct (cabe a) eqn:Ha; cbn [negb]; [|eauto].
    destruct (unique_ok _ _ _); [|eauto].
    apply Exists_cons in Hex. destruct Hex as [Hex|Hex]; [congruence|].
    match goal with
    | |- context [confirmar (cur ++ [?row])%list _] =>
        destruct (IH (cur ++ [row])%list Hex) as (e & -> & He); eauto
    end.
Qed.

(** X17. On a stored process, what [guardar_actuaciones] does is decided
    by the records it has to insert, those whose identifier is not
    stored; records that repeat a stored identifier, or that have none,
    do not make it fail. When the identifiers to insert that are not null
    are distinct and every sequence number to insert fits a signed integer
    of 64 bits, the call returns, with one row per record. When an
    identifier to insert is repeated and the sequence numbers fit, it
    raises [IntegrityError]; when the identifiers are distinct and a
    sequence number does not fit, it raises [OverflowError]; when both
    happen it raises one of the two. Whenever it raises the store is as
    before. *)
Theorem guardar_actuaciones_raises_iff (fromisoformat : string -> option datetime)
    (s : Store) (id_proceso_api : option string) (proceso : Proceso.t)
    (acts : list Datos.Actuacion) :
  first_by Proceso.id_proceso_api id_proceso_api (procesos s) = Some proceso ->
  (NoDup (ids_pendientes (actuaciones s) acts) ->
   Forall (fun a => cabe a = true) (pendientes (actuaciones s) acts) ->
   exists s1 rows,
     guardar_actuaciones fromisoformat id_proceso_api acts s = (s1, Returned rows)
     /\ List.length rows = List.length acts)
  /\ (~ NoDup (ids_pendientes (actuaciones s) acts) ->
      Forall (fun a => cabe a = true) (pendientes (actuaciones s) acts) ->
      guardar_actuaciones fromisoformat id_proceso_api acts s
      = (s, Raised IntegrityError))
  /\ (NoDup (ids_pendientes (actuaciones s) acts) ->
      Exists (fun a => cabe a = false) (pendientes (actuaciones s) acts) ->
      guardar_actuaciones fromisoformat id_proceso_api acts s
      = (s, Raised OverflowError))
  /\ (Exists (fun a => cabe a = false) (pendientes (actuaciones s) acts) ->
      guardar_actuaciones fromisoformat id_proceso_api acts s
      = (s, Raised IntegrityError)
      \/ guardar_actuaciones fromisoformat id_proceso_api acts s
         = (s, Raised OverflowError)).
Proof.
  intro Hp.
  unfold guardar_actuaciones, bind, query, lift, raise. rewrite Hp, recorrer_eq.
  split; [|split; [|split]].
  - intros Hnd Hcabe.
    destruct (confirmar_returns fromisoformat proceso (actuaciones s) acts (actuaciones s)
                [] (al_dia_refl _) Hnd (fun k _ H => H) Hcabe)
      as (nuevas & rows & Hc & _).
    rewrite Hc. eexists _, rows. split; [reflexivity|].
    rewrite (confirmar_length _ _ _ _ Hc). apply length_map.
  - intros Hdup Hcabe.
    rewrite (confirmar_refused fromisoformat proceso (actuaciones s) acts (actuaciones s)
               [] (al_dia_refl _) Hcabe); [reflexivity|].
    intros [Hnd _]. exact (Hdup Hnd).
  - intros Hnd Hex.
    now rewrite (confirmar_overflow fromisoformat proceso (actuaciones s) acts
                   (actuaciones s) [] (al_dia_refl _) Hnd (fun k _ H => H) Hex).
  - intro Hex.
    destruct (confirmar_fails fromisoformat proceso (actuaciones s) acts (actuaciones s)
                Hex) as (e & -> & [->| ->]); [left | right]; reflexivity.
Qed.

(** X17 on the example store: A1 is stored and named twice, A2 is new
    and named once. *)
Lemma guardar_actuaciones_raises_iff_witness :
  exists s1 rows,
    guardar_actuaciones sin_isoformat (Some "P1")
      [Ejemplo.acta "A1" "Auto admite demanda"; Ejemplo.acta "A2" "Sentencia";
       Ejemplo.acta "A1" "Auto admite demanda"]
      Ejemplo.almacen = (s1, Returned rows)
    /\ List.length rows = 3%nat.
Proof.
  refine (proj1 (guardar_actuaciones_raises_iff sin_isoformat Ejemplo.almacen (Some "P1")
                   Ejemplo.proceso_P1
                   [Ejemplo.acta "A1" "Auto admite demanda"; Ejemplo.acta "A2" "Sentencia";
                    Ejemplo.acta "A1" "Auto admite demanda"] eq_refl) _ _).
  - constructor; [intros [] | constructor].
  - constructor; [reflexivity | constructor].
Defined.

(** ** [detalle_actuacion] *)

(** X18. [detalle_actuacion], once the registry has answered: for an
    action that is not stored the page is shown with the documents of
    the answer and nothing is written; for a stored action and documents
    with distinct identifiers the page is shown, the table of documents
    grows by rows linked to the action, every document of the answer is
    then stored, and the other tables are as before. *)
Theorem detalle_actuacion_page (fromisoformat : string -> option datetime)
    (id_actuacion : string) (documentos' : Datos.Documentos) (s : Store) :
  (first_by Actuacion.id_reg_actuacion (Some id_actuacion) (actuaciones s) = None ->
   Main.detalle_actuacion fromisoformat id_actuacion (Reply documentos') s
   = (s, Main.Plantilla
           (Main.mkContextoActuacion (titulo_actuacion id_actuacion) documentos')))
  /\ (forall actuacion,
        first_by Actuacion.id_reg_actuacion (Some id_actuacion) (actuaciones s)
        = Some actuacion ->
        NoDup (map id_doc (Main.subscript_list (Datos.documentos documentos'))) ->
        exists nuevos,
          Main.detalle_actuacion fromisoformat id_actuacion (Reply documentos') s
          = (set_documentos (documentos s ++ nuevos) s,
             Main.Plantilla
               (Main.mkContextoActuacion (titulo_actuacion id_actuacion) documentos'))
          /\ Forall (fun r => Documento.actuacion_id r = Actuacion.id actuacion) nuevos
          /\ forall d, In d (Main.subscript_list (Datos.documentos documentos')) ->
               In (id_doc d)
                 (map Documento.id_reg_documento (documentos s ++ nuevos)%list)).
Proof.
  unfold Main.detalle_actuacion, Main.intentar, Main.luego, Main.llamada, Main.servicio,
    Main.hecho, JudicialAPIClient.obtener_documentos_actuacion.
  cbn [_make_request]. split.
  - intro Ha. destruct (Main.truthy_list (Datos.documentos documentos')); [|reflexivity].
    unfold guardar_documentos, bind, query, ret. now rewrite Ha.
  - intros actuacion Ha Hnd.
    destruct (Main.truthy_list (Datos.documentos documentos')) eqn:Ht.
    + destruct (guardar_documentos_loop fromisoformat (documentos s) actuacion _
                  (documentos s) Hnd)
        as (l & nuevos & rows & Hl & Hc & Hrows & Hnew); [reflexivity|].
      exists nuevos. unfold guardar_documentos, bind, query, lift, raise, ret.
      rewrite Ha, Hl, Hc. split; [reflexivity|]. split.
      * eapply Forall_impl; [|exact Hnew]. cbn beta. tauto.
      * intros d Hd. destruct (Forall2_In_l _ _ _ d Hrows Hd) as [row [Hrow [H1 H2]]].
        rewrite <- H1. apply in_map. rewrite Forall_forall in Hnew.
        destruct (first_by Documento.id_reg_documento (id_doc d) (documentos s))
          as [r0|] eqn:E.
        -- subst r0. apply in_or_app. left. now apply first_by_Some in E.
        -- apply in_or_app. now right.
    + rewrite (truthy_list_false _ Ht). exists []. unfold ret. rewrite app_nil_r.
      split; [now destruct s|]. split; [constructor | intros d []].
Qed.

(** X18 on the example store: two documents for the stored action A1. *)
Lemma detalle_actuacion_page_witness :
  exists nuevos,
    Main.detalle_actuacion sin_isoformat "A1"
      (Reply (Datos.mkDocumentos
                (Val [Ejemplo.documento_D "D1" Missing; Ejemplo.documento_D "D2" Missing])))
      Ejemplo.almacen
    = (set_documentos nuevos Ejemplo.almacen,
       Main.Plantilla
         (Main.mkContextoActuacion (titulo_actuacion "A1")
            (Datos.mkDocumentos
               (Val [Ejemplo.documento_D "D1" Missing; Ejemplo.documento_D "D2" Missing]))))
    /\ List.length nuevos = 2%nat.
Proof.
  destruct (proj2 (detalle_actuacion_page sin_isoformat "A1"
                     (Datos.mkDocumentos
                        (Val [Ejemplo.documento_D "D1" Missing;
                              Ejemplo.documento_D "D2" Missing]))
                     Ejemplo.almacen) Ejemplo.actuacion_A1 eq_refl)
    as (nuevos & H1 & _).
  - constructor; [|constructor; [intros []|constructor]].
    intros [E|[]]. discriminate.
  - exists nuevos. split; [exact H1|].
    apply (f_equal (fun x => List.length (documentos (fst x)))) in H1.
    cbn in H1. symmetry. exact H1.
Defined.

(** X8 on the example store: identifiers nobody stored. *)
Lemma guardar_sin_padre_witness :
  guardar_actuaciones sin_isoformat (Some "P9")
    [Ejemplo.acta "A2" "Sentencia"; Ejemplo.acta "A2" "Sentencia"] Ejemplo.almacen
  = (Ejemplo.almacen, Returned [])
  /\ guardar_documentos sin_isoformat (Some "A9")
       [Ejemplo.documento_D "D1" Missing; Ejemplo.documento_D "D1" Missing] Ejemplo.almacen
     = (Ejemplo.almacen, Returned []).
Proof.
  split.
  - apply (proj1 (guardar_sin_padre sin_isoformat Ejemplo.almacen (Some "P9"))).
    reflexivity.
  - apply (proj2 (guardar_sin_padre sin_isoformat Ejemplo.almacen (Some "A9"))).
    reflexivity.
Defined.

(** X11 on the example store: the query of the actions is refused. *)
Lemma registro_sin_respuesta_witness :
  Main.detalle_proceso sin_isoformat sin_modelo sin_respuesta sin_json "P1"
    (Reply Ejemplo.detalle_ejemplo) Missing
    (HTTPError "503 Server Error" None) Ejemplo.almacen
  = (Ejemplo.almacen,
     Main.PaginaError "Error al obtener detalles"
       (Main.Lanzada (Exception "Error en la consulta a la API: 503 Server Error"))).
Proof.
  apply (proj1 (proj2 (proj2 (proj2
           (registro_sin_respuesta sin_isoformat Ejemplo.reloj_fijo sin_modelo
              sin_respuesta sin_json Ejemplo.almacen))))).
  reflexivity.
Defined.

(** ** When [guardar_empresa] raises *)

(** X19. [guardar_empresa] raises in one situation only: the hint
    carries the empty string as nit, which the lookup by nit skips and the
    uniqueness constraint counts, no party has the name of the hint, and a
    stored party has the empty string as nit. It then raises
    [IntegrityError] and writes nothing; on every other hint and store it
    returns a party. *)
Theorem guardar_empresa_raises_iff (datos_empresa : Datos.Empresa) (now : datetime)
    (s : Store) :
  let colision :=
    get (Datos.nit datos_empresa) = Some ""
    /\ first_by Empresa.nombre (get (Datos.nombre datos_empresa)) (empresas s) = None
    /\ first_by Empresa.nit (Some "") (empresas s) <> None in
  (colision -> guardar_empresa datos_empresa now s = (s, Raised IntegrityError))
  /\ (~ colision -> exists s1 e, guardar_empresa datos_empresa now s = (s1, Returned e)).
Proof.
  cbn zeta. split.
  - intros (Hnit & Hname & Hcol). unfold guardar_empresa, bind, query, ret.
    rewrite Hnit. cbn [truthy_str]. rewrite Hname. unfold insert_empresa.
    cbn [Empresa.nit]. rewrite unique_ok_first_by.
    now destruct (first_by Empresa.nit (Some "") (empresas s)).
  - intro Hno.
    assert (Hdec : get (Datos.nit datos_empresa) = Some ""
                   \/ get (Datos.nit datos_empresa) <> Some "").
    { destruct (get (Datos.nit datos_empresa)) as [[|c k]|];
        [now left | right; discriminate | right; discriminate]. }
    destruct Hdec as [Hnit|Hnit]; [|now apply guardar_empresa_returns].
    unfold guardar_empresa, bind, query, ret. rewrite Hnit in *. cbn [truthy_str andb].
    destruct (first_by Empresa.nombre (get (Datos.nombre datos_empresa)) (empresas s))
      as [e|] eqn:Hname; [eauto|].
    unfold insert_empresa. cbn [Empresa.nit]. rewrite unique_ok_first_by.
    destruct (first_by Empresa.nit (Some "") (empresas s)) eqn:Hcol; [|eauto].
    exfalso. apply Hno. repeat split; congruence.
Qed.

(** X19 on the example store: without a party of nit [''] the hint with
    the empty nit creates its party. *)
Lemma guardar_empresa_raises_iff_witness :
  exists s1 e,
    guardar_empresa (Datos.mkEmpresa (Val "BETA") Missing (Val "")) (midnight 2024 3 1)
      Ejemplo.almacen = (s1, Returned e).
Proof.
  apply (proj2 (guardar_empresa_raises_iff
                  (Datos.mkEmpresa (Val "BETA") Missing (Val "")) (midnight 2024 3 1)
                  Ejemplo.almacen)).
  intros (_ & _ & H). now apply H.
Defined.

(** ** The processes of a party after a search by name *)

Lemma ids_nuevos_fresh (l : list Datos.Proceso) :
  forall vistos k, In k (ids_nuevos vistos l) -> ~ In k vistos.
Proof.
  induction l as [|d l IH]; intros vistos k; cbn [ids_nuevos]; [intros []|].
  destruct (existsb (eq_str (get (Datos.idProceso d))) vistos) eqn:E.
  - apply IH.
  - intros [<-|Hk] Hv.
    + assert (existsb (eq_str (get (Datos.idProceso d))) vistos = true); [|congruence].
      apply existsb_exists. exists (get (Datos.idProceso d)).
      split; [assumption | apply eq_str_refl].
    + apply (IH _ _ Hk). apply in_or_app. now left.
Qed.

(** X20. After a search by name that the registry answered, on a store
    with distinct primary keys of processes: [obtener_procesos_empresa]
    for the party of the search lists every stored process whose
    identifier the answer brought for the first time. *)
Theorem obtener_procesos_empresa_after_search
    (fromisoformat : string -> option datetime) (relojes : nat -> datetime * datetime)
    (nombre tipo_persona : string) (resultados : Datos.Resultados) (s : Store) :
  NoDup (map Proceso.id (procesos s)) ->
  let s1 := fst (Main.buscar_razon_social fromisoformat relojes nombre tipo_persona
                   (Reply resultados) s) in
  exists listados,
    obtener_procesos_empresa (empresa_de nombre (empresas s)) s1 = (s1, Returned listados)
    /\ (forall r, In r (procesos s1) ->
          In (Proceso.id_proceso_api r)
            (ids_nuevos (map Proceso.id_proceso_api (procesos s))
               (Main.subscript_list (Datos.procesos resultados))) ->
          In r listados)
    /\ (forall k,
          In k (ids_nuevos (map Proceso.id_proceso_api (procesos s))
                  (Main.subscript_list (Datos.procesos resultados))) ->
          exists r, In r listados /\ Proceso.id_proceso_api r = k).
Proof.
  intros Hnd s1.
  assert (Hv : map vinculo (procesos s1)
               = (map vinculo (procesos s)
                  ++ map (fun k => (k, empresa_de nombre (empresas s)))
                       (ids_nuevos (map Proceso.id_proceso_api (procesos s))
                          (Main.subscript_list (Datos.procesos resultados))))%list).
  { subst s1.
    unfold Main.buscar_razon_social, Main.intentar, Main.luego, Main.llamada,
      Main.servicio, Main.hecho, consultar_por_razon_social.
    cbn [_make_request].
    destruct (Main.truthy_list (Datos.procesos resultados)) eqn:Ht.
    - destruct (guardar_procesos_con_nombre fromisoformat relojes nombre tipo_persona
                  (Main.subscript_list (Datos.procesos resultados)) 0 s Hnd)
        as (s' & Hl & H & _). now rewrite Hl.
    - rewrite (truthy_list_false _ Ht). cbn. now rewrite app_nil_r. }
  eexists. split; [reflexivity|].
  assert (Hlisted : forall r, In r (procesos s1) ->
            In (Proceso.id_proceso_api r)
              (ids_nuevos (map Proceso.id_proceso_api (procesos s))
                 (Main.subscript_list (Datos.procesos resultados))) ->
            In r (filter (fun p => eq_id (Proceso.empresa_id p)
                                     (empresa_de nombre (empresas s))) (procesos s1))).
  { intros r Hr Hk. apply filter_In. split; [assumption|].
    pose proof (in_map vinculo _ _ Hr) as Hin. rewrite Hv in Hin.
    apply in_app_or in Hin. destruct Hin as [Hold|Hnew].
    - exfalso. apply (ids_nuevos_fresh _ _ _ Hk).
      apply in_map_iff in Hold. destruct Hold as [r0 [E Hr0]].
      apply in_map_iff. exists r0. split; [|assumption].
      now injection E as -> _.
    - apply in_map_iff in Hnew. destruct Hnew as [k [E _]].
      injection E as _ <-. apply eq_id_refl. }
  split; [exact Hlisted|].
  intros k Hk.
  assert (Hin : In (k, empresa_de nombre (empresas s)) (map vinculo (procesos s1))).
  { rewrite Hv. apply in_or_app. right.
    apply (in_map (fun k => (k, empresa_de nombre (empresas s)))). exact Hk. }
  apply in_map_iff in Hin. destruct Hin as [r [E Hr]]. exists r.
  injection E as E1 E2. split; [|exact E1].
  apply Hlisted; [assumption | now rewrite E1].
Qed.

(** X20 on the example store: the search for ACME brings P2, which is
    then listed with P1 under the stored party. *)
Lemma obtener_procesos_empresa_after_search_witness :
  exists listados,
    obtener_procesos_empresa (Some 1)
      (fst (Main.buscar_razon_social sin_isoformat Ejemplo.reloj_fijo "ACME" "jur"
              (Reply (Datos.mkResultados (Val [Ejemplo.datos_P2]))) Ejemplo.almacen))
    = (fst (Main.buscar_razon_social sin_isoformat Ejemplo.reloj_fijo "ACME" "jur"
              (Reply (Datos.mkResultados (Val [Ejemplo.datos_P2]))) Ejemplo.almacen),
       Returned listados)
    /\ exists r, In r listados /\ Proceso.id_proceso_api r = Some "P2".
Proof.
  assert (Hnd : NoDup (map Proceso.id (procesos Ejemplo.almacen))).
  { constructor; [intros [] | constructor]. }
  destruct (obtener_procesos_empresa_after_search sin_isoformat Ejemplo.reloj_fijo
              "ACME" "jur" (Datos.mkResultados (Val [Ejemplo.datos_P2]))
              Ejemplo.almacen Hnd) as (listados & H1 & _ & H3).
  exists listados. split; [exact H1|]. apply H3. now left.
Defined.

(** * The key constraints are an invariant *)

Section Constraints.

Context {T : Type}.
Variable col : T -> option string.
Variable id : T -> option Z.

Lemma valores_In (tbl : list T) (k : string) :
  In k (valores col tbl) <-> exists r, In r tbl /\ col r = Some k.
Proof.
  unfold valores. rewrite in_flat_map. split; intros [r [Hr H]]; exists r.
  - destruct (col r) as [k'|]; [|contradiction]. destruct H as [->|[]]. auto.
  - rewrite H. split; [assumption | now left].
Qed.

Lemma valores_map (t1 t2 : list T) :
  map col t1 = map col t2 -> valores col t1 = valores col t2.
Proof.
  revert t2. induction t1 as [|x t1 IH]; intros [|y t2] H; try discriminate;
    [reflexivity|].
  cbn [map] in H. injection H as Hx Ht. unfold valores. cbn [flat_map].
  fold (valores col t1) (valores col t2). now rewrite Hx, (IH t2 Ht).
Qed.

Lemma unique_ok_true (k : string) (tbl : list T) :
  unique_ok col (Some k) tbl = true -> forall r, In r tbl -> col r <> Some k.
Proof.
  rewrite unique_ok_first_by.
  destruct (first_by col (Some k) tbl) eqn:E; [discriminate|]. intros _.
  now apply first_by_None.
Qed.

(** An INSERT that the constraint accepts. *)
Lemma insert_integro (tbl : list T) (r : T) :
  NoDup (map id tbl) /\ NoDup (valores col tbl) ->
  unique_ok col (col r) tbl = true -> id r = Some (next_id id tbl) ->
  NoDup (map id (tbl ++ [r])) /\ NoDup (valores col (tbl ++ [r])).
Proof.
  intros [Hpk Hu] Hok Hid. split.
  - rewrite map_app. cbn [map]. rewrite Hid. now apply NoDup_next_id.
  - unfold valores. rewrite flat_map_app. fold (valores col tbl). cbn [flat_map].
    destruct (col r) as [k|] eqn:Ek; cbn [app]; [|now rewrite app_nil_r].
    apply NoDup_app; [assumption | constructor; [intros []|constructor] | ].
    intros k' Hk' [<-|[]]. apply valores_In in Hk'. destruct Hk' as [x [Hx Ex]].
    exact (unique_ok_true k tbl Hok x Hx Ex).
Qed.

(** An UPDATE that leaves the unique column of its row as it is. *)
Lemma update_same_integro (tbl : list T) (p p' : T) :
  NoDup (map id tbl) /\ NoDup (valores col tbl) ->
  In p tbl -> id p' = id p -> col p' = col p ->
  NoDup (map id (update_row id p' tbl)) /\ NoDup (valores col (update_row id p' tbl)).
Proof.
  intros [Hpk Hu] Hin Hid Hcol. split.
  - now rewrite update_row_ids.
  - rewrite (valores_map (update_row id p' tbl) tbl); [assumption|].
    now apply (map_update_row_same id col p).
Qed.

Lemma valores_update_row (p' : T) (tbl : list T) (k : string) :
  In k (valores col (update_row id p' tbl)) ->
  In k (valores col tbl) \/ col p' = Some k.
Proof.
  intro H. apply valores_In in H. destruct H as [r [Hr Er]].
  apply update_row_In in Hr. destruct Hr as [->|Hr]; [now right|].
  left. apply valores_In. eauto.
Qed.

(** An UPDATE of the unique column that the constraint accepts. *)
Lemma update_unique_integro (p' : T) (tbl : list T) :
  NoDup (map id tbl) /\ NoDup (valores col tbl) ->
  unique_ok col (col p')
    (filter (fun r => negb (eq_id (id r) (id p'))) tbl) = true ->
  NoDup (map id (update_row id p' tbl)) /\ NoDup (valores col (update_row id p' tbl)).
Proof.
  intros [Hpk Hu] Hok. split; [now rewrite update_row_ids|].
  induction tbl as [|x t IH]; [constructor|].
  cbn [map] in Hpk. apply NoDup_cons_iff in Hpk. destruct Hpk as [Hx Hpk].
  unfold valores in Hu. cbn [flat_map] in Hu. fold (valores col t) in Hu.
  assert (Hut : NoDup (valores col t)) by (now apply NoDup_app_remove_l in Hu).
  unfold update_row. cbn [map]. fold (update_row id p' t).
  unfold valores. cbn [flat_map]. fold (valores col (update_row id p' t)).
  cbn [filter] in Hok.
  destruct (eq_id (id x) (id p')) eqn:Ex; cbn [negb] in Hok.
  - apply eq_id_iff in Ex.
    assert (Hfresh : forall r, In r t -> eq_id (id r) (id p') = false).
    { intros r Hr. apply not_true_is_false. intro E. apply eq_id_iff in E.
      apply Hx. rewrite Ex, <- E. now apply in_map. }
    rewrite (update_row_fresh id p' t Hfresh).
    destruct (col p') as [k|]; cbn [app]; [|assumption].
    constructor; [|assumption]. intro Hk. apply valores_In in Hk.
    destruct Hk as [r [Hr Er]].
    apply (unique_ok_true k _ Hok r); [|assumption].
    apply filter_In. split; [assumption|]. now rewrite (Hfresh r Hr).
  - assert (Hok' : unique_ok col (col p')
                     (filter (fun r => negb (eq_id (id r) (id p'))) t) = true).
    { destruct (col p') as [k|]; [|reflexivity]. cbn [unique_ok existsb] in Hok |- *.
      apply negb_true_iff in Hok. apply orb_false_iff in Hok.
      apply negb_true_iff. tauto. }
    specialize (IH Hpk Hut Hok').
    destruct (col x) as [kx|] eqn:Ekx; cbn [app]; [|assumption].
    constructor; [|assumption]. intro Hk.
    apply valores_update_row in Hk. destruct Hk as [Hk|Hk].
    + cbn [app] in Hu. apply NoDup_cons_iff in Hu. tauto.
    + rewrite Hk in Hok. apply (unique_ok_true kx _ Hok x); [now left | assumption].
Qed.

End Constraints.

Lemma integro_vacio : integro vacio.
Proof. repeat split; constructor. Qed.

Lemma guardar_empresa_integro (datos_empresa : Datos.Empresa) (now : datetime)
    (s : Store) :
  integro s -> integro (fst (guardar_empresa datos_empresa now s)).
Proof.
  intros (He & Hp & Ha & Hd). unfold guardar_empresa, bind, query, ret.
  destruct (if truthy_str _ then _ else None) as [e|]; [repeat split; tauto|].
  destruct (first_by Empresa.nombre _ (empresas s)) as [e|].
  - destruct (_ && _)%bool; [|repeat split; tauto].
    unfold update_nit. destruct (unique_ok _ _ _) eqn:Hok; [|repeat split; tauto].
    cbn [fst]. split; [|tauto]. cbn [empresas set_empresas].
    apply update_unique_integro; assumption.
  - unfold insert_empresa. cbn [Empresa.nit].
    destruct (unique_ok _ _ _) eqn:Hok; [|repeat split; tauto].
    cbn [fst]. split; [|tauto]. cbn [empresas set_empresas].
    apply insert_integro; [assumption | exact Hok | reflexivity].
Qed.

Lemma guardar_proceso_integro (fromisoformat : string -> option datetime)
    (datos_proceso : Datos.Proceso) (datos_empresa : option Datos.Empresa)
    (now_empresa now : datetime) (s : Store) :
  integro s ->
  integro (fst (guardar_proceso fromisoformat datos_proceso datos_empresa
                  now_empresa now s)).
Proof.
  intro Hs.
  destruct (first_by Proceso.id_proceso_api (get (Datos.idProceso datos_proceso))
              (procesos s)) as [p|] eqn:Hp.
  - destruct (guardar_proceso_existing fromisoformat datos_proceso datos_empresa
                now_empresa now s p Hp) as (v & p' & _ & Hp' & ->).
    destruct Hs as (He & Hpr & Ha & Hd). cbn [fst]. split; [exact He|].
    split; [|tauto]. cbn [procesos set_procesos].
    destruct (first_by_Some _ _ _ _ Hp) as [Hin _].
    apply (update_same_integro Proceso.id_proceso_api Proceso.id _ p);
      try assumption; subst p'; now destruct v.
  - unfold guardar_proceso, bind, query, lift. rewrite Hp.
    set (hint := match datos_empresa with
                 | Some de => if Datos.empresa_truthy de then _ else _
                 | None => _
                 end).
    assert (Hhint : integro (fst (hint s))).
    { subst hint. destruct datos_empresa as [de|]; [|exact Hs].
      destruct (Datos.empresa_truthy de); [|exact Hs].
      unfold bind, ret.
      pose proof (guardar_empresa_integro de now_empresa s Hs) as H.
      destruct (guardar_empresa de now_empresa s) as [s0 [e|x]]; exact H. }
    destruct (hint s) as [s0 [eid|x]]; [|exact Hhint]. cbn [fst] in Hhint.
    destruct (parse_date_returns fromisoformat (get (Datos.fechaProceso datos_proceso)))
      as [v1 ->].
    destruct (parse_date_returns fromisoformat
                (get (Datos.fechaUltimaActuacion datos_proceso))) as [v2 ->].
    unfold insert_proceso. cbn [Proceso.id_proceso_api].
    destruct (unique_ok _ _ _) eqn:Hok; [|exact Hhint].
    destruct Hhint as (He & Hpr & Ha & Hd). cbn [fst]. split; [exact He|].
    split; [|tauto]. cbn [procesos set_procesos].
    apply insert_integro; [assumption | exact Hok | reflexivity].
Qed.

Lemma con_proceso_integro (p p' : Proceso.t) (s : Store) :
  integro s -> In p (procesos s) ->
  Proceso.id p' = Proceso.id p -> Proceso.id_proceso_api p' = Proceso.id_proceso_api p ->
  integro (con_proceso p' s).
Proof.
  intros (He & Hpr & Ha & Hd) Hin Hid Hapi. split; [exact He|]. split; [|tauto].
  cbn [con_proceso procesos set_procesos].
  now apply (update_same_integro Proceso.id_proceso_api Proceso.id _ p).
Qed.

Lemma guardar_detalle_proceso_integro (id_proceso_api : option string)
    (detalle : Datos.Detalle) (s : Store) :
  integro s -> integro (fst (guardar_detalle_proceso id_proceso_api detalle s)).
Proof.
  intro Hs.
  destruct (first_by Proceso.id_proceso_api id_proceso_api (procesos s)) as [p|] eqn:Hp.
  - rewrite (guardar_detalle_proceso_found s _ detalle p Hp). cbn [fst].
    destruct (first_by_Some _ _ _ _ Hp) as [Hin _].
    destruct (con_detalle_keys detalle p) as [Hid Hapi].
    now apply (con_proceso_integro p).
  - now rewrite (guardar_detalle_proceso_absent s _ detalle Hp).
Qed.

Lemma guardar_resumen_proceso_integro (id_proceso_api : option string)
    (resumen' : string) (s : Store) :
  integro s -> integro (fst (guardar_resumen_proceso id_proceso_api resumen' s)).
Proof.
  intro Hs.
  destruct (first_by Proceso.id_proceso_api id_proceso_api (procesos s)) as [p|] eqn:Hp.
  - rewrite (guardar_resumen_proceso_found s _ resumen' p Hp). cbn [fst].
    destruct (first_by_Some _ _ _ _ Hp) as [Hin _].
    now apply (con_proceso_integro p).
  - now rewrite (guardar_resumen_proceso_absent s _ resumen' Hp).
Qed.

Lemma guardar_clasificacion_actuacion_integro (id_reg_actuacion : option string)
    (clasificacion : Datos.Clasificacion) (s : Store) :
  integro s ->
  integro (fst (guardar_clasificacion_actuacion id_reg_actuacion clasificacion s)).
Proof.
  intro Hs.
  destruct (first_by Actuacion.id_reg_actuacion id_reg_actuacion (actuaciones s))
    as [a|] eqn:Ha.
  - rewrite (guardar_clasificacion_actuacion_found s _ clasificacion a Ha). cbn [fst].
    destruct (first_by_Some _ _ _ _ Ha) as [Hin _].
    destruct Hs as (He & Hpr & Hac & Hd). split; [exact He|]. split; [exact Hpr|].
    split; [|exact Hd]. cbn [con_actuacion actuaciones set_actuaciones].
    now apply (update_same_integro Actuacion.id_reg_actuacion Actuacion.id _ a).
  - now rewrite (guardar_clasificacion_actuacion_absent s _ clasificacion Ha).
Qed.

Lemma confirmar_integro (l : list guardada) :
  forall cur tbl rows,
  confirmar cur l = Returned (tbl, rows) ->
  NoDup (map Actuacion.id cur) /\ NoDup (valores Actuacion.id_reg_actuacion cur) ->
  NoDup (map Actuacion.id tbl) /\ NoDup (valores Actuacion.id_reg_actuacion tbl).
Proof.
  induction l as [|[a|a] l IH]; intros cur tbl rows; cbn [confirmar].
  - intro H. injection H as <- _. exact (fun H => H).
  - destruct (confirmar cur l) as [[tbl' rows']|e] eqn:E; [|discriminate].
    intro H. injection H as <- _. now apply (IH cur tbl' rows').
  - destruct (negb _); [discriminate|].
    destruct (unique_ok _ _ _) eqn:Hok; [|discriminate].
    match goal with
    | |- context [confirmar (cur ++ [?row])%list l] =>
        destruct (confirmar (cur ++ [row])%list l) as [[tbl' rows']|e] eqn:E;
          [|discriminate]
    end.
    intro H. injection H as <- _. intro Hcur. apply (IH _ _ _ E).
    apply insert_integro; [assumption | exact Hok | reflexivity].
Qed.

Lemma confirmar_documentos_integro (l : list guardado) :
  forall cur tbl rows,
  confirmar_documentos cur l = Some (tbl, rows) ->
  NoDup (map Documento.id cur) /\ NoDup (valores Documento.id_reg_documento cur) ->
  NoDup (map Documento.id tbl) /\ NoDup (valores Documento.id_reg_documento tbl).
Proof.
  induction l as [|[d|d] l IH]; intros cur tbl rows; cbn [confirmar_documentos].
  - intro H. injection H as <- _. exact (fun H => H).
  - destruct (confirmar_documentos cur l) as [[tbl' rows']|] eqn:E; [|discriminate].
    intro H. injection H as <- _. now apply (IH cur tbl' rows').
  - destruct (unique_ok _ _ _) eqn:Hok; [|discriminate].
    match goal with
    | |- context [confirmar_documentos (cur ++ [?row])%list l] =>
        destruct (confirmar_documentos (cur ++ [row])%list l) as [[tbl' rows']|] eqn:E;
          [|discriminate]
    end.
    intro H. injection H as <- _. intro Hcur. apply (IH _ _ _ E).
    apply insert_integro; [assumption | exact Hok | reflexivity].
Qed.

Lemma guardar_actuaciones_integro (fromisoformat : string -> option datetime)
    (id_proceso_api : option string) (acts : list Datos.Actuacion) (s : Store) :
  integro s -> integro (fst (guardar_actuaciones fromisoformat id_proceso_api acts s)).
Proof.
  intro Hs. unfold guardar_actuaciones, bind, query, lift, raise, ret.
  destruct (first_by Proceso.id_proceso_api id_proceso_api (procesos s)) as [p|];
    [|exact Hs].
  rewrite recorrer_eq.
  destruct (confirmar (actuaciones s) _) as [[tbl rows]|e] eqn:E; [|exact Hs].
  destruct Hs as (He & Hpr & Hac & Hd). cbn [fst].
  split; [exact He|]. split; [exact Hpr|]. split; [|exact Hd].
  cbn [actuaciones set_actuaciones]. exact (confirmar_integro _ _ _ _ E Hac).
Qed.

Lemma guardar_documentos_integro (fromisoformat : string -> option datetime)
    (id_reg_actuacion : option string) (docs : list Datos.Documento) (s : Store) :
  integro s -> integro (fst (guardar_documentos fromisoformat id_reg_actuacion docs s)).
Proof.
  intro Hs. unfold guardar_documentos, bind, query, lift, raise, ret.
  destruct (first_by Actuacion.id_reg_actuacion id_reg_actuacion (actuaciones s))
    as [a|]; [|exact Hs].
  destruct (recorrer_documentos fromisoformat (documentos s) a docs) as [l|e];
    [|exact Hs].
  destruct (confirmar_documentos (documentos s) l) as [[tbl rows]|] eqn:E; [|exact Hs].
  destruct Hs as (He & Hpr & Hac & Hd). cbn [fst].
  split; [exact He|]. split; [exact Hpr|]. split; [exact Hac|].
  cbn [documentos set_documentos]. exact (confirmar_documentos_integro _ _ _ _ E Hd).
Qed.

(** X21. The key constraints of the schema are an invariant of the
    store: they hold in a new database, and every writer of
    [DatabaseService], whether it returns or raises, leads from a store in
    which the primary keys of each table are distinct and no [unique]
    column holds a value twice to a store of the same kind. *)
Theorem writers_keep_constraints (fromisoformat : string -> option datetime) :
  integro vacio
  /\ forall s, integro s ->
       (forall datos_empresa now, integro (fst (guardar_empresa datos_empresa now s)))
       /\ (forall datos_proceso datos_empresa now_empresa now,
             integro (fst (guardar_proceso fromisoformat datos_proceso datos_empresa
                             now_empresa now s)))
       /\ (forall id_proceso_api detalle,
             integro (fst (guardar_detalle_proceso id_proceso_api detalle s)))
       /\ (forall id_proceso_api resumen',
             integro (fst (guardar_resumen_proceso id_proceso_api resumen' s)))
       /\ (forall id_proceso_api acts,
             integro (fst (guardar_actuaciones fromisoformat id_proceso_api acts s)))
       /\ (forall id_reg_actuacion clasificacion,
             integro (fst (guardar_clasificacion_actuacion id_reg_actuacion
                             clasificacion s)))
       /\ (forall id_reg_actuacion docs,
             integro (fst (guardar_documentos fromisoformat id_reg_actuacion docs s))).
Proof.
  split; [exact integro_vacio|]. intros s Hs.
  split; [intros; now apply guardar_empresa_integro|].
  split; [intros; now apply guardar_proceso_integro|].
  split; [intros; now apply guardar_detalle_proceso_integro|].
  split; [intros; now apply guardar_resumen_proceso_integro|].
  split; [intros; now apply guardar_actuaciones_integro|].
  split; [intros; now apply guardar_clasificacion_actuacion_integro|].
  intros. now apply guardar_documentos_integro.
Qed.

(** ** The handlers keep the constraints *)

Lemma luego_integro {A B : Type} (m : Main.Handler A) (k : A -> Main.Handler B) :
  (forall s, integro s -> integro (fst (m s))) ->
  (forall a s, integro s -> integro (fst (k a s))) ->
  forall s, integro s -> integro (fst (Main.luego m k s)).
Proof.
  intros Hm Hk s Hs. unfold Main.luego. specialize (Hm s Hs).
  destruct (m s) as [s' [a|f]]; [now apply Hk | exact Hm].
Qed.

Lemma servicio_integro {A : Type} (m : M A) :
  (forall s, integro s -> integro (fst (m s))) ->
  forall s, integro s -> integro (fst (Main.servicio m s)).
Proof.
  intros Hm s Hs. unfold Main.servicio. specialize (Hm s Hs).
  now destruct (m s) as [s' [a|e]].
Qed.

Lemma llamada_integro {A : Type} (o : outcome A) :
  forall s, integro s -> integro (fst (Main.llamada o s)).
Proof. intros s Hs. unfold Main.llamada. now destruct o. Qed.

Lemma intentar_integro {C : Type} (cuerpo : Main.Handler C) (title : string) :
  (forall s, integro s -> integro (fst (cuerpo s))) ->
  forall s, integro s -> integro (fst (Main.intentar cuerpo title s)).
Proof.
  intros Hc s Hs. unfold Main.intentar. specialize (Hc s Hs).
  now destruct (cuerpo s) as [s' [c|f]].
Qed.

Lemma guardar_procesos_integro (fromisoformat : string -> option datetime)
    (relojes : nat -> datetime * datetime) (datos_empresa : option Datos.Empresa)
    (l : list Datos.Proceso) :
  forall i s, integro s ->
  integro (fst (Main.guardar_procesos fromisoformat relojes datos_empresa i l s)).
Proof.
  induction l as [|d l IH]; intros i s Hs; [exact Hs|].
  cbn [Main.guardar_procesos]. unfold bind.
  pose proof (guardar_proceso_integro fromisoformat d datos_empresa (fst (relojes i))
                (snd (relojes i)) s Hs) as H.
  destruct (guardar_proceso fromisoformat d datos_empresa _ _ s) as [s' [p|e]];
    [now apply IH | exact H].
Qed.

Lemma clasificar_actuaciones_integro
    (respuesta_modelo : Datos.Actuacion -> outcome string)
    (json_loads : string -> option Datos.Clasificacion) (l : list Datos.Actuacion) :
  forall s, integro s ->
  integro (fst (Main.clasificar_actuaciones respuesta_modelo json_loads l s)).
Proof.
  induction l as [|a l IH]; intros s Hs; [exact Hs|].
  cbn [Main.clasificar_actuaciones].
  apply luego_integro; [apply llamada_integro | | exact Hs]. intros c.
  apply luego_integro.
  { intros s0 H0. now destruct (Datos.idRegActuacion a). }
  intros k. apply luego_integro.
  { apply servicio_integro. intros s0.
    apply guardar_clasificacion_actuacion_integro. }
  intros _. apply luego_integro; [exact IH|]. intros cs s0 H0. exact H0.
Qed.

(** X22. Every handler of [app/main.py] keeps the key constraints of the
    schema, whatever the registry answers and whether the page or the
    error page is shown: from a store that satisfies them a request leads
    to a store that satisfies them. So the distinct primary keys that the
    properties of the handlers assume hold in every store reached from a
    new database through requests. *)
Theorem handlers_keep_constraints (fromisoformat : string -> option datetime)
    (relojes : nat -> datetime * datetime)
    (chat_invoke : string -> string -> outcome string)
    (respuesta_modelo : Datos.Actuacion -> outcome string)
    (json_loads : string -> option Datos.Clasificacion) (s : Store) :
  integro s ->
  (forall nombre tipo_persona registro,
     integro (fst (Main.buscar_razon_social fromisoformat relojes nombre tipo_persona
                     registro s)))
  /\ (forall numero registro,
        integro (fst (Main.buscar_radicado fromisoformat relojes numero registro s)))
  /\ (forall id_proceso registro_detalle fechaRadicacion registro_actuaciones,
        integro (fst (Main.detalle_proceso fromisoformat chat_invoke respuesta_modelo
                        json_loads id_proceso registro_detalle fechaRadicacion
                        registro_actuaciones s)))
  /\ (forall id_actuacion registro,
        integro (fst (Main.detalle_actuacion fromisoformat id_actuacion registro s))).
Proof.
  intro Hs. split; [|split; [|split]].
  - intros nombre tipo_persona registro. unfold Main.buscar_razon_social.
    apply intentar_integro; [|exact Hs].
    apply luego_integro; [apply llamada_integro|]. intro resultados.
    apply luego_integro; [|intros _ s0 H0; exact H0].
    apply servicio_integro. intros s0 H0.
    destruct (Main.truthy_list (Datos.procesos resultados)); [|exact H0].
    now apply guardar_procesos_integro.
  - intros numero registro. unfold Main.buscar_radicado.
    apply intentar_integro; [|exact Hs].
    apply luego_integro; [apply llamada_integro|]. intro resultados.
    apply luego_integro; [|intros _ s0 H0; exact H0].
    apply servicio_integro. intros s0 H0.
    destruct (Main.truthy_list (Datos.procesos resultados)); [|exact H0].
    now apply guardar_procesos_integro.
  - intros id_proceso rd fr ra. unfold Main.detalle_proceso.
    apply intentar_integro; [|exact Hs].
    apply luego_integro; [apply llamada_integro|]. intro detalle.
    apply luego_integro; [apply llamada_integro|]. intro acts.
    apply luego_integro.
    { apply servicio_integro. intro s0. apply guardar_detalle_proceso_integro. }
    intros _. apply luego_integro.
    { apply servicio_integro. intros s0 H0.
      destruct (Main.truthy_list (Datos.actuaciones acts)); [|exact H0].
      now apply guardar_actuaciones_integro. }
    intros _. apply luego_integro; [apply llamada_integro|]. intro resumen'.
    apply luego_integro.
    { apply servicio_integro. intro s0. apply guardar_resumen_proceso_integro. }
    intros _. apply luego_integro; [|intros cs s0 H0; exact H0].
    intros s0 H0. destruct (Main.truthy_list (Datos.actuaciones acts)); [|exact H0].
    now apply clasificar_actuaciones_integro.
  - intros id_actuacion registro. unfold Main.detalle_actuacion.
    apply intentar_integro; [|exact Hs].
    apply luego_integro; [apply llamada_integro|]. intro docs.
    apply luego_integro; [|intros _ s0 H0; exact H0].
    apply servicio_integro. intros s0 H0.
    destruct (Main.truthy_list (Datos.documentos docs)); [|exact H0].
    now apply guardar_documentos_integro.
Qed.

(** X22 from a new database: a search by name, then the page of one of
    its processes. *)
Lemma handlers_keep_constraints_witness :
  integro
    (fst (Main.detalle_proceso sin_isoformat sin_modelo sin_respuesta sin_json "P2"
            (Reply Ejemplo.detalle_ejemplo) Missing (Reply Ejemplo.actuaciones_P1)
            (fst (Main.buscar_razon_social sin_isoformat Ejemplo.reloj_fijo "ACME" "jur"
                    (Reply (Datos.mkResultados (Val [Ejemplo.datos_P2]))) vacio)))).
Proof.
  apply (handlers_keep_constraints sin_isoformat Ejemplo.reloj_fijo sin_modelo
           sin_respuesta sin_json).
  apply (handlers_keep_constraints sin_isoformat Ejemplo.reloj_fijo sin_modelo
           sin_respuesta sin_json vacio).
  repeat split; constructor.
Defined.
